(** * ValutaTrade Hub: rate snapshot, synchronizer and resolver

    A shallow embedding of the exchange-rate core of the repository:

    - [valutatrade_hub/core/utils.py]       (codes, pair keys, [parse_dt], TTL cache)
    - [valutatrade_hub/core/currencies.py]  (the currency registry)
    - [valutatrade_hub/infra/database.py]   (the JSON files: snapshot and history)
    - [valutatrade_hub/parser_service/storage.py]     ([write_snapshot])
    - [valutatrade_hub/parser_service/api_clients.py] ([ExchangeRateApiClient])
    - [valutatrade_hub/parser_service/updater.py]     ([run_update])
    - [valutatrade_hub/core/usecases.py]    ([_get_pair_rate], [get_rate],
                                             [_convert_amount])

    and, in the part on accounts, portfolios and trading,

    - [valutatrade_hub/infra/database.py]   (users, portfolios, session)
    - [valutatrade_hub/core/models.py]      ([User], [Wallet], [Portfolio])
    - [valutatrade_hub/core/usecases.py]    ([register], [login], the portfolio
                                             methods, [buy], [sell])

    Python values are modelled as follows.  A [float] is a primitive IEEE-754
    binary64 number.  A [str] is a [string] of ASCII text: the codes, names
    and passwords the functions are given are ASCII, so that [len] is
    [String.length] and [strip] and [upper] are those of [Str] (the
    messages in Russian are constants, never measured or stripped).  A
    [dict] keeps
    insertion order, so it is an association list updated in place
    ([PyDict]).  A call that may raise returns a [result].  The JSON files of
    the data directory are the fields of the record [DB]. *)

From Stdlib Require Import ZArith List String Ascii Bool Lia DecimalString.
From Stdlib Require Import Floats.PrimFloat Floats.SpecFloat Floats.FloatOps Floats.FloatAxioms.
From Stdlib Require Import Sorting.Permutation Sorting.Sorted.
Import ListNotations.

Local Open Scope string_scope.
Local Open Scope list_scope.
Local Open Scope Z_scope.

(* ================================================================= *)
(** ** Exceptions and results *)

(** The exception classes the modelled code raises or catches.  Every one of
    them is a subclass of [Exception].  [ApiRequestError] and
    [CurrencyNotFoundError] come from [core/exceptions.py]; they carry the
    argument the code constructs them with. *)
Inductive exn : Type :=
| ValueError (msg : string)
| TypeError (msg : string)
| RuntimeError (msg : string)
| ApiRequestError (reason : string)
| CurrencyNotFoundError (code : string)
| ZeroDivisionError (msg : string)
| JSONDecodeError (msg : string)
| RecursionError (msg : string).

Inductive result (A : Type) : Type :=
| Ok (a : A)
| Raise (e : exn).
Arguments Ok {A} a.
Arguments Raise {A} e.

Definition bind {A B : Type} (r : result A) (k : A -> result B) : result B :=
  match r with
  | Ok a => k a
  | Raise e => Raise e
  end.

Notation "x <- c ;; k" := (bind c (fun x => k))
  (at level 61, c at next level, right associativity).
Notation "c ;;; k" := (bind c (fun _ => k))
  (at level 61, right associativity).

Definition is_ok {A : Type} (r : result A) : bool :=
  match r with Ok _ => true | Raise _ => false end.

(* ================================================================= *)
(** ** Strings: [str.upper], [str.strip], [str.replace], [str.split] *)

Module Str.

(** [c.upper()] on an ASCII character. *)
Definition upper_ascii (c : ascii) : ascii :=
  let n := nat_of_ascii c in
  if (andb (Nat.leb 97 n) (Nat.leb n 122)) then ascii_of_nat (n - 32) else c.

Fixpoint upper (s : string) : string :=
  match s with
  | EmptyString => EmptyString
  | String c r => String (upper_ascii c) (upper r)
  end.

(** [c.isspace()] on an ASCII character: TAB, LF, VT, FF, CR, the four
    separators 0x1c-0x1f and the space. *)
Definition is_space (c : ascii) : bool :=
  let n := nat_of_ascii c in
  orb (andb (Nat.leb 9 n) (Nat.leb n 13))
      (orb (andb (Nat.leb 28 n) (Nat.leb n 31)) (Nat.eqb n 32)).

Fixpoint lstrip (s : string) : string :=
  match s with
  | EmptyString => EmptyString
  | String c r => if is_space c then lstrip r else s
  end.

(** [rstrip] keeps a character when something that is not a space follows
    it or when it is not a space itself. *)
Fixpoint rstrip (s : string) : string :=
  match s with
  | EmptyString => EmptyString
  | String c r =>
      match rstrip r with
      | EmptyString => if is_space c then EmptyString else String c EmptyString
      | r' => String c r'
      end
  end.

Definition strip (s : string) : string := rstrip (lstrip s).

Fixpoint contains_char (x : ascii) (s : string) : bool :=
  match s with
  | EmptyString => false
  | String c r => orb (Ascii.eqb c x) (contains_char x r)
  end.

Fixpoint forallb_string (p : ascii -> bool) (s : string) : bool :=
  match s with
  | EmptyString => true
  | String c r => andb (p c) (forallb_string p r)
  end.

Fixpoint drop (n : nat) (s : string) : string :=
  match n, s with
  | O, _ => s
  | S n', String _ r => drop n' r
  | S _, EmptyString => EmptyString
  end.

(** [s.replace(pat, t)] for a pattern that is not empty: the occurrences of
    [pat] are found from the left and do not overlap.  [fuel] bounds the
    number of steps; [replace] gives enough of it. *)
Fixpoint replace_from (fuel : nat) (pat t s : string) : string :=
  match fuel with
  | O => s
  | S fuel' =>
      match s with
      | EmptyString => EmptyString
      | String c r =>
          if String.prefix pat s
          then String.append t (replace_from fuel' pat t (drop (String.length pat) s))
          else String c (replace_from fuel' pat t r)
      end
  end.

Definition replace (pat t s : string) : string :=
  replace_from (S (String.length s)) pat t s.

(** [s.split(x, maxsplit=1)]: [None] when [x] does not occur (the list has
    one element), the two parts around the first [x] otherwise. *)
Fixpoint split_once (x : ascii) (s : string) : option (string * string) :=
  match s with
  | EmptyString => None
  | String c r =>
      if Ascii.eqb c x then Some (EmptyString, r)
      else match split_once x r with
           | Some (a, b) => Some (String c a, b)
           | None => None
           end
  end.

(** [a == b] on values that are a [str] or [None]. *)
Definition option_eqb (a b : option string) : bool :=
  match a, b with
  | Some x, Some y => String.eqb x y
  | None, None => true
  | _, _ => false
  end.

End Str.

(* ================================================================= *)
(** ** Python dictionaries: insertion-ordered, keyed by strings *)

Module PyDict.

Definition t (V : Type) : Type := list (string * V).

Definition keys {V : Type} (d : t V) : list string := map fst d.

(** [d.get(k)] / [d[k]]. *)
Fixpoint get {V : Type} (k : string) (d : t V) : option V :=
  match d with
  | [] => None
  | (k', v) :: r => if String.eqb k' k then Some v else get k r
  end.

(** [k in d]. *)
Definition mem {V : Type} (k : string) (d : t V) : bool :=
  match get k d with Some _ => true | None => false end.

(** [d[k] = v]: an existing key keeps its position, a new key goes last. *)
Fixpoint set {V : Type} (k : string) (v : V) (d : t V) : t V :=
  match d with
  | [] => [(k, v)]
  | (k', v') :: r =>
      if String.eqb k' k then (k', v) :: r else (k', v') :: set k v r
  end.


End PyDict.


(* ================================================================= *)
(** ** The runtime outside the sources *)

(** A [datetime]: whether it carries a UTC offset ([dt_aware]) and its value
    in microseconds, the UTC instant of an aware one and the wall-clock
    reading of a naive one. *)
Record datetime : Type := mk_datetime {
  dt_aware : bool;
  dt_micros : Z
}.

(** [a > b] on datetimes: two naive or two aware values are ordered by their
    value; a naive and an aware one cannot be ordered and [>] raises
    [TypeError]. *)
Definition dt_gt (a b : datetime) : result bool :=
  if Bool.eqb (dt_aware a) (dt_aware b) then Ok (dt_micros b <? dt_micros a)
  else Raise (TypeError "can't compare offset-naive and offset-aware datetimes").

(** What the modelled code takes from the standard library and from
    [core/exceptions.py], which is not among the sources:
    [datetime.fromisoformat] ([None] when it raises [ValueError]),
    [dt.isoformat()] of an aware UTC datetime, [email.utils]'
    [parsedate_to_datetime] followed by [astimezone(UTC)] ([None] when it
    raises), and how the two exception classes of the project render under
    [str(e)]. *)
Class Runtime : Type := {
  fromisoformat : string -> option datetime;
  isoformat : datetime -> string;
  parsedate_to_datetime : string -> option datetime;
  str_ApiRequestError : string -> string;
  str_CurrencyNotFoundError : string -> string
}.

(** [str(e)]. *)
Definition exn_str {RT : Runtime} (e : exn) : string :=
  match e with
  | ValueError m | TypeError m | RuntimeError m => m
  | ZeroDivisionError m | JSONDecodeError m | RecursionError m => m
  | ApiRequestError r => str_ApiRequestError r
  | CurrencyNotFoundError c => str_CurrencyNotFoundError c
  end.

(* ================================================================= *)
(** ** [core/utils.py] *)

Module Utils.

Definition is_upper_AZ (c : ascii) : bool :=
  let n := nat_of_ascii c in andb (Nat.leb 65 n) (Nat.leb n 90).

Definition letters_2_5 (s : string) : bool :=
  andb (andb (Nat.leb 2 (String.length s)) (Nat.leb (String.length s) 5))
       (Str.forallb_string is_upper_AZ s).

(** [_CODE_RE.match(c)] for [^[A-Z]{2,5}$]: the [$] also matches just before
    a final newline. *)
Fixpoint drop_final_newline (s : string) : option string :=
  match s with
  | EmptyString => None
  | String c EmptyString => if Ascii.eqb c "010" then Some EmptyString else None
  | String c r =>
      match drop_final_newline r with
      | Some r' => Some (String c r')
      | None => None
      end
  end.

Definition code_re_match (c : string) : bool :=
  orb (letters_2_5 c)
      (match drop_final_newline c with
       | Some c' => letters_2_5 c'
       | None => false
       end).

Definition validate_currency_code (code : string) : result unit :=
  let c := Str.upper (Str.strip code) in
  if orb (Str.contains_char " " c) (negb (code_re_match c))
  then Raise (ValueError "code — верхний регистр, 2–5 символов, без пробелов")
  else Ok tt.

(** [pair_key]: both codes in upper case around an underscore. *)
Definition pair_key (from_code to_code : string) : string :=
  String.append (Str.upper from_code) (String.append "_" (Str.upper to_code)).

(** [parse_dt]: every [Z] becomes [+00:00], then [datetime.fromisoformat]. *)
Definition parse_dt {RT : Runtime} (s : string) : result datetime :=
  let ss := Str.replace "Z" "+00:00" s in
  match fromisoformat ss with
  | Some d => Ok d
  | None => Raise (ValueError "Invalid isoformat string")
  end.

(** [isoformat_dt]: a naive datetime is read as UTC, microseconds are
    dropped, and the [+00:00] of the rendering becomes [Z]. *)
Definition isoformat_dt {RT : Runtime} (dt : datetime) : string :=
  let dt := if dt_aware dt then dt else mk_datetime true (dt_micros dt) in
  let dt := mk_datetime true (dt_micros dt - dt_micros dt mod 1000000) in
  Str.replace "+00:00" "Z" (isoformat dt).

(** [make_ttl_cache] applied to a function of no argument: the closure's
    [cache] holds at most the entry of the empty argument tuple, the time it
    was stored at and the value.  [wrapped] takes the reading [now] of
    [time.monotonic()] and the wrapped function's result [fn]. *)
Definition ttl_cache (T : Type) : Type := option (Z * T).

Definition wrapped {T : Type} (ttl_seconds : Z) (now : Z) (fn : T)
    (cache : ttl_cache T) : T * ttl_cache T :=
  let ttl := Z.max 0 ttl_seconds in
  match cache with
  | Some (ts, val) =>
      if now - ts <=? ttl then (val, cache) else (fn, Some (now, fn))
  | None => (fn, Some (now, fn))
  end.

End Utils.

(* ================================================================= *)
(** ** [core/currencies.py] *)

Module Currencies.

Inductive Currency : Type :=
| FiatCurrency (name code issuing_country : string)
| CryptoCurrency (name code algorithm : string) (market_cap : float).

Definition _REGISTRY : PyDict.t Currency :=
  [ ("USD", FiatCurrency "US Dollar" "USD" "United States");
    ("EUR", FiatCurrency "Euro" "EUR" "Eurozone");
    ("GBP", FiatCurrency "British Pound" "GBP" "United Kingdom");
    ("RUB", FiatCurrency "Russian Ruble" "RUB" "Russia");
    ("BTC", CryptoCurrency "Bitcoin" "BTC" "SHA-256" 1.12e12%float);
    ("ETH", CryptoCurrency "Ethereum" "ETH" "Ethash" 4.50e11%float);
    ("SOL", CryptoCurrency "Solana" "SOL" "PoH" 7.00e10%float) ].

Definition get_currency (code : string) : result Currency :=
  let code_u := Str.strip (Str.upper code) in
  match PyDict.get code_u _REGISTRY with
  | Some c => Ok c
  | None => Raise (CurrencyNotFoundError code_u)
  end.

End Currencies.

(* ================================================================= *)
(** ** The persisted data *)

(** One entry of the snapshot's [pairs]: [{"rate", "updated_at", "source"}]. *)
Record RatePoint : Type := mk_RatePoint {
  rate : float;
  updated_at : string;
  source : string
}.

(** The snapshot document: [{"pairs": {...}, "last_refresh": ... | null}]. *)
Record Snapshot : Type := mk_Snapshot {
  pairs : PyDict.t RatePoint;
  last_refresh : option string
}.

Record HistoryMeta : Type := mk_HistoryMeta {
  raw_id : option string;
  request_ms : option Z;
  status_code : option Z;
  etag : option string
}.

(** One row of the history document.  [h_id] is what [e.get("id")] gives. *)
Record HistoryEntry : Type := mk_HistoryEntry {
  h_id : option string;
  from_currency : string;
  to_currency : string;
  h_rate : float;
  timestamp : string;
  h_source : string;
  meta : HistoryMeta
}.

(* ================================================================= *)
(** ** [infra/database.py] *)

Module Database.

(** The files of the data directory the core uses: [rates.json] and
    [exchange_rates.json].  [None] is a file that does not exist (or holds
    a false value), where [read_json(...) or default] gives the default. *)
Record DB : Type := mk_DB {
  rates_json : option Snapshot;
  history_json : option (list HistoryEntry)
}.

Definition read_rates (db : DB) : Snapshot :=
  match rates_json db with
  | Some data => data
  | None => mk_Snapshot [] None
  end.

(** [write_json_atomic] replaces the whole file in one step. *)
Definition write_rates (db : DB) (data : Snapshot) : DB :=
  mk_DB (Some data) (history_json db).

Definition read_history (db : DB) : list HistoryEntry :=
  match history_json db with
  | Some h => h
  | None => []
  end.

(** [i in existing_ids]. *)
Definition id_in (i : option string) (ids : list (option string)) : bool :=
  existsb (Str.option_eqb i) ids.

(** [append_history]: [existing_ids] is computed once, from the history as
    read; the loop appends every entry whose id is not in it. *)
Definition append_history (db : DB) (entries : list HistoryEntry) : DB :=
  let history := read_history db in
  let existing_ids := map h_id history in
  let history' :=
    fold_left
      (fun h e => if negb (id_in (h_id e) existing_ids) then h ++ [e] else h)
      entries history in
  mk_DB (rates_json db) (Some history').

End Database.

(* ================================================================= *)
(** ** [parser_service/storage.py] *)

Module Storage.
Import Database.

Section WithRuntime.
Context {RT : Runtime}.

(** The body of the [try]: [parse_dt(v["updated_at"]) > parse_dt(old["updated_at"])]. *)
Definition incoming_is_newer (v old : RatePoint) : result bool :=
  a <- Utils.parse_dt (updated_at v) ;;
  b <- Utils.parse_dt (updated_at old) ;;
  dt_gt a b.

(** One turn of the loop over [pairs.items()]. *)
Definition merge_item (cur_pairs : PyDict.t RatePoint) (kv : string * RatePoint)
    : PyDict.t RatePoint :=
  let (k, v) := kv in
  match PyDict.get k cur_pairs with
  | None => PyDict.set k v cur_pairs
  | Some old =>
      match incoming_is_newer v old with
      | Ok true => PyDict.set k v cur_pairs
      | Ok false => cur_pairs
      | Raise _ => PyDict.set k v cur_pairs
      end
  end.

(** The loop itself, over the payload in its order. *)
Definition merge_pairs (new_pairs : PyDict.t RatePoint) (cur_pairs : PyDict.t RatePoint)
    : PyDict.t RatePoint :=
  fold_left merge_item new_pairs cur_pairs.

(** [write_snapshot(pairs, last_refresh)]: the two arguments are called
    [new_pairs] and [refreshed_at] here, next to the fields [pairs] and
    [last_refresh] of the stored document. *)
Definition write_snapshot (db : DB) (new_pairs : PyDict.t RatePoint)
    (refreshed_at : string) : DB :=
  let current := read_rates db in
  let cur_pairs := merge_pairs new_pairs (pairs current) in
  write_rates db (mk_Snapshot cur_pairs (Some refreshed_at)).

End WithRuntime.
End Storage.


(* ================================================================= *)
(** ** Python arithmetic on floats *)

(** [a / b]: Python raises on a zero divisor where IEEE-754 gives an
    infinity or a NaN. *)
Definition py_truediv (a b : float) : result float :=
  if (b =? 0)%float then Raise (ZeroDivisionError "float division by zero")
  else Ok (a / b)%float.

(** [str(n)] for an [int]. *)
Definition str_int (z : Z) : string := NilZero.string_of_int (Z.to_int z).

(* ================================================================= *)
(** ** [parser_service/config.py] (not among the sources) *)

(** The fields of [ParserConfig] the modelled code reads.  The class itself
    is not among the sources, so a configuration is an argument of every
    function that uses one. *)
Record ParserConfig : Type := mk_ParserConfig {
  EXCHANGERATE_API_KEY : option string;
  BASE_CURRENCY : string;
  FIAT_CURRENCIES : list string;
  CRYPTO_CURRENCIES : list string;
  CRYPTO_ID_MAP : PyDict.t string
}.

(* ================================================================= *)
(** ** [parser_service/api_clients.py] *)

(** [last_meta]: the keys the updater reads, [None] for a key that is absent
    (or holds [None]). *)
Record FetchMeta : Type := mk_FetchMeta {
  m_source : option string;
  m_timestamp : option string;
  m_request_ms : option Z;
  m_status_code : option Z;
  m_etag : option string
}.

Definition empty_meta : FetchMeta := mk_FetchMeta None None None None None.

Module ApiClients.

(** A value found under [rates[code]], by what the code does with it:
    [raw is None], [float(raw)] returns, or [float(raw)] raises. *)
Inductive raw_value : Type :=
| RawNone
| RawNumber (value : float)
| RawBad (e : exn).

(** The decoded body of the provider's answer: [data.get("result")],
    [data.get("error-type")], [data.get("rates", {})] and
    [data.get("time_last_update_utc")].  [p_error_type] is [None] when the
    key is absent and otherwise the text the error message shows for its
    value, [str(value)]: the string itself, or [Some "None"] for a JSON
    [null]. *)
Record Payload : Type := mk_Payload {
  p_result : option string;
  p_error_type : option string;
  p_rates : PyDict.t raw_value;
  p_time_last_update_utc : option string
}.

(** What [requests.get] gives: a transport failure, or a response with its
    status code, text, [ETag] header and decoded body ([None] when
    [resp.json()] raises). *)
Record Response : Type := mk_Response {
  resp_status_code : Z;
  resp_text : string;
  resp_etag : option string;
  resp_json : option Payload
}.

Inductive http_result : Type :=
| RequestException (msg : string)
| HttpResponse (resp : Response).

(** One request as the client sees it: the answer, the measured latency
    [ms] and the reading of [datetime.now(UTC)]. *)
Record Exchange : Type := mk_Exchange {
  x_http : http_result;
  x_ms : Z;
  x_now : datetime
}.

Definition truthy (s : option string) : bool :=
  match s with
  | Some EmptyString | None => false
  | Some _ => true
  end.

(** One turn of the loop over [FIAT_CURRENCIES]. *)
Definition fiat_step (cfg : ParserConfig) (rates : PyDict.t raw_value)
    (out : PyDict.t float) (code : string) : result (PyDict.t float) :=
  Utils.validate_currency_code code ;;;
  if String.eqb code (BASE_CURRENCY cfg) then Ok out
  else
    match PyDict.get code rates with
    | None | Some RawNone => Ok out
    | Some (RawBad e) => Raise e
    | Some (RawNumber value) =>
        if (value =? 0)%float then Ok out
        else
          q <- py_truediv 1 value ;;
          Ok (PyDict.set (Utils.pair_key code (BASE_CURRENCY cfg)) q out)
    end.

Fixpoint fiat_loop (cfg : ParserConfig) (rates : PyDict.t raw_value)
    (codes : list string) (out : PyDict.t float) : result (PyDict.t float) :=
  match codes with
  | [] => Ok out
  | code :: rest =>
      out' <- fiat_step cfg rates out code ;;
      fiat_loop cfg rates rest out'
  end.

Definition status_check (resp : Response) : result unit :=
  let sc := resp_status_code resp in
  if orb (sc =? 401) (sc =? 403)
  then Raise (ApiRequestError "ExchangeRate-API: неверный/заблокированный API ключ (401/403)")
  else if sc =? 429
  then Raise (ApiRequestError "ExchangeRate-API: 429 Too Many Requests (лимит запросов)")
  else if andb (500 <=? sc) (sc <=? 599)
  then Raise (ApiRequestError (String.append "ExchangeRate-API: server error " (str_int sc)))
  else if negb (sc =? 200)
  then Raise (ApiRequestError
         (String.append "ExchangeRate-API: status="
            (String.append (str_int sc)
               (String.append ": " (substring 0 200 (resp_text resp))))))
  else Ok tt.

(** [ExchangeRateApiClient.fetch_rates]: the returned map and the
    [last_meta] it leaves on the client. *)
Definition fetch_rates {RT : Runtime} (cfg : ParserConfig) (x : Exchange)
    : result (PyDict.t float * FetchMeta) :=
  if negb (truthy (EXCHANGERATE_API_KEY cfg))
  then Raise (ApiRequestError
         "ExchangeRate-API key is missing (set EXCHANGERATE_API_KEY env var)")
  else
    match x_http x with
    | RequestException e =>
        Raise (ApiRequestError (String.append "ExchangeRate-API network error: " e))
    | HttpResponse resp =>
        status_check resp ;;;
        match resp_json resp with
        | None => Raise (JSONDecodeError "Expecting value")
        | Some data =>
            if negb (Str.option_eqb (p_result data) (Some "success"))
            then Raise (ApiRequestError
                   (String.append "ExchangeRate-API error: "
                      (match p_error_type data with
                       | Some t => t
                       | None => "unknown"
                       end)))
            else
              dt <- (if truthy (p_time_last_update_utc data)
                     then match p_time_last_update_utc data with
                          | Some utc_str =>
                              match parsedate_to_datetime utc_str with
                              | Some d => Ok d
                              | None => Raise (ValueError "Invalid date value or format")
                              end
                          | None => Ok (x_now x)
                          end
                     else Ok (x_now x)) ;;
              out <- fiat_loop cfg (p_rates data) (FIAT_CURRENCIES cfg) [] ;;
              Ok (out,
                  mk_FetchMeta (Some "ExchangeRate-API")
                    (Some (Utils.isoformat_dt dt))
                    (Some (x_ms x))
                    (Some (resp_status_code resp))
                    (resp_etag resp))
        end
    end.

End ApiClients.


(* ================================================================= *)
(** ** [parser_service/updater.py] *)

Module Updater.
Import Database.

(** A configured client, by what it does on this run: its class name
    ([type(client).__name__]), what [fetch_rates()] returns or raises, and
    the [last_meta] it holds afterwards. *)
Record Client : Type := mk_Client {
  client_name : string;
  fetch_result : result (PyDict.t float);
  last_meta : FetchMeta
}.

(** A value of the report's [sources]: [{"ok": True, "count": n}] or
    [{"ok": False, "error": msg}]. *)
Inductive SourceEntry : Type :=
| SourceOk (count : Z)
| SourceFailed (error : string).

Record SyncReport : Type := mk_SyncReport {
  ok : bool;
  total : Z;
  r_last_refresh : string;
  errors : list string;
  sources : PyDict.t SourceEntry
}.

(** The local variables of [run_update] that the loop over the clients
    updates. *)
Record RunState : Type := mk_RunState {
  combined : PyDict.t RatePoint;
  history_entries : list HistoryEntry;
  st_total : Z;
  st_errors : list string;
  st_sources : PyDict.t SourceEntry
}.

Definition init_state : RunState := mk_RunState [] [] 0 [] [].

Definition or_default (o : option string) (d : string) : string :=
  match o with
  | Some s => s
  | None => d
  end.

Section WithRuntime.
Context {RT : Runtime}.
Variable cfg : ParserConfig.

(** The loop over [rates.items()].  It writes [combined] and
    [history_entries] as it goes, so what it wrote before an exception
    stays written; the result is the final [count] or the exception. *)
Fixpoint pairs_loop (source updated_at : string) (meta : FetchMeta)
    (items : list (string * float))
    (comb : PyDict.t RatePoint) (hist : list HistoryEntry) (count : Z)
    : PyDict.t RatePoint * list HistoryEntry * result Z :=
  match items with
  | [] => (comb, hist, Ok count)
  | (pair_k, r) :: rest =>
      let comb := PyDict.set pair_k (mk_RatePoint r updated_at source) comb in
      let count := count + 1 in
      match Str.split_once "_" pair_k with
      | None =>
          (comb, hist, Raise (ValueError "not enough values to unpack (expected 2, got 1)"))
      | Some (from_cur, to_cur) =>
          let entry_id :=
            String.append from_cur
              (String.append "_" (String.append to_cur (String.append "_" updated_at))) in
          let extra :=
            mk_HistoryMeta (PyDict.get from_cur (CRYPTO_ID_MAP cfg))
              (m_request_ms meta) (m_status_code meta) (m_etag meta) in
          let entry :=
            mk_HistoryEntry (Some entry_id) from_cur to_cur r updated_at source extra in
          pairs_loop source updated_at meta rest comb (hist ++ [entry]) count
      end
  end.

(** The [except] branch. *)
Definition record_failure (name : string) (e : exn) (comb : PyDict.t RatePoint)
    (hist : list HistoryEntry) (st : RunState) : RunState :=
  let err :=
    String.append "Failed to fetch from "
      (String.append name (String.append ": " (exn_str e))) in
  mk_RunState comb hist (st_total st) (st_errors st ++ [err])
    (PyDict.set name (SourceFailed (exn_str e)) (st_sources st)).

(** One turn of the loop over [self.clients]. *)
Definition client_step (last_refresh : string) (st : RunState) (client : Client)
    : RunState :=
  let name := client_name client in
  match fetch_result client with
  | Raise e => record_failure name e (combined st) (history_entries st) st
  | Ok rates =>
      let meta := last_meta client in
      let source := or_default (m_source meta) name in
      let updated_at := or_default (m_timestamp meta) last_refresh in
      match pairs_loop source updated_at meta rates
              (combined st) (history_entries st) 0 with
      | (comb, hist, Ok count) =>
          mk_RunState comb hist (st_total st + count) (st_errors st)
            (PyDict.set name (SourceOk count) (st_sources st))
      | (comb, hist, Raise e) => record_failure name e comb hist st
      end
  end.

Definition run_clients (last_refresh : string) (clients : list Client) : RunState :=
  fold_left (client_step last_refresh) clients init_state.

(** [run_update]: [last_refresh] is the reading of [iso_now_utc()] taken
    before the first client is called.  The result is the report or the
    exception, with the files as the run leaves them. *)
Definition run_update (clients : list Client) (last_refresh : string) (db : DB)
    : result SyncReport * DB :=
  let st := run_clients last_refresh clients in
  if st_total st =? 0
  then (Raise (RuntimeError "No rates fetched from any source"), db)
  else
    let db := Storage.write_snapshot db (combined st) last_refresh in
    let db := append_history db (history_entries st) in
    match st_errors st with
    | _ :: _ =>
        (Ok (mk_SyncReport false (st_total st) last_refresh (st_errors st) (st_sources st)), db)
    | [] =>
        (Ok (mk_SyncReport true (st_total st) last_refresh [] (st_sources st)), db)
    end.

End WithRuntime.
End Updater.

(** An [ExchangeRateApiClient] as the updater sees it on one run: the map
    [fetch_rates] returns and the [last_meta] it leaves, or the exception
    it raises and the [last_meta] the client held before. *)
Definition exchange_rate_client {RT : Runtime} (cfg : ParserConfig)
    (x : ApiClients.Exchange) (prior_meta : FetchMeta) : Updater.Client :=
  match ApiClients.fetch_rates cfg x with
  | Ok (out, m) => Updater.mk_Client "ExchangeRateApiClient" (Ok out) m
  | Raise e => Updater.mk_Client "ExchangeRateApiClient" (Raise e) prior_meta
  end.

(* ================================================================= *)
(** ** [core/usecases.py] *)

Module UseCases.
Import Database.

(** The state of a [CoreUseCases] object the resolver touches: the closure
    of the TTL cache around [db.read_rates] and the files.  Readings of
    [time.monotonic()] are whole numbers of seconds here. *)
Record UC : Type := mk_UC {
  uc_cache : Utils.ttl_cache Snapshot;
  uc_db : DB
}.

(** The dictionary [get_rate] returns. *)
Record RateInfo : Type := mk_RateInfo {
  ri_from : string;
  ri_to : string;
  ri_rate : float;
  ri_updated_at : string;
  ri_stale : bool
}.

(** One refresh as [_try_refresh_rates] runs it: the configuration it
    builds, the reading of [iso_now_utc()] and what the two clients it
    constructs do. *)
Record Refresh : Type := mk_Refresh {
  rf_cfg : ParserConfig;
  rf_last_refresh : string;
  rf_coingecko : result (PyDict.t float) * FetchMeta;
  rf_exchangerate : result (PyDict.t float) * FetchMeta
}.

Section WithRuntime.
Context {RT : Runtime}.

(** [rates_ttl_seconds] of the settings, already an [int]. *)
Variable rates_ttl_seconds : Z.

(** [self._cached_rates()] at the monotonic reading [now]:
    [_build_rates_reader] wraps [db.read_rates] with [max(1, ttl)]. *)
Definition _cached_rates (now : Z) (uc : UC) : Snapshot * UC :=
  let (snapshot, cache) :=
    Utils.wrapped (Z.max 1 rates_ttl_seconds) now (read_rates (uc_db uc)) (uc_cache uc) in
  (snapshot, mk_UC cache (uc_db uc)).

(** [_get_pair_rate].  The recursion of the source goes through the bridge
    step only, towards ["USD"]; [fuel] bounds its depth, and
    [_get_pair_rate] below gives it more than it can use.  [now] is the
    reading of the monotonic clock during the call, the nested lookups
    included. *)
Fixpoint _get_pair_rate_fuel (fuel : nat) (now : Z) (from_code to_code : string)
    (uc : UC) : result (float * string) * UC :=
  match fuel with
  | O => (Raise (RecursionError "maximum recursion depth exceeded"), uc)
  | S fuel' =>
      match Utils.validate_currency_code from_code ;;;
            Utils.validate_currency_code to_code ;;;
            Currencies.get_currency from_code ;;;
            Currencies.get_currency to_code with
      | Raise e => (Raise e, uc)
      | Ok _ =>
          let (snapshot, uc) := _cached_rates now uc in
          let prs := pairs snapshot in
          let key := Utils.pair_key from_code to_code in
          match PyDict.get key prs with
          | Some item => (Ok (rate item, updated_at item), uc)
          | None =>
              let rev := Utils.pair_key to_code from_code in
              match PyDict.get rev prs with
              | Some item =>
                  let r := rate item in
                  if (r =? 0)%float
                  then (Raise (ApiRequestError "Нулевой курс в кеше"), uc)
                  else (q <- py_truediv 1 r ;; Ok (q, updated_at item), uc)
              | None =>
                  if andb (negb (String.eqb from_code "USD"))
                          (negb (String.eqb to_code "USD"))
                  then
                    match _get_pair_rate_fuel fuel' now from_code "USD" uc with
                    | (Raise e, uc) => (Raise e, uc)
                    | (Ok (r_from, upd), uc) =>
                        match _get_pair_rate_fuel fuel' now to_code "USD" uc with
                        | (Raise e, uc) => (Raise e, uc)
                        | (Ok (r_to, _), uc) =>
                            if (r_to =? 0)%float
                            then (Raise (ApiRequestError "Нулевой курс USD-моста"), uc)
                            else (q <- py_truediv r_from r_to ;; Ok (q, upd), uc)
                        end
                    end
                  else
                    (Raise (ApiRequestError
                       (String.append "Курс "
                          (String.append from_code
                             (String.append "→"
                                (String.append to_code " не найден в кеше"))))), uc)
              end
          end
      end
  end.

Definition _get_pair_rate (now : Z) (from_code to_code : string) (uc : UC)
    : result (float * string) * UC :=
  _get_pair_rate_fuel 3 now from_code to_code uc.

(** The clients [_try_refresh_rates] hands to the updater. *)
Definition refresh_clients (rf : Refresh) : list Updater.Client :=
  [ Updater.mk_Client "CoinGeckoClient" (fst (rf_coingecko rf)) (snd (rf_coingecko rf));
    Updater.mk_Client "ExchangeRateApiClient" (fst (rf_exchangerate rf))
      (snd (rf_exchangerate rf)) ].

(** [_try_refresh_rates]: a successful run replaces the reader by one with
    an empty cache; any exception becomes [ApiRequestError(str(e))]. *)
Definition _try_refresh_rates (rf : Refresh) (uc : UC) : result unit * UC :=
  match Updater.run_update (rf_cfg rf) (refresh_clients rf) (rf_last_refresh rf)
          (uc_db uc) with
  | (Ok _, db) => (Ok tt, mk_UC None db)
  | (Raise e, db) => (Raise (ApiRequestError (exn_str e)), mk_UC (uc_cache uc) db)
  end.

(** The staleness flag: [(datetime.now(UTC) - parse_dt(updated_at))
    .total_seconds() > ttl], and [True] on any exception (a timestamp that
    does not parse, or a naive one, which cannot be subtracted from an
    aware one).  Ages are compared in whole microseconds. *)
Definition is_stale (utc_now : datetime) (upd : string) : bool :=
  match Utils.parse_dt upd with
  | Ok d =>
      if dt_aware d
      then rates_ttl_seconds * 1000000 <? dt_micros utc_now - dt_micros d
      else true
  | Raise _ => true
  end.

(** [get_rate].  [now] and [now'] are the monotonic readings of the first
    lookup and of the retry; [rf] is the refresh the retry path runs. *)
Definition get_rate (now now' : Z) (utc_now : datetime) (rf : Refresh)
    (from_code to_code : string) (uc : UC) : result RateInfo * UC :=
  let finish (p : float * string) :=
    mk_RateInfo from_code to_code (fst p) (snd p) (is_stale utc_now (snd p)) in
  match _get_pair_rate now from_code to_code uc with
  | (Ok p, uc) => (Ok (finish p), uc)
  | (Raise (CurrencyNotFoundError c), uc) => (Raise (CurrencyNotFoundError c), uc)
  | (Raise (ApiRequestError _), uc) =>
      match _try_refresh_rates rf uc with
      | (Raise e, uc) => (Raise e, uc)
      | (Ok _, uc) =>
          match _get_pair_rate now' from_code to_code uc with
          | (Ok p, uc) => (Ok (finish p), uc)
          | (Raise e, uc) => (Raise e, uc)
          end
      end
  | (Raise e, uc) => (Raise e, uc)
  end.

(** [_convert_amount]. *)
Definition _convert_amount (now : Z) (amount : float) (from_code to_code : string)
    (uc : UC) : result float * UC :=
  if String.eqb (Str.upper from_code) (Str.upper to_code) then (Ok amount, uc)
  else
    match _get_pair_rate now from_code to_code uc with
    | (Ok (r, _), uc) => (Ok (amount * r)%float, uc)
    | (Raise e, uc) => (Raise e, uc)
    end.

End WithRuntime.
End UseCases.


(* ================================================================= *)
(** ** A runtime for closed examples *)

(** The part of the [datetime] library the closed examples run on: the
    proleptic Gregorian calendar, [fromisoformat] on strings of the shape
    [YYYY-MM-DDTHH:MM:SS] with an optional [+HH:MM] or [-HH:MM],
    [isoformat] of a UTC value, and [parsedate_to_datetime] on strings of
    the shape [Www, DD Mon YYYY HH:MM:SS +0000].  Outside these shapes the
    parsers answer [None]; the examples give them strings of these shapes
    or strings no ISO parser accepts. *)
Module Calendar.

Definition is_leap (y : Z) : bool :=
  andb (y mod 4 =? 0) (orb (negb (y mod 100 =? 0)) (y mod 400 =? 0)).

Definition days_in_month (y m : Z) : Z :=
  if m =? 2 then (if is_leap y then 29 else 28)
  else if orb (orb (m =? 4) (m =? 6)) (orb (m =? 9) (m =? 11)) then 30
  else 31.

(** Days from 1970-01-01 to the given date. *)
Definition days_from_civil (y m d : Z) : Z :=
  let y' := if m <=? 2 then y - 1 else y in
  let era := y' / 400 in
  let yoe := y' - era * 400 in
  let mp := (m + 9) mod 12 in
  let doy := (153 * mp + 2) / 5 + d - 1 in
  let doe := yoe * 365 + yoe / 4 - yoe / 100 + doy in
  era * 146097 + doe - 719468.

(** The date that many days after 1970-01-01. *)
Definition civil_from_days (z : Z) : Z * Z * Z :=
  let z := z + 719468 in
  let era := z / 146097 in
  let doe := z - era * 146097 in
  let yoe := (doe - doe / 1460 + doe / 36524 - doe / 146096) / 365 in
  let doy := doe - (365 * yoe + yoe / 4 - yoe / 100) in
  let mp := (5 * doy + 2) / 153 in
  let d := doy - (153 * mp + 2) / 5 + 1 in
  let m := if mp <? 10 then mp + 3 else mp - 9 in
  let y := yoe + era * 400 in
  (if m <=? 2 then y + 1 else y, m, d).

Definition digit (c : ascii) : option Z :=
  let n := Z.of_nat (nat_of_ascii c) in
  if andb (48 <=? n) (n <=? 57) then Some (n - 48) else None.

Fixpoint number_from (acc : Z) (s : string) : option Z :=
  match s with
  | EmptyString => Some acc
  | String c r =>
      match digit c with
      | Some d => number_from (10 * acc + d) r
      | None => None
      end
  end.

(** The digits of [s] from [start], [len] of them, as a number. *)
Definition field (start len : nat) (s : string) : option Z :=
  let f := substring start len s in
  if Nat.eqb (String.length f) len then number_from 0 f else None.

Definition char_is (n : nat) (c : ascii) (s : string) : bool :=
  match String.get n s with
  | Some c' => Ascii.eqb c' c
  | None => false
  end.

Definition micros_of (y mo d h mi sec : Z) : Z :=
  ((days_from_civil y mo d * 24 + h) * 3600 + mi * 60 + sec) * 1000000.

Definition valid_date_time (y mo d h mi sec : Z) : bool :=
  andb (andb (andb (1 <=? y) (y <=? 9999)) (andb (1 <=? mo) (mo <=? 12)))
       (andb (andb (1 <=? d) (d <=? days_in_month y mo))
             (andb (h <=? 23) (andb (mi <=? 59) (sec <=? 59)))).

Definition fromisoformat (s : string) : option datetime :=
  let n := String.length s in
  if negb (orb (Nat.eqb n 19) (Nat.eqb n 25)) then None
  else if negb (andb (andb (char_is 4 "-" s) (char_is 7 "-" s))
                     (andb (char_is 10 "T" s)
                           (andb (char_is 13 ":" s) (char_is 16 ":" s))))
  then None
  else
    match field 0 4 s, field 5 2 s, field 8 2 s,
          field 11 2 s, field 14 2 s, field 17 2 s with
    | Some y, Some mo, Some d, Some h, Some mi, Some sec =>
        if negb (valid_date_time y mo d h mi sec) then None
        else
          let wall := micros_of y mo d h mi sec in
          if Nat.eqb n 19 then Some (mk_datetime false wall)
          else
            match field 20 2 s, field 23 2 s with
            | Some oh, Some om =>
                if negb (andb (char_is 22 ":" s) (andb (oh <=? 23) (om <=? 59)))
                then None
                else
                  let off := (oh * 3600 + om * 60) * 1000000 in
                  if char_is 19 "+" s then Some (mk_datetime true (wall - off))
                  else if char_is 19 "-" s then Some (mk_datetime true (wall + off))
                  else None
            | _, _ => None
            end
    | _, _, _, _, _, _ => None
    end.

(** [n] in decimal, at least [width] digits wide. *)
Fixpoint pad (width : nat) (n : Z) : string :=
  match width with
  | O => EmptyString
  | S w => String.append (pad w (n / 10))
             (String (ascii_of_nat (Z.to_nat (48 + n mod 10))) EmptyString)
  end.

Definition isoformat (dt : datetime) : string :=
  let secs := dt_micros dt / 1000000 in
  let frac := dt_micros dt mod 1000000 in
  let days := secs / 86400 in
  let rest := secs mod 86400 in
  let '(y, m, d) := civil_from_days days in
  String.append (pad 4 y)
    (String.append "-" (String.append (pad 2 m)
    (String.append "-" (String.append (pad 2 d)
    (String.append "T" (String.append (pad 2 (rest / 3600))
    (String.append ":" (String.append (pad 2 (rest mod 3600 / 60))
    (String.append ":" (String.append (pad 2 (rest mod 60))
    (String.append (if frac =? 0 then EmptyString
                    else String.append "." (pad 6 frac))
                   (if dt_aware dt then "+00:00" else EmptyString)))))))))))).

Definition month_of_name (s : string) : option Z :=
  PyDict.get s
    [ ("Jan", 1); ("Feb", 2); ("Mar", 3); ("Apr", 4); ("May", 5); ("Jun", 6);
      ("Jul", 7); ("Aug", 8); ("Sep", 9); ("Oct", 10); ("Nov", 11); ("Dec", 12) ].

Definition parsedate_to_datetime (s : string) : option datetime :=
  if negb (Nat.eqb (String.length s) 31) then None
  else if negb (andb (String.eqb (substring 3 2 s) ", ")
                     (andb (andb (char_is 7 " " s) (char_is 11 " " s))
                           (andb (andb (char_is 16 " " s) (char_is 19 ":" s))
                                 (andb (char_is 22 ":" s)
                                       (String.eqb (substring 25 6 s) " +0000")))))
  then None
  else
    match field 5 2 s, month_of_name (substring 8 3 s), field 12 4 s,
          field 17 2 s, field 20 2 s, field 23 2 s with
    | Some d, Some mo, Some y, Some h, Some mi, Some sec =>
        if valid_date_time y mo d h mi sec
        then Some (mk_datetime true (micros_of y mo d h mi sec))
        else None
    | _, _, _, _, _, _ => None
    end.

End Calendar.

(** The runtime of the closed examples.  The two exception classes render
    as [Exception] itself does: [str(e)] is the argument. *)
Definition iso_runtime : Runtime :=
  Build_Runtime Calendar.fromisoformat Calendar.isoformat
    Calendar.parsedate_to_datetime (fun reason => reason) (fun code => code).

(* ================================================================= *)
(** * Accounts, portfolios and trading *)

(** The rest of the repository's code that runs on the same files: the
    users, portfolios and session documents of [infra/database.py], the
    classes of [core/models.py] and the account and trading methods of
    [core/usecases.py].  Amounts and balances are floats (the [int] a
    caller may pass is read as the float [float(x)] gives); calls to the
    loggers are left out. *)

(* ================================================================= *)
(** ** Exceptions and results of this part *)

(** The exceptions of [exn], the [KeyError] of a missing dictionary key and
    [InsufficientFundsError] of [core/exceptions.py] with the keyword
    arguments the code gives it. *)
Inductive app_exn : Type :=
| Builtin (e : exn)
| KeyError (key : string)
| InsufficientFundsError (available required : float) (code : string).

Inductive outcome (A : Type) : Type :=
| Return (a : A)
| Throw (e : app_exn).
Arguments Return {A} a.
Arguments Throw {A} e.

Definition and_then {A B : Type} (o : outcome A) (k : A -> outcome B) : outcome B :=
  match o with
  | Return a => k a
  | Throw e => Throw e
  end.

Notation "x <~ c ;; k" := (and_then c (fun x => k))
  (at level 61, c at next level, right associativity).

Definition lift {A : Type} (r : result A) : outcome A :=
  match r with
  | Ok a => Return a
  | Raise e => Throw (Builtin e)
  end.

(* ================================================================= *)
(** ** [hashlib.sha256(...).hexdigest()] and [format(x, ".4f")] *)

Module SHA256.

Definition w32 (x : Z) : Z := x mod 4294967296.
Definition rotr (n x : Z) : Z := Z.lor (Z.shiftr x n) (w32 (Z.shiftl x (32 - n))).
Definition add32 (x y : Z) : Z := w32 (x + y).
Definition not32 (x : Z) : Z := Z.lxor x 4294967295.

Definition Ch (x y z : Z) : Z := Z.lxor (Z.land x y) (Z.land (not32 x) z).
Definition Maj (x y z : Z) : Z :=
  Z.lxor (Z.lxor (Z.land x y) (Z.land x z)) (Z.land y z).
Definition Sigma0 (x : Z) : Z := Z.lxor (Z.lxor (rotr 2 x) (rotr 13 x)) (rotr 22 x).
Definition Sigma1 (x : Z) : Z := Z.lxor (Z.lxor (rotr 6 x) (rotr 11 x)) (rotr 25 x).
Definition sigma0 (x : Z) : Z := Z.lxor (Z.lxor (rotr 7 x) (rotr 18 x)) (Z.shiftr x 3).
Definition sigma1 (x : Z) : Z := Z.lxor (Z.lxor (rotr 17 x) (rotr 19 x)) (Z.shiftr x 10).

(** The constants of the standard: the first thirty-two bits of the
    fractional parts of the cube roots ([K], sixty-four primes) and of the
    square roots ([H0], eight primes) of the first primes. *)
Definition is_prime (n : Z) : bool :=
  forallb (fun d => negb (n mod Z.of_nat d =? 0)) (seq 2 (Z.to_nat n - 2)).

Definition primes : list Z :=
  Eval vm_compute in filter is_prime (map Z.of_nat (seq 2 310)).

(** The integer cube root of [x], found bit by bit below [2 ^ n]. *)
Fixpoint cube_root (n : nat) (x r : Z) : Z :=
  match n with
  | O => r
  | S n' =>
      let r' := r + 2 ^ Z.of_nat n' in
      cube_root n' x (if r' * r' * r' <=? x then r' else r)
  end.

Definition K : list Z :=
  Eval vm_compute in map (fun p => w32 (cube_root 36 (p * 2 ^ 96) 0)) primes.

(** The eight words of the hash state. *)
Record state : Type := mk_state {
  ha : Z; hb : Z; hc : Z; hd : Z; he : Z; hf : Z; hg : Z; hh : Z
}.

Definition H0 : state :=
  Eval vm_compute in
    let root (i : nat) := w32 (Z.sqrt (nth i primes 0 * 2 ^ 64)) in
    mk_state (root 0%nat) (root 1%nat) (root 2%nat) (root 3%nat)
             (root 4%nat) (root 5%nat) (root 6%nat) (root 7%nat).

Definition bytes_of (s : string) : list Z :=
  map (fun c => Z.of_nat (nat_of_ascii c)) (list_ascii_of_string s).

(** The message, the byte [0x80], zero bytes up to 56 modulo 64 and the
    length in bits on eight bytes. *)
Definition pad_message (msg : list Z) : list Z :=
  let len := Z.of_nat (List.length msg) in
  let zeros := Z.to_nat ((55 - len) mod 64) in
  let bits := 8 * len in
  msg ++ [128] ++ repeat 0 zeros
      ++ map (fun i => (bits / 2 ^ (8 * (7 - Z.of_nat i))) mod 256) (seq 0 8).

(** Big-endian words of a run of bytes. *)
Fixpoint words_of (bytes : list Z) : list Z :=
  match bytes with
  | b0 :: b1 :: b2 :: b3 :: rest =>
      (((b0 * 256 + b1) * 256 + b2) * 256 + b3) :: words_of rest
  | _ => []
  end.

(** The message schedule, latest word first: [n] more words are added to
    the sixteen or more that [rev_w] holds. *)
Fixpoint extend (n : nat) (rev_w : list Z) : list Z :=
  match n with
  | O => rev_w
  | S n' =>
      let w :=
        add32 (add32 (sigma1 (nth 1 rev_w 0)) (nth 6 rev_w 0))
              (add32 (sigma0 (nth 14 rev_w 0)) (nth 15 rev_w 0)) in
      extend n' (w :: rev_w)
  end.

Definition round (s : state) (kw : Z * Z) : state :=
  let (k, w) := kw in
  let t1 := add32 (add32 (add32 (hh s) (Sigma1 (he s)))
                         (add32 (Ch (he s) (hf s) (hg s)) k)) w in
  let t2 := add32 (Sigma0 (ha s)) (Maj (ha s) (hb s) (hc s)) in
  mk_state (add32 t1 t2) (ha s) (hb s) (hc s) (add32 (hd s) t1) (he s) (hf s) (hg s).

Definition compress (s : state) (block : list Z) : state :=
  let w := rev (extend 48 (rev block)) in
  let r := fold_left round (combine K w) s in
  mk_state (add32 (ha s) (ha r)) (add32 (hb s) (hb r)) (add32 (hc s) (hc r))
           (add32 (hd s) (hd r)) (add32 (he s) (he r)) (add32 (hf s) (hf r))
           (add32 (hg s) (hg r)) (add32 (hh s) (hh r)).

(** The blocks of sixteen words; [fuel] is at least their number. *)
Fixpoint blocks (fuel : nat) (ws : list Z) : list (list Z) :=
  match fuel with
  | O => []
  | S fuel' =>
      match ws with
      | [] => []
      | _ => firstn 16 ws :: blocks fuel' (skipn 16 ws)
      end
  end.

Definition digest (s : string) : state :=
  let ws := words_of (pad_message (bytes_of s)) in
  fold_left compress (blocks (List.length ws) ws) H0.

Definition hex_digit (d : Z) : ascii :=
  let n := d mod 16 in
  if n <? 10 then ascii_of_nat (Z.to_nat (48 + n)) else ascii_of_nat (Z.to_nat (87 + n)).

Definition hex8 (w : Z) (tail : string) : string :=
  String (hex_digit (w / 268435456)) (String (hex_digit (w / 16777216))
  (String (hex_digit (w / 1048576)) (String (hex_digit (w / 65536))
  (String (hex_digit (w / 4096)) (String (hex_digit (w / 256))
  (String (hex_digit (w / 16)) (String (hex_digit w) tail))))))).

(** [hashlib.sha256(data).hexdigest()] for the bytes of [s]. *)
Definition hexdigest (s : string) : string :=
  let d := digest s in
  hex8 (ha d) (hex8 (hb d) (hex8 (hc d) (hex8 (hd d)
  (hex8 (he d) (hex8 (hf d) (hex8 (hg d) (hex8 (hh d) EmptyString))))))).

End SHA256.

Module Format.

(** Decimal digits of a natural number, at least [width] of them. *)
Fixpoint digits (width : nat) (fuel : nat) (n : Z) (acc : string) : string :=
  match fuel with
  | O => acc
  | S fuel' =>
      let acc := String (ascii_of_nat (Z.to_nat (48 + n mod 10))) acc in
      match width with
      | S (S w) => digits (S w) fuel' (n / 10) acc
      | _ => if n / 10 =? 0 then acc else digits 1 fuel' (n / 10) acc
      end
  end.

Definition decimal (width : nat) (n : Z) : string :=
  digits width (S (Z.to_nat (Z.log2 n)) + width) n EmptyString.

(** [n / d] rounded to the nearest integer, a tie to the even one. *)
Definition round_half_even (n d : Z) : Z :=
  let q := n / d in
  let r := n mod d in
  if 2 * r <? d then q
  else if d <? 2 * r then q + 1
  else if Z.even q then q else q + 1.

(** [format(x, ".4f")]: the exact value of the float, rounded to four
    decimals, a tie to even. *)
Definition format_4f (x : float) : string :=
  match FloatOps.Prim2SF x with
  | SpecFloat.S754_zero s => String.append (if s then "-" else "") "0.0000"
  | SpecFloat.S754_infinity s => if s then "-inf" else "inf"
  | SpecFloat.S754_nan => "nan"
  | SpecFloat.S754_finite s m e =>
      let n := Z.pos m * 10000 * (if 0 <=? e then 2 ^ e else 1) in
      let d := if 0 <=? e then 1 else 2 ^ (- e) in
      let r := round_half_even n d in
      String.append (if s then "-" else "")
        (String.append (decimal 1 (r / 10000))
           (String.append "." (decimal 4 (r mod 10000))))
  end.

End Format.

(* ================================================================= *)
(** ** [core/utils.py], continued *)

Module UtilsMore.

(** [validate_non_empty]: a value that is empty after [strip()] is
    refused. *)
Definition validate_non_empty (value field : string) : result unit :=
  if String.eqb (Str.strip value) EmptyString
  then Raise (ValueError (String.append field " не может быть пустым"))
  else Ok tt.

(** [ensure_float_positive]: [v <= 0] is refused; a NaN passes. *)
Definition ensure_float_positive (value : float) (field : string) : result float :=
  let v := value in
  if (v <=? 0)%float
  then Raise (ValueError
         (String.append "'" (String.append field "' должен быть положительным числом")))
  else Ok v.

End UtilsMore.

(* ================================================================= *)
(** ** [infra/database.py], continued: users, portfolios, session *)

Module Accounts.

(** A user document.  [ud_user_id] and [ud_username] are what
    [u.get("user_id", -1)] and [u.get("username")] read, [None] for a
    missing key; the other keys are only ever indexed. *)
Record UserDoc : Type := mk_UserDoc {
  ud_user_id : option Z;
  ud_username : option string;
  ud_hashed_password : string;
  ud_salt : string;
  ud_registration_date : string
}.

(** A portfolio document: [{"user_id": ..., "wallets": {code: {"balance":
    ...}}}], every key as [.get] reads it. *)
Record PortfolioDoc : Type := mk_PortfolioDoc {
  pd_user_id : option Z;
  pd_wallets : option (PyDict.t (option float))
}.

(** The session document when it is not [{}]. *)
Record SessionDoc : Type := mk_SessionDoc {
  s_user_id : Z;
  s_username : string
}.

(** [users.json], [portfolios.json] and [session.json]; [None] is a file
    that does not exist or holds a false value ([[]], [{}]). *)
Record Files : Type := mk_Files {
  users_json : option (list UserDoc);
  portfolios_json : option (list PortfolioDoc);
  session_json : option SessionDoc
}.

Definition id_or_minus_one (i : option Z) : Z :=
  match i with
  | Some z => z
  | None => -1
  end.

(** *** users *)

Definition list_users (f : Files) : list UserDoc :=
  match users_json f with
  | Some users => users
  | None => []
  end.

Definition save_users (f : Files) (users : list UserDoc) : Files :=
  mk_Files (Some users) (portfolios_json f) (session_json f).

(** [int(u["user_id"]) for u in users]: the first user without the key
    raises. *)
Fixpoint user_ids (users : list UserDoc) : outcome (list Z) :=
  match users with
  | [] => Return []
  | u :: rest =>
      match ud_user_id u with
      | None => Throw (KeyError "user_id")
      | Some i => ids <~ user_ids rest ;; Return (i :: ids)
      end
  end.

Definition next_user_id (f : Files) : outcome Z :=
  match list_users f with
  | [] => Return 1
  | users =>
      ids <~ user_ids users ;;
      Return (fold_left Z.max (tl ids) (hd 0 ids) + 1)
  end.

Definition find_user_by_username (f : Files) (username : string) : option UserDoc :=
  let uname := Str.strip username in
  find (fun u => Str.option_eqb (ud_username u) (Some uname)) (list_users f).

Definition get_user_by_id (f : Files) (user_id : Z) : option UserDoc :=
  find (fun u => id_or_minus_one (ud_user_id u) =? user_id) (list_users f).

Definition append_user (f : Files) (user : UserDoc) : Files :=
  save_users f (list_users f ++ [user]).

(** *** portfolios *)

Definition list_portfolios (f : Files) : list PortfolioDoc :=
  match portfolios_json f with
  | Some portfolios => portfolios
  | None => []
  end.

Definition save_portfolios (f : Files) (portfolios : list PortfolioDoc) : Files :=
  mk_Files (users_json f) (Some portfolios) (session_json f).

Definition get_portfolio (f : Files) (user_id : Z) : option PortfolioDoc :=
  find (fun p => id_or_minus_one (pd_user_id p) =? user_id) (list_portfolios f).

(** The loop of [upsert_portfolio]: the first document of the user is
    replaced where it stands; without one the portfolio goes last. *)
Fixpoint upsert_in (uid : Z) (portfolio : PortfolioDoc) (portfolios : list PortfolioDoc)
    : list PortfolioDoc :=
  match portfolios with
  | [] => [portfolio]
  | p :: rest =>
      if id_or_minus_one (pd_user_id p) =? uid then portfolio :: rest
      else p :: upsert_in uid portfolio rest
  end.

Definition upsert_portfolio (f : Files) (portfolio : PortfolioDoc) : outcome Files :=
  let portfolios := list_portfolios f in
  match pd_user_id portfolio with
  | None => Throw (KeyError "user_id")
  | Some uid => Return (save_portfolios f (upsert_in uid portfolio portfolios))
  end.

(** *** session *)

Definition get_session (f : Files) : option SessionDoc := session_json f.

Definition set_session (f : Files) (session : SessionDoc) : Files :=
  mk_Files (users_json f) (portfolios_json f) (Some session).

Definition clear_session (f : Files) : Files :=
  mk_Files (users_json f) (portfolios_json f) None.

End Accounts.

(* ================================================================= *)
(** ** [core/models.py] *)

Module Wallet.

Record t : Type := mk {
  currency_code : string;
  _balance : float
}.

Definition balance (w : t) : float := _balance w.

(** The setter of [balance]. *)
Definition set_balance (w : t) (value : float) : result t :=
  if (value <? 0)%float
  then Raise (ValueError "balance не может быть отрицательным")
  else Ok (mk (currency_code w) value).

(** [Wallet(currency_code=..., _balance=...)] with its [__post_init__]. *)
Definition init (currency_code : string) (_balance : float) : result t :=
  Utils.validate_currency_code currency_code ;;;
  set_balance (mk currency_code _balance) _balance.

Definition deposit (w : t) (amount : float) : result t :=
  UtilsMore.ensure_float_positive amount "amount" ;;;
  set_balance w (balance w + amount)%float.

Definition withdraw (w : t) (amount : float) : outcome t :=
  _ <~ lift (UtilsMore.ensure_float_positive amount "amount") ;;
  if (balance w <? amount)%float
  then Throw (InsufficientFundsError (balance w) amount (currency_code w))
  else lift (set_balance w (balance w - amount)%float).

Definition get_balance_info (w : t) : string :=
  String.append (currency_code w)
    (String.append ": " (Format.format_4f (balance w))).

(** [Wallet.from_dict(code, d)]: a missing balance reads as [0.0]. *)
Definition from_dict (code : string) (d : option float) : result t :=
  let bal := match d with Some b => b | None => 0%float end in
  init code bal.

End Wallet.

Module Portfolio.

Record t : Type := mk {
  _user_id : Z;
  _wallets : PyDict.t Wallet.t
}.

(** [Portfolio(_user_id=..., _wallets=...)] with its [__post_init__]. *)
Definition init (_user_id : Z) (_wallets : PyDict.t Wallet.t) : result t :=
  if _user_id <=? 0
  then Raise (ValueError "user_id должен быть положительным int")
  else Ok (mk _user_id _wallets).

Definition user_id (p : t) : Z := _user_id p.
Definition wallets (p : t) : PyDict.t Wallet.t := _wallets p.

(** [add_currency]: the wallet it returns and the portfolio afterwards.  A
    wallet that exists is returned as it is. *)
Definition add_currency (p : t) (currency_code : string) : result (Wallet.t * t) :=
  Utils.validate_currency_code currency_code ;;;
  let code := Str.upper currency_code in
  match PyDict.get code (_wallets p) with
  | Some w => Ok (w, p)
  | None =>
      w <- Wallet.init code 0 ;;
      Ok (w, mk (_user_id p) (PyDict.set code w (_wallets p)))
  end.

Definition get_wallet (p : t) (currency_code : string) : option Wallet.t :=
  let code := Str.strip (Str.upper currency_code) in
  PyDict.get code (_wallets p).

Definition to_dict (p : t) : Accounts.PortfolioDoc :=
  Accounts.mk_PortfolioDoc (Some (_user_id p))
    (Some (map (fun cw => (fst cw, Some (Wallet.balance (snd cw)))) (_wallets p))).

(** The loop of [from_dict] over [wallets_raw.items()]. *)
Fixpoint wallets_from (raw : list (string * option float)) (wallets : PyDict.t Wallet.t)
    : result (PyDict.t Wallet.t) :=
  match raw with
  | [] => Ok wallets
  | (code, payload) :: rest =>
      w <- Wallet.from_dict code payload ;;
      wallets_from rest (PyDict.set code w wallets)
  end.

Definition from_dict (d : Accounts.PortfolioDoc) : outcome t :=
  let wallets_raw := match Accounts.pd_wallets d with Some r => r | None => [] end in
  wallets <~ lift (wallets_from wallets_raw []) ;;
  match Accounts.pd_user_id d with
  | None => Throw (KeyError "user_id")
  | Some uid => lift (init uid wallets)
  end.

End Portfolio.

Module User.

Record t : Type := mk {
  _user_id : Z;
  _username : string;
  _hashed_password : string;
  _salt : string;
  _registration_date : datetime
}.

(** [User(...)] with its [__post_init__]. *)
Definition init (_user_id : Z) (_username _hashed_password _salt : string)
    (_registration_date : datetime) : result t :=
  if _user_id <=? 0
  then Raise (ValueError "user_id должен быть положительным int")
  else
    UtilsMore.validate_non_empty _username "username" ;;;
    UtilsMore.validate_non_empty _hashed_password "hashed_password" ;;;
    UtilsMore.validate_non_empty _salt "salt" ;;;
    Ok (mk _user_id _username _hashed_password _salt _registration_date).

Definition _hash_password (password salt : string) : result string :=
  UtilsMore.validate_non_empty password "password" ;;;
  if Nat.ltb (String.length password) 4
  then Raise (ValueError "Пароль должен быть не короче 4 символов")
  else Ok (SHA256.hexdigest (String.append password salt)).

(** [verify_password]: a [ValueError] of the hashing means [False]. *)
Definition verify_password (u : t) (password : string) : result bool :=
  match _hash_password password (_salt u) with
  | Ok h => Ok (String.eqb h (_hashed_password u))
  | Raise (ValueError _) => Ok false
  | Raise e => Raise e
  end.

(** [change_password] with the salt [secrets.token_urlsafe(8)] gave: the
    salt is stored before the hash is computed, so the user it leaves has
    the new salt also when the hashing raises. *)
Definition change_password (u : t) (new_salt new_password : string) : result unit * t :=
  let u1 := mk (_user_id u) (_username u) (_hashed_password u) new_salt
               (_registration_date u) in
  match _hash_password new_password new_salt with
  | Ok h =>
      (Ok tt, mk (_user_id u) (_username u) h new_salt (_registration_date u))
  | Raise e => (Raise e, u1)
  end.

Definition to_dict {RT : Runtime} (u : t) : Accounts.UserDoc :=
  Accounts.mk_UserDoc (Some (_user_id u)) (Some (_username u)) (_hashed_password u)
    (_salt u) (Utils.isoformat_dt (_registration_date u)).

Definition from_dict {RT : Runtime} (d : Accounts.UserDoc) : outcome t :=
  match Accounts.ud_user_id d with
  | None => Throw (KeyError "user_id")
  | Some uid =>
      match Accounts.ud_username d with
      | None => Throw (KeyError "username")
      | Some uname =>
          dt <~ lift (Utils.parse_dt (Accounts.ud_registration_date d)) ;;
          lift (init uid uname (Accounts.ud_hashed_password d) (Accounts.ud_salt d) dt)
      end
  end.

End User.

(* ================================================================= *)
(** ** [core/usecases.py], continued: accounts and trading *)

(** Code that reads and writes files and may raise: a state [S] is threaded
    through, and an exception stops the rest while the state reached so far
    stays. *)
Definition io (S A : Type) : Type := S -> outcome A * S.

Definition ret {S A : Type} (a : A) : io S A := fun s => (Return a, s).

Definition throw {S A : Type} (e : exn) : io S A := fun s => (Throw (Builtin e), s).

(** A call that does not touch the state. *)
Definition call {S A : Type} (o : outcome A) : io S A := fun s => (o, s).

(** A call that reads the state, one that may raise while reading it, and
    one that changes it. *)
Definition reading {S A : Type} (g : S -> A) : io S A := fun s => (Return (g s), s).

Definition running {S A : Type} (g : S -> outcome A) : io S A := fun s => (g s, s).

Definition writing {S : Type} (g : S -> S) : io S unit := fun s => (Return tt, g s).

Definition next {S A B : Type} (m : io S A) (k : A -> io S B) : io S B :=
  fun s =>
    match m s with
    | (Return a, s') => k a s'
    | (Throw e, s') => (Throw e, s')
    end.

Notation "x <~~ c ;; k" := (next c (fun x => k))
  (at level 61, c at next level, right associativity).

Module CoreUseCases.
Import Accounts.

(** The files a [CoreUseCases] object works on: the rate files behind the
    TTL reader ([UseCases.UC]) and the account files. *)
Record App : Type := mk_App {
  app_rates : UseCases.UC;
  app_files : Files
}.

(** The dictionary [buy] and [sell] return; [cost_usd] and [proceeds_usd]
    are the keys only some of the branches set. *)
Record Trade : Type := mk_Trade {
  t_user_id : Z;
  t_currency_code : string;
  t_amount : float;
  t_rate : float;
  t_base : string;
  t_before_after : string;
  t_cost_usd : option float;
  t_proceeds_usd : option float
}.

(** The dictionary [show_portfolio] returns and one of its rows. *)
Record Row : Type := mk_Row {
  row_code : string;
  row_balance : float;
  row_value : float
}.

Record Shown : Type := mk_Shown {
  sp_empty : bool;
  sp_base : string;
  sp_rows : list Row;
  sp_total : float
}.

(** [sorted(d.items())]: the keys of a dictionary differ, so the pairs are
    ordered by their keys alone. *)
Fixpoint insert_item {V : Type} (kv : string * V) (l : list (string * V))
    : list (string * V) :=
  match l with
  | [] => [kv]
  | kv' :: r =>
      if String.leb (fst kv) (fst kv') then kv :: l else kv' :: insert_item kv r
  end.

Definition sorted_items {V : Type} (d : PyDict.t V) : list (string * V) :=
  fold_right insert_item [] d.

(** [str.join] of two strings and more. *)
Definition cat (parts : list string) : string :=
  fold_right String.append EmptyString parts.

(** A method of the account files run on the application state. *)
Definition on_files {A : Type} (m : io Files A) : io App A :=
  fun app =>
    let (o, f) := m (app_files app) in (o, mk_App (app_rates app) f).

(** A method of the rate resolver run on the application state. *)
Definition on_rates {A : Type} (m : UseCases.UC -> result A * UseCases.UC) : io App A :=
  fun app =>
    let (r, uc) := m (app_rates app) in (lift r, mk_App uc (app_files app)).

Section WithSettings.
Context {RT : Runtime}.

(** [rates_ttl_seconds] and [initial_usd_balance] of the settings, already
    an [int] and a [float]. *)
Variable rates_ttl_seconds : Z.
Variable initial_usd_balance : float.

(** [upsert_portfolio] as a step. *)
Definition upsert (p : PortfolioDoc) : io Files unit :=
  fun f =>
    match upsert_portfolio f p with
    | Return f' => (Return tt, f')
    | Throw e => (Throw e, f)
    end.

(** *** auth *)

(** [register].  [salt] is what [secrets.token_urlsafe(8)] gave and
    [utc_now] the reading of [datetime.now(UTC)]. *)
Definition register (username password salt : string) (utc_now : datetime)
    : io Files string :=
  _ <~~ call (lift (UtilsMore.validate_non_empty username "username")) ;;
  _ <~~ call (lift (UtilsMore.validate_non_empty password "password")) ;;
  if Nat.ltb (String.length password) 4
  then throw (ValueError "Пароль должен быть не короче 4 символов")
  else
    found <~~ reading (fun f => find_user_by_username f username) ;;
    match found with
    | Some _ =>
        throw (ValueError (cat ["Имя пользователя '"; username; "' уже занято"]))
    | None =>
        user_id <~~ running next_user_id ;;
        let hashed := SHA256.hexdigest (String.append password salt) in
        let reg_dt :=
          mk_datetime (dt_aware utc_now)
            (dt_micros utc_now - dt_micros utc_now mod 1000000) in
        user <~~ call (lift (User.init user_id username hashed salt reg_dt)) ;;
        _ <~~ writing (fun f => append_user f (User.to_dict user)) ;;
        _ <~~ upsert (mk_PortfolioDoc (Some user_id) (Some [])) ;;
        ret (cat ["Пользователь '"; username; "' зарегистрирован (id=";
                  str_int user_id; "). Войдите: login --username "; username;
                  " --password ****"])
    end.

(** [{} or default]: a portfolio document without a key is a false value. *)
Definition found_or (found : option PortfolioDoc) (default : PortfolioDoc)
    : PortfolioDoc :=
  match found with
  | Some p =>
      match pd_user_id p, pd_wallets p with
      | None, None => default
      | _, _ => p
      end
  | None => default
  end.

Definition _ensure_initial_usd (user_id : Z) : io Files unit :=
  let initial := initial_usd_balance in
  found <~~ reading (fun f => get_portfolio f user_id) ;;
  let p := found_or found (mk_PortfolioDoc (Some user_id) (Some [])) in
  let wallets := match pd_wallets p with Some w => w | None => [] end in
  if andb (negb (PyDict.mem "USD" wallets)) (0 <? initial)%float
  then
    let wallets := PyDict.set "USD" (Some initial) wallets in
    let p := mk_PortfolioDoc (pd_user_id p) (Some wallets) in
    upsert p
  else ret tt.

Definition login (username password : string) : io Files string :=
  _ <~~ call (lift (UtilsMore.validate_non_empty username "username")) ;;
  _ <~~ call (lift (UtilsMore.validate_non_empty password "password")) ;;
  found <~~ reading (fun f => find_user_by_username f username) ;;
  match found with
  | None =>
      throw (ValueError (cat ["Пользователь '"; username; "' не найден"]))
  | Some u =>
      user <~~ call (User.from_dict u) ;;
      ok <~~ call (lift (User.verify_password user password)) ;;
      if negb ok then throw (ValueError "Неверный пароль")
      else
        _ <~~ writing (fun f => set_session f (mk_SessionDoc (User._user_id user)
                                                            (User._username user))) ;;
        _ <~~ _ensure_initial_usd (User._user_id user) ;;
        ret (cat ["Вы вошли как '"; username; "'"])
  end.

Definition logout : io Files string :=
  _ <~~ writing clear_session ;;
  ret "Вы вышли из системы".

(** [current_user]: a session whose [user_id] is a false value, [0], reads
    as no session. *)
Definition current_user (f : Files) : option SessionDoc :=
  match get_session f with
  | Some s => if s_user_id s =? 0 then None else Some s
  | None => None
  end.

(** *** portfolio *)

Definition load_portfolio (user_id : Z) : io Files Portfolio.t :=
  found <~~ reading (fun f => get_portfolio f user_id) ;;
  match found with
  | Some p => call (Portfolio.from_dict p)
  | None =>
      let p := mk_PortfolioDoc (Some user_id) (Some []) in
      _ <~~ upsert p ;;
      call (Portfolio.from_dict p)
  end.

Definition save_portfolio (portfolio : Portfolio.t) : io Files unit :=
  upsert (Portfolio.to_dict portfolio).

(** The loop of [show_portfolio].  [now code] is the reading of the
    monotonic clock when the wallet of [code] is converted. *)
Fixpoint show_rows (now : string -> Z) (base : string)
    (items : list (string * Wallet.t)) (rows : list Row) (total : float)
    : io App (list Row * float) :=
  match items with
  | [] => ret (rows, total)
  | (code, w) :: rest =>
      value <~~ on_rates (UseCases._convert_amount rates_ttl_seconds (now code)
                            (Wallet.balance w) code base) ;;
      show_rows now base rest
        (rows ++ [mk_Row code (Wallet.balance w) value]) (total + value)%float
  end.

Definition show_portfolio (now : string -> Z) (user_id : Z) (base : string)
    : io App Shown :=
  _ <~~ call (lift (Utils.validate_currency_code base)) ;;
  _ <~~ call (lift (Currencies.get_currency base)) ;;
  portfolio <~~ on_files (load_portfolio user_id) ;;
  let wallets := Portfolio.wallets portfolio in
  match wallets with
  | [] => ret (mk_Shown true base [] 0)
  | _ =>
      rt <~~ show_rows now base (sorted_items wallets) [] 0 ;;
      ret (mk_Shown false base (fst rt) (snd rt))
  end.

(** *** trading *)

(** [portfolio.get_wallet(c) or portfolio.add_currency(c)].  A wallet is an
    object the dictionary of the portfolio holds under one key, and the
    code changes it through the reference it got here: the result is that
    key, the wallet as it is now and the portfolio afterwards. *)
Definition wallet_or_add (p : Portfolio.t) (currency_code : string)
    : result (string * Wallet.t * Portfolio.t) :=
  match Portfolio.get_wallet p currency_code with
  | Some w => Ok (Str.strip (Str.upper currency_code), w, p)
  | None =>
      wp <- Portfolio.add_currency p currency_code ;;
      Ok (Str.upper currency_code, fst wp, snd wp)
  end.

(** The portfolio after the wallet under [key] has become [w]. *)
Definition changed (p : Portfolio.t) (key : string) (w : Wallet.t) : Portfolio.t :=
  Portfolio.mk (Portfolio._user_id p) (PyDict.set key w (Portfolio._wallets p)).

Definition arrow (before after : float) : string :=
  cat [Format.format_4f before; "→"; Format.format_4f after].

(** [buy] under [log_action]: the decorator returns the result or raises
    the exception again.  [now] is the reading of the monotonic clock at the
    rate lookup. *)
Definition buy (now : Z) (user_id : Z) (currency_code : string) (amount : float)
    (base : string) : io App Trade :=
  _ <~~ call (lift (Utils.validate_currency_code currency_code)) ;;
  _ <~~ call (lift (UtilsMore.ensure_float_positive amount "amount")) ;;
  _ <~~ call (lift (Currencies.get_currency currency_code)) ;;
  portfolio <~~ on_files (load_portfolio user_id) ;;
  let code := Str.upper currency_code in
  let base := Str.upper base in
  u <~~ call (lift (wallet_or_add portfolio "USD")) ;;
  let usd := snd (fst u) in
  let portfolio := snd u in
  if String.eqb code "USD" then
    let before := Wallet.balance usd in
    usd <~~ call (lift (Wallet.deposit usd amount)) ;;
    let portfolio := changed portfolio "USD" usd in
    _ <~~ on_files (save_portfolio portfolio) ;;
    ret (mk_Trade user_id "USD" amount 1 "USD"
           (cat ["USD: "; arrow before (Wallet.balance usd)]) None None)
  else
    ru <~~ on_rates (UseCases._get_pair_rate rates_ttl_seconds now code "USD") ;;
    let rate := fst ru in
    let cost_usd := (amount * rate)%float in
    let before_usd := Wallet.balance usd in
    usd <~~ call (Wallet.withdraw usd cost_usd) ;;
    let portfolio := changed portfolio "USD" usd in
    x <~~ call (lift (wallet_or_add portfolio code)) ;;
    let key := fst (fst x) in
    let w := snd (fst x) in
    let portfolio := snd x in
    let before_cur := Wallet.balance w in
    w <~~ call (lift (Wallet.deposit w amount)) ;;
    let portfolio := changed portfolio key w in
    let usd := if String.eqb key "USD" then w else usd in
    _ <~~ on_files (save_portfolio portfolio) ;;
    ret (mk_Trade user_id code amount rate "USD"
           (cat ["USD: "; arrow before_usd (Wallet.balance usd); "; "; code; ": ";
                 arrow before_cur (Wallet.balance w)])
           (Some cost_usd) None).

(** [sell] under [log_action]. *)
Definition sell (now : Z) (user_id : Z) (currency_code : string) (amount : float)
    (base : string) : io App Trade :=
  _ <~~ call (lift (Utils.validate_currency_code currency_code)) ;;
  _ <~~ call (lift (UtilsMore.ensure_float_positive amount "amount")) ;;
  _ <~~ call (lift (Currencies.get_currency currency_code)) ;;
  portfolio <~~ on_files (load_portfolio user_id) ;;
  let code := Str.upper currency_code in
  match Portfolio.get_wallet portfolio code with
  | None =>
      throw (ValueError (cat ["У вас нет кошелька '"; code;
        "'. Добавьте валюту: она создаётся автоматически при первой покупке."]))
  | Some w =>
      let key := Str.strip (Str.upper code) in
      u <~~ call (lift (wallet_or_add portfolio "USD")) ;;
      let usd := snd (fst u) in
      let portfolio := snd u in
      if String.eqb code "USD" then
        let before := Wallet.balance usd in
        usd <~~ call (Wallet.withdraw usd amount) ;;
        let portfolio := changed portfolio "USD" usd in
        _ <~~ on_files (save_portfolio portfolio) ;;
        ret (mk_Trade user_id "USD" amount 1 "USD"
               (cat ["USD: "; arrow before (Wallet.balance usd)]) None (Some amount))
      else
        ru <~~ on_rates (UseCases._get_pair_rate rates_ttl_seconds now code "USD") ;;
        let rate := fst ru in
        let proceeds := (amount * rate)%float in
        let before_cur := Wallet.balance w in
        w <~~ call (Wallet.withdraw w amount) ;;
        let portfolio := changed portfolio key w in
        let usd := if String.eqb key "USD" then w else usd in
        let before_usd := Wallet.balance usd in
        usd <~~ call (lift (Wallet.deposit usd proceeds)) ;;
        let portfolio := changed portfolio "USD" usd in
        let w := if String.eqb key "USD" then usd else w in
        _ <~~ on_files (save_portfolio portfolio) ;;
        ret (mk_Trade user_id code amount rate "USD"
               (cat [code; ": "; arrow before_cur (Wallet.balance w); "; USD: ";
                     arrow before_usd (Wallet.balance usd)])
               None (Some proceeds))
  end.

End WithSettings.
End CoreUseCases.

(* ================================================================= *)
(** * The vocabulary of the properties *)

(** ** The merge rule *)

(** The RatePoint the loop leaves under a key whose stored value was [old]
    when it meets the incoming [v]. *)
Definition merged_point {RT : Runtime} (stored : option RatePoint) (v : RatePoint) : RatePoint :=
  match stored with
  | None => v
  | Some old =>
      match Storage.incoming_is_newer v old with
      | Ok false => old
      | _ => v
      end
  end.

(** ** The ids of the history *)

(** Equality of two ids is decidable; [nodup id_eq_dec] lists the distinct
    ids of a list. *)
Definition id_eq_dec (a b : option string) : {a = b} + {a <> b}.
Proof. decide equality. apply string_dec. Defined.

(** ** The clients of one run *)

(** A pair key [split("_", maxsplit=1)] cannot unpack into two parts. *)
Definition no_underscore (item : string * float) : bool :=
  match Str.split_once "_" (fst item) with
  | None => true
  | Some _ => false
  end.

(** The exception the [try] block of a client ends with, if any: the one
    [fetch_rates] raises, or the unpacking error of the first pair key that
    holds no underscore. *)
Definition client_error (c : Updater.Client) : option exn :=
  match Updater.fetch_result c with
  | Raise e => Some e
  | Ok rates =>
      if existsb no_underscore rates
      then Some (ValueError "not enough values to unpack (expected 2, got 1)")
      else None
  end.

(** The number of pairs a client that succeeds has fetched. *)
Definition client_count (c : Updater.Client) : Z :=
  match Updater.fetch_result c with
  | Ok rates => if existsb no_underscore rates then 0 else Z.of_nat (List.length rates)
  | Raise _ => 0
  end.

Definition source_entry {RT : Runtime} (c : Updater.Client) : Updater.SourceEntry :=
  match client_error c with
  | Some e => Updater.SourceFailed (exn_str e)
  | None => Updater.SourceOk (client_count c)
  end.

Definition error_line {RT : Runtime} (c : Updater.Client) : list string :=
  match client_error c with
  | Some e =>
      [String.append "Failed to fetch from "
         (String.append (Updater.client_name c) (String.append ": " (exn_str e)))]
  | None => []
  end.

Definition fetched_total (clients : list Updater.Client) : Z :=
  fold_right (fun c n => client_count c + n) 0 clients.

(** The source and timestamp the updater gives the pairs of a client. *)
Definition client_source (c : Updater.Client) : string :=
  Updater.or_default (m_source (Updater.last_meta c)) (Updater.client_name c).

Definition client_updated_at (last_refresh_now : string) (c : Updater.Client) : string :=
  Updater.or_default (m_timestamp (Updater.last_meta c)) last_refresh_now.

(** A client whose [try] block cannot write the key [k]. *)
Definition leaves_key (k : string) (c : Updater.Client) : Prop :=
  match Updater.fetch_result c with
  | Ok rates => ~ In k (PyDict.keys rates)
  | Raise _ => True
  end.

(** ** The resolver *)

(** A code the resolver accepts: it passes [validate_currency_code] and is
    in the registry. *)
Definition supported (code : string) : Prop :=
  Utils.validate_currency_code code = Ok tt
  /\ exists cur, Currencies.get_currency code = Ok cur.

(** ** Provider values equal to zero *)

(** A provider value equal to zero, read as if the provider had sent
    [null]. *)
Definition zero_as_null (raw : ApiClients.raw_value) : ApiClients.raw_value :=
  match raw with
  | ApiClients.RawNumber value =>
      if (value =? 0)%float then ApiClients.RawNone else raw
  | _ => raw
  end.

Definition rates_zero_as_null (rates : PyDict.t ApiClients.raw_value)
    : PyDict.t ApiClients.raw_value :=
  map (fun kv => (fst kv, zero_as_null (snd kv))) rates.

(** The same request, with every zero among the provider's rates replaced
    by [null]. *)
Definition exchange_zero_as_null (x : ApiClients.Exchange) : ApiClients.Exchange :=
  match ApiClients.x_http x with
  | ApiClients.RequestException _ => x
  | ApiClients.HttpResponse resp =>
      match ApiClients.resp_json resp with
      | None => x
      | Some data =>
          ApiClients.mk_Exchange
            (ApiClients.HttpResponse
               (ApiClients.mk_Response (ApiClients.resp_status_code resp)
                  (ApiClients.resp_text resp) (ApiClients.resp_etag resp)
                  (Some (ApiClients.mk_Payload (ApiClients.p_result data)
                           (ApiClients.p_error_type data)
                           (rates_zero_as_null (ApiClients.p_rates data))
                           (ApiClients.p_time_last_update_utc data)))))
            (ApiClients.x_ms x) (ApiClients.x_now x)
      end
  end.

(** A returned entry comes from a configured code whose provider value is
    a number other than zero, and is the float quotient [1.0 / value]. *)
Definition inverted_nonzero (cfg : ParserConfig) (rates : PyDict.t ApiClients.raw_value)
    (k : string) (q : float) : Prop :=
  exists code value,
    In code (FIAT_CURRENCIES cfg)
    /\ PyDict.get code rates = Some (ApiClients.RawNumber value)
    /\ (value =? 0)%float = false
    /\ q = (1 / value)%float
    /\ k = Utils.pair_key code (BASE_CURRENCY cfg).

(** ** Sample data for the closed instances *)

Module Sample.

Definition cfg : ParserConfig :=
  mk_ParserConfig (Some "demo-key") "USD" ["USD"; "EUR"; "GBP"; "RUB"]
    ["BTC"; "ETH"; "SOL"]
    [("BTC", "bitcoin"); ("ETH", "ethereum"); ("SOL", "solana")].

Definition seed_pairs : PyDict.t RatePoint :=
  [ ("EUR_USD", mk_RatePoint 1.0625 "2024-01-01T00:00:00Z" "ExchangeRate-API");
    ("BTC_USD", mk_RatePoint 42000 "2024-01-01T00:00:00Z" "CoinGecko") ].

Definition db : Database.DB :=
  Database.mk_DB (Some (mk_Snapshot seed_pairs (Some "2024-01-01T00:00:05Z")))
    (Some []).

Definition payload : PyDict.t RatePoint :=
  [ ("EUR_USD", mk_RatePoint 1.125 "2024-01-02T00:00:00Z" "ExchangeRate-API");
    ("GBP_USD", mk_RatePoint 1.25 "2024-01-02T00:00:00Z" "ExchangeRate-API") ].

Definition older : RatePoint :=
  mk_RatePoint 1.09375 "2024-01-02T00:00:00Z" "ExchangeRate-API".
Definition newer : RatePoint :=
  mk_RatePoint 1.1875 "2024-01-03T00:00:00Z" "ExchangeRate-API".

(** A stored timestamp without a UTC offset, and an incoming one with it
    that is ten years older. *)
Definition stored_naive : RatePoint :=
  mk_RatePoint 1.0625 "2030-01-01T00:00:00" "manual".
Definition incoming_aware : RatePoint :=
  mk_RatePoint 1.125 "2020-01-01T00:00:00Z" "ExchangeRate-API".
Definition db_naive : Database.DB :=
  Database.mk_DB (Some (mk_Snapshot [("EUR_USD", stored_naive)] None)) (Some []).
Definition db_empty : Database.DB := Database.mk_DB None None.

Definition rate_limited : Updater.Client :=
  Updater.mk_Client "CoinGeckoClient"
    (Raise (ApiRequestError "CoinGecko: 429 Too Many Requests (лимит запросов)"))
    empty_meta.
Definition no_key : Updater.Client :=
  Updater.mk_Client "ExchangeRateApiClient"
    (Raise (ApiRequestError
              "ExchangeRate-API key is missing (set EXCHANGERATE_API_KEY env var)"))
    empty_meta.
Definition fiat_meta : FetchMeta :=
  mk_FetchMeta (Some "ExchangeRate-API") (Some "2024-01-02T00:00:00Z")
    (Some 120) (Some 200) None.
Definition fiat_ok : Updater.Client :=
  Updater.mk_Client "ExchangeRateApiClient"
    (Ok [("EUR_USD", 1.125%float); ("GBP_USD", 1.25%float)]) fiat_meta.

(** A refresh in which both clients fail. *)
Definition refresh_down : UseCases.Refresh :=
  UseCases.mk_Refresh cfg "2024-01-01T00:10:00Z"
    (Updater.fetch_result rate_limited, empty_meta)
    (Updater.fetch_result no_key, empty_meta).

Definition point (r : float) : RatePoint :=
  mk_RatePoint r "2024-01-01T00:00:00Z" "ExchangeRate-API".
Definition uc_of (prs : PyDict.t RatePoint) : UseCases.UC :=
  UseCases.mk_UC None (Database.mk_DB (Some (mk_Snapshot prs None)) (Some [])).
(** The state after the first reading of the cache at monotonic time [now]. *)
Definition uc_read (now : Z) (prs : PyDict.t RatePoint) : UseCases.UC :=
  UseCases.mk_UC (Some (now, mk_Snapshot prs None))
    (Database.mk_DB (Some (mk_Snapshot prs None)) (Some [])).
Definition utc_now : datetime := mk_datetime true 1704067260000000.

Definition zero_payload : ApiClients.Payload :=
  ApiClients.mk_Payload (Some "success") None
    [ ("USD", ApiClients.RawNumber 1); ("EUR", ApiClients.RawNumber 0);
      ("GBP", ApiClients.RawNumber 0.5) ]
    (Some "Fri, 27 Mar 2020 00:00:01 +0000").
Definition zero_exchange : ApiClients.Exchange :=
  ApiClients.mk_Exchange
    (ApiClients.HttpResponse (ApiClients.mk_Response 200 "" None (Some zero_payload)))
    120 utc_now.

(** An answer in which the only configured currency the provider reports
    has the value zero. *)
Definition only_zero_exchange : ApiClients.Exchange :=
  ApiClients.mk_Exchange
    (ApiClients.HttpResponse
       (ApiClients.mk_Response 200 "" None
          (Some (ApiClients.mk_Payload (Some "success") None
                   [("USD", ApiClients.RawNumber 1); ("EUR", ApiClients.RawNumber 0)]
                   (Some "Fri, 27 Mar 2020 00:00:01 +0000")))))
    120 utc_now.

Definition row : HistoryEntry :=
  mk_HistoryEntry (Some "BTC_USD_2024-01-01T00:00:00Z") "BTC" "USD" 42000
    "2024-01-01T00:00:00Z" "CoinGecko"
    (mk_HistoryMeta (Some "bitcoin") (Some 85) (Some 200) None).

(** A history of two rows, and a batch that brings one of its ids again
    (with another rate) together with a new one. *)
Definition eth_row : HistoryEntry :=
  mk_HistoryEntry (Some "ETH_USD_2024-01-01T00:00:00Z") "ETH" "USD" 2300
    "2024-01-01T00:00:00Z" "CoinGecko"
    (mk_HistoryMeta (Some "ethereum") (Some 85) (Some 200) None).
Definition eth_row_again : HistoryEntry :=
  mk_HistoryEntry (Some "ETH_USD_2024-01-01T00:00:00Z") "ETH" "USD" 2350
    "2024-01-01T00:00:00Z" "CoinGecko"
    (mk_HistoryMeta (Some "ethereum") (Some 91) (Some 200) None).
Definition sol_row : HistoryEntry :=
  mk_HistoryEntry (Some "SOL_USD_2024-01-01T00:00:00Z") "SOL" "USD" 101.5
    "2024-01-01T00:00:00Z" "CoinGecko"
    (mk_HistoryMeta (Some "solana") (Some 91) (Some 200) None).
Definition db_two_rows : Database.DB :=
  Database.mk_DB (Some (mk_Snapshot seed_pairs (Some "2024-01-01T00:00:05Z")))
    (Some [row; eth_row]).

(** The provider reports an infinite value for [EUR]. *)
Definition infinite_exchange : ApiClients.Exchange :=
  ApiClients.mk_Exchange
    (ApiClients.HttpResponse
       (ApiClients.mk_Response 200 "" None
          (Some (ApiClients.mk_Payload (Some "success") None
                   [("USD", ApiClients.RawNumber 1);
                    ("EUR", ApiClients.RawNumber infinity);
                    ("GBP", ApiClients.RawNumber 0.5)]
                   (Some "Fri, 27 Mar 2020 00:00:01 +0000")))))
    120 utc_now.

End Sample.

(** ** The history of one run *)

(** What the updater records in the history for one fetched pair. *)
Definition recorded (source upd : string) (kv : string * float) (e : HistoryEntry)
    : Prop :=
  h_id e = Some (String.append (fst kv) (String.append "_" upd))
  /\ String.append (from_currency e) (String.append "_" (to_currency e)) = fst kv
  /\ h_rate e = snd kv
  /\ timestamp e = upd
  /\ h_source e = source.

(** A client that, when its fetch returns, carries the provider's own
    timestamp in its [last_meta]. *)
Definition timestamped (c : Updater.Client) : Prop :=
  is_ok (Updater.fetch_result c) = true ->
  m_timestamp (Updater.last_meta c) <> None.

(** Two calls of a client that brought the same data: the same class, the
    same outcome of [fetch_rates], and the same [source] and [timestamp] in
    [last_meta].  The latency, the status code and the [ETag] of the two
    requests are free to differ. *)
Definition same_data (c1 c2 : Updater.Client) : Prop :=
  Updater.client_name c1 = Updater.client_name c2
  /\ Updater.fetch_result c1 = Updater.fetch_result c2
  /\ m_source (Updater.last_meta c1) = m_source (Updater.last_meta c2)
  /\ m_timestamp (Updater.last_meta c1) = m_timestamp (Updater.last_meta c2).

(** Two states of the loop of [run_update] that agree on everything but the
    [meta] of the history rows they collected. *)
Definition same_stored (st1 st2 : Updater.RunState) : Prop :=
  Updater.combined st1 = Updater.combined st2
  /\ map h_id (Updater.history_entries st1) = map h_id (Updater.history_entries st2)
  /\ Updater.st_total st1 = Updater.st_total st2
  /\ Updater.st_errors st1 = Updater.st_errors st2
  /\ Updater.st_sources st1 = Updater.st_sources st2.

(** ** Portfolios *)

(** A wallet as a portfolio holds it: under its own code, which is well
    formed, with a balance that is not negative. *)
Definition wallet_ok (kw : string * Wallet.t) : Prop :=
  Wallet.currency_code (snd kw) = fst kw
  /\ Utils.validate_currency_code (fst kw) = Ok tt
  /\ (Wallet.balance (snd kw) <? 0)%float = false.

(** A portfolio of a positive user id whose dictionary has one entry per
    key, each a wallet as above. *)
Definition portfolio_ok (p : Portfolio.t) : Prop :=
  0 < Portfolio._user_id p
  /\ NoDup (PyDict.keys (Portfolio._wallets p))
  /\ Forall wallet_ok (Portfolio._wallets p).

(** The balance a portfolio holds under a key, if it has a wallet there. *)
Definition held (p : Portfolio.t) (key : string) : option float :=
  option_map Wallet.balance (PyDict.get key (Portfolio._wallets p)).

(** ** Trades *)

(** What a trade of the user [uid] does to the state [app] it starts from:
    the rate files, the users and the session stay, and so does the
    portfolio of every other user.  When the trade raises, the account files
    are as they were or as [load_portfolio] left them; when it returns, the
    stored portfolio of the user is well formed and loads back. *)
Definition trade_outcome (uid : Z) (app : CoreUseCases.App)
    (o : outcome CoreUseCases.Trade) (app' : CoreUseCases.App) : Prop :=
  let f := CoreUseCases.app_files app in
  let f' := CoreUseCases.app_files app' in
  UseCases.uc_db (CoreUseCases.app_rates app')
  = UseCases.uc_db (CoreUseCases.app_rates app)
  /\ Accounts.users_json f' = Accounts.users_json f
  /\ Accounts.session_json f' = Accounts.session_json f
  /\ (forall other, other <> uid ->
      Accounts.get_portfolio f' other = Accounts.get_portfolio f other)
  /\ match o with
     | Throw _ => f' = f \/ f' = snd (CoreUseCases.load_portfolio uid f)
     | Return _ =>
         exists p, portfolio_ok p /\ Portfolio._user_id p = uid
                   /\ CoreUseCases.load_portfolio uid f' = (Return p, f')
     end.

(** The balance of a wallet that may not be there yet: a new wallet starts
    at zero. *)
Definition or_zero (b : option float) : float :=
  match b with
  | Some x => x
  | None => 0
  end.

(** The order [sorted] puts the codes of a portfolio in. *)
Definition code_le (a b : string) : Prop := String.leb a b = true.

(** ** Accounts *)

(** [dt.replace(microsecond=0)]. *)
Definition whole_seconds (d : datetime) : datetime :=
  mk_datetime (dt_aware d) (dt_micros d - dt_micros d mod 1000000).

(** The document [register] stores for a new user. *)
Definition new_user_doc {RT : Runtime} (uid : Z) (username password salt : string)
    (utc_now : datetime) : Accounts.UserDoc :=
  User.to_dict (User.mk uid username
                  (SHA256.hexdigest (String.append password salt)) salt
                  (whole_seconds utc_now)).

(** ** Sample runs of the updater *)

Module SampleRuns.

(** One successful call of the CoinGecko client: the timestamp is the
    client's clock at the request, [ms] the measured latency. *)
Definition crypto_call (stamp : string) (ms : Z) : Updater.Client :=
  Updater.mk_Client "CoinGeckoClient"
    (Ok [("BTC_USD", 42000%float)])
    (mk_FetchMeta (Some "CoinGecko") (Some stamp) (Some ms) (Some 200) None).

(** A second call of the ExchangeRate-API client that finds the provider's
    data as [Sample.fiat_ok] found it, with another latency and an [ETag]. *)
Definition fiat_again : Updater.Client :=
  Updater.mk_Client "ExchangeRateApiClient"
    (Ok [("EUR_USD", 1.125%float); ("GBP_USD", 1.25%float)])
    (mk_FetchMeta (Some "ExchangeRate-API") (Some "2024-01-02T00:00:00Z")
       (Some 95) (Some 200) (Some "W/1f3")).

Definition first_run : list Updater.Client :=
  [crypto_call "2024-01-02T00:00:10Z" 85; Sample.fiat_ok].
Definition same_second : list Updater.Client :=
  [crypto_call "2024-01-02T00:00:10Z" 130; fiat_again].
Definition six_hours_later : list Updater.Client :=
  [crypto_call "2024-01-02T06:00:00Z" 130; fiat_again].

End SampleRuns.

(** ** Sample accounts *)

Module SampleAccounts.
Import Accounts.

Definition no_files : Files := mk_Files None None None.

Definition wallets : PyDict.t Wallet.t :=
  [ ("USD", Wallet.mk "USD" 100); ("BTC", Wallet.mk "BTC" 2) ].

Definition portfolio : Portfolio.t := Portfolio.mk 1 wallets.

Definition files : Files := mk_Files None (Some [Portfolio.to_dict portfolio]) None.

Definition rates : UseCases.UC :=
  Sample.uc_of [ ("BTC_USD", Sample.point 40); ("EUR_USD", Sample.point 1.25) ].

(** The rate state after the first reading of the cache at time [0]. *)
Definition rates_read : UseCases.UC :=
  Sample.uc_read 0 [ ("BTC_USD", Sample.point 40); ("EUR_USD", Sample.point 1.25) ].

Definition app : CoreUseCases.App := CoreUseCases.mk_App rates files.

Definition clock : datetime := mk_datetime true 1704067260123456.

(** What the trades below return. *)
Definition bought : CoreUseCases.Trade :=
  CoreUseCases.mk_Trade 1 "BTC" 2 40 "USD"
    "USD: 100.0000→20.0000; BTC: 2.0000→4.0000" (Some 80%float) None.

Definition sold : CoreUseCases.Trade :=
  CoreUseCases.mk_Trade 1 "BTC" 0.5 40 "USD"
    "BTC: 2.0000→1.5000; USD: 100.0000→120.0000" None (Some 20%float).

Definition topped_up : CoreUseCases.Trade :=
  CoreUseCases.mk_Trade 1 "USD" 5 1 "USD" "USD: 100.0000→105.0000" None None.

Definition shown : CoreUseCases.Shown :=
  CoreUseCases.mk_Shown false "USD"
    [ CoreUseCases.mk_Row "BTC" 2 80; CoreUseCases.mk_Row "USD" 100 100 ] 180.

End SampleAccounts.

(* ================================================================= *)
(** * Properties *)

(* ================================================================= *)
(** ** Python dictionaries *)

Module PyDictFacts.
Import PyDict.

Section Facts.
Context {V : Type}.
Implicit Types (d : t V) (k : string) (v : V).

Lemma get_set_same k v d : get k (set k v d) = Some v.
Proof.
  induction d as [|[k' v'] r IH]; simpl.
  - now rewrite String.eqb_refl.
  - destruct (String.eqb k' k) eqn:E; simpl; rewrite E; auto.
Qed.

Lemma get_set_other k k' v d : k' <> k -> get k' (set k v d) = get k' d.
Proof.
  intros Hne. induction d as [|[k0 v0] r IH]; simpl.
  - destruct (String.eqb k k') eqn:E; auto.
    apply String.eqb_eq in E. congruence.
  - destruct (String.eqb k0 k) eqn:E; simpl.
    + apply String.eqb_eq in E. subst k0.
      destruct (String.eqb k k') eqn:E'; auto.
      apply String.eqb_eq in E'. congruence.
    + destruct (String.eqb k0 k'); auto.
Qed.

Lemma set_get_id k v d : get k d = Some v -> set k v d = d.
Proof.
  induction d as [|[k0 v0] r IH]; simpl; [discriminate|].
  destruct (String.eqb k0 k) eqn:E.
  - now intros [= ->].
  - intros H. now rewrite IH.
Qed.

Lemma set_set k v v' d : set k v (set k v' d) = set k v d.
Proof.
  induction d as [|[k0 v0] r IH]; simpl.
  - now rewrite String.eqb_refl.
  - destruct (String.eqb k0 k) eqn:E; simpl; rewrite E; congruence.
Qed.

Lemma get_None_not_In k d : get k d = None <-> ~ In k (keys d).
Proof.
  induction d as [|[k0 v0] r IH]; simpl.
  - tauto.
  - destruct (String.eqb k0 k) eqn:E.
    + apply String.eqb_eq in E. split; [discriminate | tauto].
    + apply String.eqb_neq in E. rewrite IH. tauto.
Qed.

Lemma get_Some_In k v d : get k d = Some v -> In (k, v) d.
Proof.
  induction d as [|[k0 v0] r IH]; simpl; [discriminate|].
  destruct (String.eqb k0 k) eqn:E.
  - apply String.eqb_eq in E. intros [= ->]. left. congruence.
  - auto.
Qed.

Lemma In_get_NoDup k v d : NoDup (keys d) -> In (k, v) d -> get k d = Some v.
Proof.
  induction d as [|[k0 v0] r IH]; simpl; [tauto|].
  intros Hnd [Heq | Hin].
  - injection Heq as -> ->. now rewrite String.eqb_refl.
  - inversion Hnd as [|? ? Hnot Hnd']; subst.
    destruct (String.eqb k0 k) eqn:E.
    + apply String.eqb_eq in E. subst k0. exfalso. apply Hnot.
      change k with (fst (k, v)). now apply in_map.
    + auto.
Qed.

Lemma keys_set_present k v d :
  get k d <> None -> keys (set k v d) = keys d.
Proof.
  induction d as [|[k0 v0] r IH]; simpl; [congruence|].
  destruct (String.eqb k0 k) eqn:E; simpl; auto.
  intros H. now rewrite IH.
Qed.

Lemma keys_set_absent k v d :
  get k d = None -> keys (set k v d) = keys d ++ [k].
Proof.
  induction d as [|[k0 v0] r IH]; simpl; auto.
  destruct (String.eqb k0 k) eqn:E; [discriminate|].
  intros H. simpl. now rewrite IH.
Qed.

Lemma mem_true_iff k d : mem k d = true <-> In k (keys d).
Proof.
  unfold mem. destruct (get k d) eqn:E.
  - split; auto. intros _. apply get_Some_In in E.
    change k with (fst (k, v)). now apply in_map.
  - apply get_None_not_In in E. split; [discriminate | tauto].
Qed.

End Facts.

End PyDictFacts.


(* ================================================================= *)
(** ** The merge rule of [write_snapshot] *)

Section MergeFacts.
Context {RT : Runtime}.
Implicit Types (cur : PyDict.t RatePoint) (k : string) (v old : RatePoint).

Lemma merge_item_get_same cur k v :
  PyDict.get k (Storage.merge_item cur (k, v)) = Some (merged_point (PyDict.get k cur) v).
Proof.
  unfold Storage.merge_item, merged_point.
  destruct (PyDict.get k cur) as [old|] eqn:E.
  - destruct (Storage.incoming_is_newer v old) as [[|]|e];
      auto using PyDictFacts.get_set_same.
  - apply PyDictFacts.get_set_same.
Qed.

Lemma merge_item_get_other cur k k' v :
  k' <> k -> PyDict.get k' (Storage.merge_item cur (k, v)) = PyDict.get k' cur.
Proof.
  intros Hne. unfold Storage.merge_item.
  destruct (PyDict.get k cur) as [old|].
  - destruct (Storage.incoming_is_newer v old) as [[|]|e];
      auto using PyDictFacts.get_set_other.
  - now apply PyDictFacts.get_set_other.
Qed.

Lemma merge_pairs_cons kv rest cur :
  Storage.merge_pairs (kv :: rest) cur
  = Storage.merge_pairs rest (Storage.merge_item cur kv).
Proof. reflexivity. Qed.

Lemma merge_pairs_get_absent new_pairs : forall cur k,
  ~ In k (PyDict.keys new_pairs) ->
  PyDict.get k (Storage.merge_pairs new_pairs cur) = PyDict.get k cur.
Proof.
  induction new_pairs as [|[k0 v0] rest IH]; intros cur k Hnot.
  - reflexivity.
  - rewrite merge_pairs_cons. simpl in Hnot.
    rewrite IH by tauto. apply merge_item_get_other. intros ->. tauto.
Qed.

Lemma merge_pairs_get_present new_pairs : forall cur k v,
  NoDup (PyDict.keys new_pairs) -> In (k, v) new_pairs ->
  PyDict.get k (Storage.merge_pairs new_pairs cur)
  = Some (merged_point (PyDict.get k cur) v).
Proof.
  induction new_pairs as [|[k0 v0] rest IH]; intros cur k v Hnd Hin.
  - contradiction.
  - rewrite merge_pairs_cons. simpl in Hnd.
    inversion Hnd as [|? ? Hnot Hnd']; subst.
    destruct Hin as [Heq | Hin].
    + injection Heq as -> ->.
      rewrite merge_pairs_get_absent by assumption.
      apply merge_item_get_same.
    + rewrite (IH _ k v Hnd' Hin). rewrite merge_item_get_other; auto.
      intros ->. apply Hnot. change k0 with (fst (k0, v)). now apply in_map.
Qed.

(** A key of the stored snapshot is still a key after one turn of the loop. *)
Lemma merge_item_keeps_keys cur kv k :
  PyDict.get k cur <> None -> PyDict.get k (Storage.merge_item cur kv) <> None.
Proof.
  destruct kv as [k0 v0]. intros H.
  destruct (String.eqb k k0) eqn:E.
  - apply String.eqb_eq in E. subst. rewrite merge_item_get_same. discriminate.
  - apply String.eqb_neq in E. now rewrite merge_item_get_other.
Qed.

Lemma merge_pairs_keeps_keys new_pairs : forall cur k,
  PyDict.get k cur <> None -> PyDict.get k (Storage.merge_pairs new_pairs cur) <> None.
Proof.
  induction new_pairs as [|kv rest IH]; intros cur k H; auto.
  rewrite merge_pairs_cons. apply IH. now apply merge_item_keeps_keys.
Qed.

(** Every key of the payload is a key of the merged map. *)
Lemma merge_pairs_has_payload_keys new_pairs : forall cur k,
  In k (PyDict.keys new_pairs) ->
  PyDict.get k (Storage.merge_pairs new_pairs cur) <> None.
Proof.
  induction new_pairs as [|[k0 v0] rest IH]; intros cur k Hin.
  - contradiction.
  - rewrite merge_pairs_cons. simpl in Hin.
    destruct (String.eqb k0 k) eqn:E.
    + apply String.eqb_eq in E. subst k0.
      apply (merge_pairs_keeps_keys rest). rewrite merge_item_get_same. discriminate.
    + apply String.eqb_neq in E. apply IH. tauto.
Qed.

(** A timestamp is never strictly newer than itself. *)
Lemma incoming_is_newer_irrefl v :
  Storage.incoming_is_newer v v = Ok true -> False.
Proof.
  unfold Storage.incoming_is_newer, bind.
  destruct (Utils.parse_dt (updated_at v)) as [a|e]; [|discriminate].
  unfold dt_gt. rewrite Bool.eqb_reflx, Z.ltb_irrefl. discriminate.
Qed.

(** Meeting the same incoming RatePoint again changes nothing. *)
Lemma merge_item_settled cur k v stored :
  PyDict.get k cur = Some (merged_point stored v) ->
  Storage.merge_item cur (k, v) = cur.
Proof.
  intros Hget. unfold Storage.merge_item. rewrite Hget.
  unfold merged_point in *.
  destruct stored as [old|].
  - destruct (Storage.incoming_is_newer v old) as [[|]|e] eqn:E.
    + destruct (Storage.incoming_is_newer v v) as [[|]|e'] eqn:E';
        auto using PyDictFacts.set_get_id.
    + now rewrite E.
    + destruct (Storage.incoming_is_newer v v) as [[|]|e'] eqn:E';
        auto using PyDictFacts.set_get_id.
  - destruct (Storage.incoming_is_newer v v) as [[|]|e'] eqn:E';
      auto using PyDictFacts.set_get_id.
Qed.

Lemma fold_left_fixed {A B : Type} (f : A -> B -> A) (l : list B) (a : A) :
  (forall x, In x l -> f a x = a) -> fold_left f l a = a.
Proof.
  induction l as [|x l IH]; simpl; intros H; auto.
  rewrite (H x) by auto. apply IH. auto.
Qed.

Lemma merge_pairs_idempotent new_pairs cur :
  NoDup (PyDict.keys new_pairs) ->
  Storage.merge_pairs new_pairs (Storage.merge_pairs new_pairs cur)
  = Storage.merge_pairs new_pairs cur.
Proof.
  intros Hnd. unfold Storage.merge_pairs at 1.
  apply fold_left_fixed. intros [k v] Hin.
  apply merge_item_settled with (stored := PyDict.get k cur).
  now apply merge_pairs_get_present.
Qed.

End MergeFacts.

Section SnapshotFacts.
Context {RT : Runtime}.

Lemma pairs_after_write db new_pairs refreshed_at :
  pairs (Database.read_rates (Storage.write_snapshot db new_pairs refreshed_at))
  = Storage.merge_pairs new_pairs (pairs (Database.read_rates db)).
Proof. reflexivity. Qed.

Lemma newer_of_parsed v old a b :
  Utils.parse_dt (updated_at v) = Ok a ->
  Utils.parse_dt (updated_at old) = Ok b ->
  Storage.incoming_is_newer v old = dt_gt a b.
Proof.
  intros Ha Hb. unfold Storage.incoming_is_newer, bind. now rewrite Ha, Hb.
Qed.

Lemma dt_gt_same_kind a b :
  dt_aware a = dt_aware b -> dt_gt a b = Ok (dt_micros b <? dt_micros a).
Proof.
  intros H. unfold dt_gt. rewrite H, Bool.eqb_reflx. reflexivity.
Qed.

Lemma dt_gt_mixed a b :
  dt_aware a <> dt_aware b -> exists e, dt_gt a b = Raise e.
Proof.
  intros H. unfold dt_gt.
  destruct (Bool.eqb (dt_aware a) (dt_aware b)) eqn:E.
  - apply Bool.eqb_prop in E. contradiction.
  - eauto.
Qed.

(** Two incoming RatePoints whose timestamps parse, are of the same kind
    and differ: whatever was stored, meeting them in either order leaves
    what meeting the later one alone leaves. *)
Lemma merged_point_either_order stored v1 v2 a1 a2 :
  Utils.parse_dt (updated_at v1) = Ok a1 ->
  Utils.parse_dt (updated_at v2) = Ok a2 ->
  dt_aware a1 = dt_aware a2 ->
  dt_micros a1 < dt_micros a2 ->
  merged_point (Some (merged_point stored v1)) v2 = merged_point stored v2
  /\ merged_point (Some (merged_point stored v2)) v1 = merged_point stored v2.
Proof.
  intros H1 H2 Hk Hlt.
  assert (N21 : Storage.incoming_is_newer v2 v1 = Ok true).
  { rewrite (newer_of_parsed _ _ _ _ H2 H1), dt_gt_same_kind by auto.
    f_equal. apply Z.ltb_lt. exact Hlt. }
  assert (N12 : Storage.incoming_is_newer v1 v2 = Ok false).
  { rewrite (newer_of_parsed _ _ _ _ H1 H2), dt_gt_same_kind by auto.
    f_equal. apply Z.ltb_ge. lia. }
  destruct stored as [old|]; simpl.
  2:{ now rewrite N21, N12. }
  destruct (Utils.parse_dt (updated_at old)) as [b|e] eqn:Hb.
  2:{ assert (R1 : Storage.incoming_is_newer v1 old = Raise e)
        by (unfold Storage.incoming_is_newer, bind; now rewrite H1, Hb).
      assert (R2 : Storage.incoming_is_newer v2 old = Raise e)
        by (unfold Storage.incoming_is_newer, bind; now rewrite H2, Hb).
      now rewrite R1, R2, N21, N12. }
  rewrite (newer_of_parsed _ _ _ _ H1 Hb), (newer_of_parsed _ _ _ _ H2 Hb).
  destruct (Bool.eqb (dt_aware a1) (dt_aware b)) eqn:Ek.
  - apply Bool.eqb_prop in Ek.
    rewrite !dt_gt_same_kind by congruence.
    destruct (dt_micros b <? dt_micros a1) eqn:L1;
      destruct (dt_micros b <? dt_micros a2) eqn:L2;
      rewrite ?N21, ?N12, ?(newer_of_parsed _ _ _ _ H1 Hb),
        ?(newer_of_parsed _ _ _ _ H2 Hb), ?dt_gt_same_kind, ?L1, ?L2 by congruence;
      auto.
    apply Z.ltb_lt in L1. apply Z.ltb_ge in L2. lia.
  - assert (Hne1 : dt_aware a1 <> dt_aware b).
    { intros E. rewrite E, Bool.eqb_reflx in Ek. discriminate. }
    assert (Hne2 : dt_aware a2 <> dt_aware b) by congruence.
    destruct (dt_gt_mixed _ _ Hne1) as [e1 ->].
    destruct (dt_gt_mixed _ _ Hne2) as [e2 ->].
    now rewrite N21, N12.
Qed.

(** C1 (as amended).  For every stored snapshot and every payload,
    [write_snapshot] inserts a pair key that is absent; for a key already
    present it keeps the stored RatePoint when both timestamps parse, are of
    the same kind (both carry a UTC offset or neither does) and the
    incoming one is not strictly newer, and it stores the incoming
    RatePoint in every other case: strictly newer, a timestamp that does
    not parse, or two parsed timestamps that cannot be ordered.
    Consequently two RatePoints for the same key whose timestamps parse, are
    of the same kind and differ end in the same stored RatePoint in either
    order of the two calls: the one the later of them alone would leave,
    which is that later one when the key was absent. *)
Theorem write_snapshot_merge_rule :
  (forall db new_pairs refreshed_at k v,
     NoDup (PyDict.keys new_pairs) -> In (k, v) new_pairs ->
     let after :=
       PyDict.get k
         (pairs (Database.read_rates (Storage.write_snapshot db new_pairs refreshed_at))) in
     match PyDict.get k (pairs (Database.read_rates db)) with
     | None => after = Some v
     | Some old =>
         match Utils.parse_dt (updated_at v), Utils.parse_dt (updated_at old) with
         | Ok a, Ok b =>
             if Bool.eqb (dt_aware a) (dt_aware b)
             then after = Some (if dt_micros b <? dt_micros a then v else old)
             else after = Some v
         | _, _ => after = Some v
         end
     end)
  /\
  (forall db p1 p2 t1 t2 k v1 v2 a1 a2,
     NoDup (PyDict.keys p1) -> NoDup (PyDict.keys p2) ->
     In (k, v1) p1 -> In (k, v2) p2 ->
     Utils.parse_dt (updated_at v1) = Ok a1 ->
     Utils.parse_dt (updated_at v2) = Ok a2 ->
     dt_aware a1 = dt_aware a2 ->
     dt_micros a1 < dt_micros a2 ->
     let stored_in d := PyDict.get k (pairs (Database.read_rates d)) in
     let first_then_second :=
       Storage.write_snapshot (Storage.write_snapshot db p1 t1) p2 t2 in
     let second_then_first :=
       Storage.write_snapshot (Storage.write_snapshot db p2 t2) p1 t1 in
     stored_in first_then_second = stored_in second_then_first
     /\ stored_in first_then_second = stored_in (Storage.write_snapshot db p2 t2)
     /\ (stored_in db = None -> stored_in first_then_second = Some v2)).
Proof.
  split.
  - intros db new_pairs refreshed_at k v Hnd Hin after. subst after.
    rewrite pairs_after_write, (merge_pairs_get_present _ _ k v Hnd Hin).
    destruct (PyDict.get k (pairs (Database.read_rates db))) as [old|]; [|reflexivity].
    unfold merged_point, Storage.incoming_is_newer, bind.
    destruct (Utils.parse_dt (updated_at v)) as [a|]; [|reflexivity].
    destruct (Utils.parse_dt (updated_at old)) as [b|]; [|reflexivity].
    unfold dt_gt.
    destruct (Bool.eqb (dt_aware a) (dt_aware b)); [|reflexivity].
    now destruct (dt_micros b <? dt_micros a).
  - intros db p1 p2 t1 t2 k v1 v2 a1 a2 Hnd1 Hnd2 Hin1 Hin2 H1 H2 Hk Hlt
      stored_in first_then_second second_then_first.
    subst stored_in first_then_second second_then_first. cbv beta.
    rewrite !pairs_after_write.
    rewrite (merge_pairs_get_present p2 _ k v2 Hnd2 Hin2).
    rewrite (merge_pairs_get_present p1 _ k v1 Hnd1 Hin1).
    rewrite (merge_pairs_get_present p1 _ k v1 Hnd1 Hin1).
    rewrite (merge_pairs_get_present p2 _ k v2 Hnd2 Hin2).
    destruct (merged_point_either_order
                (PyDict.get k (pairs (Database.read_rates db))) v1 v2 a1 a2 H1 H2 Hk Hlt)
      as [E1 E2].
    rewrite E1, E2. repeat split.
    intros ->. reflexivity.
Qed.

(** C7.  Applying the same payload (pairs and [refreshed_at]) twice in
    succession leaves the files exactly as applying it once. *)
Theorem write_snapshot_idempotent db new_pairs refreshed_at :
  NoDup (PyDict.keys new_pairs) ->
  Storage.write_snapshot (Storage.write_snapshot db new_pairs refreshed_at)
    new_pairs refreshed_at
  = Storage.write_snapshot db new_pairs refreshed_at.
Proof.
  intros Hnd. unfold Storage.write_snapshot at 1. rewrite pairs_after_write.
  rewrite merge_pairs_idempotent by assumption.
  reflexivity.
Qed.

(** C9.  A pair key of the prior snapshot that the payload does not name
    keeps exactly its prior RatePoint; every pair key of the prior snapshot
    is a pair key afterwards; the history file is not touched.  Only the
    pairs the payload names and [last_refresh] can change. *)
Theorem write_snapshot_frame db new_pairs refreshed_at :
  let db' := Storage.write_snapshot db new_pairs refreshed_at in
  (forall k, ~ In k (PyDict.keys new_pairs) ->
     PyDict.get k (pairs (Database.read_rates db'))
     = PyDict.get k (pairs (Database.read_rates db)))
  /\ (forall k, In k (PyDict.keys (pairs (Database.read_rates db))) ->
        In k (PyDict.keys (pairs (Database.read_rates db'))))
  /\ Database.history_json db' = Database.history_json db
  /\ last_refresh (Database.read_rates db') = Some refreshed_at.
Proof.
  intros db'. subst db'. repeat split.
  - intros k Hk. rewrite pairs_after_write. now apply merge_pairs_get_absent.
  - intros k Hk. rewrite pairs_after_write.
    apply PyDictFacts.mem_true_iff. apply PyDictFacts.mem_true_iff in Hk.
    unfold PyDict.mem in *.
    pose proof (merge_pairs_keeps_keys new_pairs (pairs (Database.read_rates db)) k) as K.
    destruct (PyDict.get k (pairs (Database.read_rates db))); [|discriminate].
    destruct (PyDict.get k (Storage.merge_pairs new_pairs (pairs (Database.read_rates db)))).
    + reflexivity.
    + exfalso. apply K; [discriminate | reflexivity].
Qed.

End SnapshotFacts.

(* ================================================================= *)
(** ** [append_history] *)

Section HistoryFacts.

(** The loop of [append_history] keeps the rows it starts from and adds,
    in order, the entries whose id is not among [existing]. *)
Lemma append_loop_filter (existing : list (option string)) (entries : list HistoryEntry) :
  forall history,
    fold_left
      (fun h e => if negb (Database.id_in (h_id e) existing) then h ++ [e] else h)
      entries history
    = history ++ filter (fun e => negb (Database.id_in (h_id e) existing)) entries.
Proof.
  induction entries as [|e rest IH]; intros history; simpl.
  - now rewrite app_nil_r.
  - rewrite IH. destruct (negb (Database.id_in (h_id e) existing)); simpl.
    + now rewrite <- app_assoc.
    + reflexivity.
Qed.

Lemma read_history_after_append db entries :
  Database.read_history (Database.append_history db entries)
  = Database.read_history db
    ++ filter (fun e => negb (Database.id_in (h_id e)
                                (map h_id (Database.read_history db)))) entries.
Proof.
  unfold Database.append_history. unfold Database.read_history at 1. simpl.
  apply append_loop_filter.
Qed.

Lemma append_history_keeps_rates db entries :
  Database.rates_json (Database.append_history db entries) = Database.rates_json db.
Proof. reflexivity. Qed.

End HistoryFacts.

(* ================================================================= *)
(** ** [run_update] *)

Section UpdaterFacts.
Context {RT : Runtime}.
Variable cfg : ParserConfig.
Variable last_refresh_now : string.

Lemma pairs_loop_result source upd meta items : forall comb hist count,
  snd (Updater.pairs_loop cfg source upd meta items comb hist count)
  = if existsb no_underscore items
    then Raise (ValueError "not enough values to unpack (expected 2, got 1)")
    else Ok (count + Z.of_nat (List.length items)).
Proof.
  induction items as [|[p r] rest IH]; intros comb hist count.
  - simpl. now rewrite Z.add_0_r.
  - cbn [Updater.pairs_loop existsb]. unfold no_underscore at 1. cbn [fst].
    destruct (Str.split_once "_" p) as [[from_cur to_cur]|]; cbn [orb].
    + rewrite IH. destruct (existsb no_underscore rest); [reflexivity|].
      f_equal. cbn [List.length]. lia.
    + reflexivity.
Qed.

Lemma pairs_loop_comb_other source upd meta items k : forall comb hist count,
  ~ In k (PyDict.keys items) ->
  PyDict.get k (fst (fst (Updater.pairs_loop cfg source upd meta items comb hist count)))
  = PyDict.get k comb.
Proof.
  induction items as [|[p r] rest IH]; intros comb hist count Hnot.
  - reflexivity.
  - cbn [Updater.pairs_loop]. simpl in Hnot.
    destruct (Str.split_once "_" p) as [[from_cur to_cur]|].
    + rewrite IH by tauto. apply PyDictFacts.get_set_other. intros ->. tauto.
    + cbn [fst]. apply PyDictFacts.get_set_other. intros ->. tauto.
Qed.

Lemma pairs_loop_comb_keeps source upd meta items k : forall comb hist count,
  PyDict.get k comb <> None ->
  PyDict.get k (fst (fst (Updater.pairs_loop cfg source upd meta items comb hist count)))
  <> None.
Proof.
  induction items as [|[p r] rest IH]; intros comb hist count H.
  - exact H.
  - cbn [Updater.pairs_loop].
    assert (K : PyDict.get k (PyDict.set p (mk_RatePoint r upd source) comb) <> None).
    { destruct (String.eqb k p) eqn:E.
      - apply String.eqb_eq in E. subst. rewrite PyDictFacts.get_set_same. discriminate.
      - apply String.eqb_neq in E. now rewrite PyDictFacts.get_set_other. }
    destruct (Str.split_once "_" p) as [[from_cur to_cur]|].
    + now apply IH.
    + exact K.
Qed.

Lemma pairs_loop_comb_present source upd meta items k r : forall comb hist count,
  existsb no_underscore items = false ->
  NoDup (PyDict.keys items) -> In (k, r) items ->
  PyDict.get k (fst (fst (Updater.pairs_loop cfg source upd meta items comb hist count)))
  = Some (mk_RatePoint r upd source).
Proof.
  induction items as [|[p r0] rest IH]; intros comb hist count Hok Hnd Hin.
  - contradiction.
  - cbn [Updater.pairs_loop]. cbn [existsb] in Hok.
    apply Bool.orb_false_iff in Hok. destruct Hok as [Hp Hrest].
    unfold no_underscore in Hp. cbn [fst] in Hp.
    simpl in Hnd. inversion Hnd as [|? ? Hnot Hnd']; subst.
    destruct (Str.split_once "_" p) as [[from_cur to_cur]|]; [|discriminate].
    destruct Hin as [Heq | Hin].
    + injection Heq as -> ->.
      rewrite pairs_loop_comb_other by assumption. apply PyDictFacts.get_set_same.
    + now apply IH.
Qed.

Lemma client_step_total st c :
  Updater.st_total (Updater.client_step cfg last_refresh_now st c)
  = Updater.st_total st + client_count c.
Proof.
  unfold Updater.client_step, client_count.
  destruct (Updater.fetch_result c) as [rates|e]; simpl; [|lia].
  pose proof (pairs_loop_result
                (Updater.or_default (m_source (Updater.last_meta c)) (Updater.client_name c))
                (Updater.or_default (m_timestamp (Updater.last_meta c)) last_refresh_now)
                (Updater.last_meta c) rates
                (Updater.combined st) (Updater.history_entries st) 0) as R.
  destruct (Updater.pairs_loop cfg _ _ _ rates _ _ 0) as [[comb hist] res].
  simpl in R. subst res.
  destruct (existsb no_underscore rates); simpl; lia.
Qed.

Lemma client_step_errors st c :
  Updater.st_errors (Updater.client_step cfg last_refresh_now st c)
  = Updater.st_errors st ++ error_line c.
Proof.
  unfold Updater.client_step, error_line, client_error.
  destruct (Updater.fetch_result c) as [rates|e]; simpl; [|reflexivity].
  pose proof (pairs_loop_result
                (Updater.or_default (m_source (Updater.last_meta c)) (Updater.client_name c))
                (Updater.or_default (m_timestamp (Updater.last_meta c)) last_refresh_now)
                (Updater.last_meta c) rates
                (Updater.combined st) (Updater.history_entries st) 0) as R.
  destruct (Updater.pairs_loop cfg _ _ _ rates _ _ 0) as [[comb hist] res].
  simpl in R. subst res.
  destruct (existsb no_underscore rates); simpl; [reflexivity|].
  now rewrite app_nil_r.
Qed.

Lemma client_step_sources st c :
  Updater.st_sources (Updater.client_step cfg last_refresh_now st c)
  = PyDict.set (Updater.client_name c) (source_entry c) (Updater.st_sources st).
Proof.
  unfold Updater.client_step, source_entry, client_error, client_count.
  destruct (Updater.fetch_result c) as [rates|e]; simpl; [|reflexivity].
  pose proof (pairs_loop_result
                (Updater.or_default (m_source (Updater.last_meta c)) (Updater.client_name c))
                (Updater.or_default (m_timestamp (Updater.last_meta c)) last_refresh_now)
                (Updater.last_meta c) rates
                (Updater.combined st) (Updater.history_entries st) 0) as R.
  destruct (Updater.pairs_loop cfg _ _ _ rates _ _ 0) as [[comb hist] res].
  simpl in R. subst res.
  destruct (existsb no_underscore rates); simpl; reflexivity.
Qed.

Lemma client_step_combined_keeps st c k :
  PyDict.get k (Updater.combined st) <> None ->
  PyDict.get k (Updater.combined (Updater.client_step cfg last_refresh_now st c)) <> None.
Proof.
  intros H. unfold Updater.client_step.
  destruct (Updater.fetch_result c) as [rates|e]; [|exact H].
  pose proof (pairs_loop_comb_keeps
                (Updater.or_default (m_source (Updater.last_meta c)) (Updater.client_name c))
                (Updater.or_default (m_timestamp (Updater.last_meta c)) last_refresh_now)
                (Updater.last_meta c) rates k
                (Updater.combined st) (Updater.history_entries st) 0 H) as K.
  destruct (Updater.pairs_loop cfg _ _ _ rates _ _ 0) as [[comb hist] [count|e]];
    exact K.
Qed.

Lemma client_step_combined_other st c k :
  leaves_key k c ->
  PyDict.get k (Updater.combined (Updater.client_step cfg last_refresh_now st c))
  = PyDict.get k (Updater.combined st).
Proof.
  unfold leaves_key, Updater.client_step.
  destruct (Updater.fetch_result c) as [rates|e]; [|reflexivity].
  intros H.
  pose proof (pairs_loop_comb_other
                (Updater.or_default (m_source (Updater.last_meta c)) (Updater.client_name c))
                (Updater.or_default (m_timestamp (Updater.last_meta c)) last_refresh_now)
                (Updater.last_meta c) rates k
                (Updater.combined st) (Updater.history_entries st) 0 H) as K.
  destruct (Updater.pairs_loop cfg _ _ _ rates _ _ 0) as [[comb hist] [count|e]];
    exact K.
Qed.

Lemma client_step_combined_present st c rates k r :
  Updater.fetch_result c = Ok rates -> client_error c = None ->
  NoDup (PyDict.keys rates) -> In (k, r) rates ->
  PyDict.get k (Updater.combined (Updater.client_step cfg last_refresh_now st c))
  = Some (mk_RatePoint r (client_updated_at last_refresh_now c) (client_source c)).
Proof.
  unfold client_error, Updater.client_step. intros Hf. rewrite Hf.
  destruct (existsb no_underscore rates) eqn:Hbad; [discriminate|].
  intros _ Hnd Hin.
  pose proof (pairs_loop_comb_present
                (Updater.or_default (m_source (Updater.last_meta c)) (Updater.client_name c))
                (Updater.or_default (m_timestamp (Updater.last_meta c)) last_refresh_now)
                (Updater.last_meta c) rates k r
                (Updater.combined st) (Updater.history_entries st) 0 Hbad Hnd Hin) as K.
  destruct (Updater.pairs_loop cfg _ _ _ rates _ _ 0) as [[comb hist] [count|e]];
    exact K.
Qed.

Lemma run_from_total clients : forall st,
  Updater.st_total (fold_left (Updater.client_step cfg last_refresh_now) clients st)
  = Updater.st_total st + fetched_total clients.
Proof.
  induction clients as [|c rest IH]; intros st; simpl.
  - lia.
  - rewrite IH, client_step_total. lia.
Qed.

Lemma run_from_errors clients : forall st,
  Updater.st_errors (fold_left (Updater.client_step cfg last_refresh_now) clients st)
  = Updater.st_errors st ++ flat_map error_line clients.
Proof.
  induction clients as [|c rest IH]; intros st; simpl.
  - now rewrite app_nil_r.
  - rewrite IH, client_step_errors. now rewrite <- app_assoc.
Qed.

Lemma run_from_sources_other clients n : forall st,
  (forall c, In c clients -> Updater.client_name c <> n) ->
  PyDict.get n (Updater.st_sources
                  (fold_left (Updater.client_step cfg last_refresh_now) clients st))
  = PyDict.get n (Updater.st_sources st).
Proof.
  induction clients as [|c rest IH]; intros st H; simpl.
  - reflexivity.
  - rewrite IH by (intros; apply H; now right).
    rewrite client_step_sources. apply PyDictFacts.get_set_other.
    intros E. apply (H c); [now left | now symmetry].
Qed.

Lemma run_from_sources clients c : forall st,
  NoDup (map Updater.client_name clients) -> In c clients ->
  PyDict.get (Updater.client_name c)
    (Updater.st_sources (fold_left (Updater.client_step cfg last_refresh_now) clients st))
  = Some (source_entry c).
Proof.
  induction clients as [|c0 rest IH]; intros st Hnd Hin; simpl in *.
  - contradiction.
  - inversion Hnd as [|? ? Hnot Hnd']; subst.
    destruct Hin as [-> | Hin].
    + rewrite run_from_sources_other.
      * rewrite client_step_sources. apply PyDictFacts.get_set_same.
      * intros c' Hc' E. apply Hnot. rewrite <- E. now apply in_map.
    + now apply IH.
Qed.

Lemma run_from_combined_keeps clients k : forall st,
  PyDict.get k (Updater.combined st) <> None ->
  PyDict.get k (Updater.combined
                  (fold_left (Updater.client_step cfg last_refresh_now) clients st))
  <> None.
Proof.
  induction clients as [|c rest IH]; intros st H; simpl; auto.
  apply IH. now apply client_step_combined_keeps.
Qed.

Lemma run_from_combined_other clients k : forall st,
  Forall (leaves_key k) clients ->
  PyDict.get k (Updater.combined
                  (fold_left (Updater.client_step cfg last_refresh_now) clients st))
  = PyDict.get k (Updater.combined st).
Proof.
  induction clients as [|c rest IH]; intros st H; simpl; auto.
  inversion H; subst. rewrite IH by assumption.
  now apply client_step_combined_other.
Qed.

Lemma all_failed_nothing_fetched clients :
  (forall c, In c clients -> is_ok (Updater.fetch_result c) = false) ->
  fetched_total clients = 0.
Proof.
  induction clients as [|c rest IH]; intros H; simpl; auto.
  rewrite IH by (intros; apply H; now right).
  unfold client_count. specialize (H c (or_introl eq_refl)).
  destruct (Updater.fetch_result c); [discriminate | reflexivity].
Qed.

Lemma run_update_nothing_fetched clients db :
  fetched_total clients = 0 ->
  Updater.run_update cfg clients last_refresh_now db
  = (Raise (RuntimeError "No rates fetched from any source"), db).
Proof.
  intros H. unfold Updater.run_update, Updater.run_clients.
  rewrite run_from_total, H. reflexivity.
Qed.

Lemma client_count_nonneg c : 0 <= client_count c.
Proof.
  unfold client_count. destruct (Updater.fetch_result c); [|lia].
  destruct (existsb no_underscore a); lia.
Qed.

Lemma no_error_lines_iff clients :
  flat_map error_line clients = [] <->
  (forall c, In c clients -> client_error c = None).
Proof.
  induction clients as [|c rest IH]; simpl.
  - split; [contradiction | reflexivity].
  - split.
    + intros H. apply app_eq_nil in H. destruct H as [Hc Hrest].
      intros c' [<- | Hin].
      * unfold error_line in Hc. now destruct (client_error c).
      * now apply IH.
    + intros H. rewrite (proj2 IH) by (intros; apply H; now right).
      unfold error_line. now rewrite (H c (or_introl eq_refl)).
Qed.

(** C2.  When the fetch of every configured client fails, [run_update]
    raises its fatal error instead of returning a report and leaves the
    files as they were: neither the snapshot nor the history is written. *)
Theorem run_update_total_failure clients db :
  (forall c, In c clients -> is_ok (Updater.fetch_result c) = false) ->
  Updater.run_update cfg clients last_refresh_now db
  = (Raise (RuntimeError "No rates fetched from any source"), db).
Proof.
  intros H. apply run_update_nothing_fetched. now apply all_failed_nothing_fetched.
Qed.

Lemma set_keeps_NoDup {V : Type} (k : string) (v : V) (d : PyDict.t V) :
  NoDup (PyDict.keys d) -> NoDup (PyDict.keys (PyDict.set k v d)).
Proof.
  intros H. destruct (PyDict.get k d) as [w|] eqn:E.
  - rewrite PyDictFacts.keys_set_present; [exact H | congruence].
  - rewrite PyDictFacts.keys_set_absent by exact E.
    apply NoDup_app; repeat split; auto.
    + constructor; [intros [] | constructor].
    + intros x Hx [<- | []]. now apply PyDictFacts.get_None_not_In in E.
Qed.

Lemma pairs_loop_comb_NoDup source upd meta items : forall comb hist count,
  NoDup (PyDict.keys comb) ->
  NoDup (PyDict.keys
           (fst (fst (Updater.pairs_loop cfg source upd meta items comb hist count)))).
Proof.
  induction items as [|[p r] rest IH]; intros comb hist count H.
  - exact H.
  - cbn [Updater.pairs_loop].
    destruct (Str.split_once "_" p) as [[from_cur to_cur]|].
    + apply IH. now apply set_keeps_NoDup.
    + cbn [fst]. now apply set_keeps_NoDup.
Qed.

Lemma client_step_combined_NoDup st c :
  NoDup (PyDict.keys (Updater.combined st)) ->
  NoDup (PyDict.keys (Updater.combined (Updater.client_step cfg last_refresh_now st c))).
Proof.
  intros H. unfold Updater.client_step.
  destruct (Updater.fetch_result c) as [rates|e]; [|exact H].
  pose proof (pairs_loop_comb_NoDup
                (Updater.or_default (m_source (Updater.last_meta c)) (Updater.client_name c))
                (Updater.or_default (m_timestamp (Updater.last_meta c)) last_refresh_now)
                (Updater.last_meta c) rates
                (Updater.combined st) (Updater.history_entries st) 0 H) as K.
  destruct (Updater.pairs_loop cfg _ _ _ rates _ _ 0) as [[comb hist] [count|e]];
    exact K.
Qed.

Lemma run_from_combined_NoDup clients : forall st,
  NoDup (PyDict.keys (Updater.combined st)) ->
  NoDup (PyDict.keys (Updater.combined
           (fold_left (Updater.client_step cfg last_refresh_now) clients st))).
Proof.
  induction clients as [|c rest IH]; intros st H; simpl; auto.
  apply IH. now apply client_step_combined_NoDup.
Qed.

(** What the run leaves in [combined] under a key that a succeeding client
    fetched and no later client writes. *)
Lemma run_combined_value before c after rates k r :
  Updater.fetch_result c = Ok rates -> client_error c = None ->
  NoDup (PyDict.keys rates) -> In (k, r) rates ->
  Forall (leaves_key k) after ->
  PyDict.get k (Updater.combined
                  (Updater.run_clients cfg last_refresh_now (before ++ c :: after)))
  = Some (mk_RatePoint r (client_updated_at last_refresh_now c) (client_source c)).
Proof.
  intros Hf Hok Hnd Hin Hafter. unfold Updater.run_clients.
  rewrite fold_left_app. simpl.
  rewrite run_from_combined_other by assumption.
  now apply client_step_combined_present with (rates := rates).
Qed.

Lemma run_combined_has_key clients c rates k :
  In c clients -> Updater.fetch_result c = Ok rates -> client_error c = None ->
  In k (PyDict.keys rates) ->
  PyDict.get k (Updater.combined (Updater.run_clients cfg last_refresh_now clients))
  <> None.
Proof.
  intros Hin Hf Hok Hk. apply in_split in Hin. destruct Hin as [l1 [l2 ->]].
  unfold Updater.run_clients. rewrite fold_left_app. simpl.
  apply run_from_combined_keeps.
  unfold client_error in Hok. unfold Updater.client_step. rewrite Hf in *.
  destruct (existsb no_underscore rates) eqn:Hbad; [discriminate|].
  set (st := fold_left (Updater.client_step cfg last_refresh_now) l1 Updater.init_state).
  assert (K : forall items comb hist count,
             existsb no_underscore items = false -> In k (PyDict.keys items) ->
             PyDict.get k
               (fst (fst (Updater.pairs_loop cfg
                            (Updater.or_default (m_source (Updater.last_meta c))
                               (Updater.client_name c))
                            (Updater.or_default (m_timestamp (Updater.last_meta c))
                               last_refresh_now)
                            (Updater.last_meta c) items comb hist count))) <> None).
  { induction items as [|[p r] rest IH]; intros comb hist count Hb Hi.
    - contradiction.
    - cbn [Updater.pairs_loop]. cbn [existsb] in Hb.
      apply Bool.orb_false_iff in Hb. destruct Hb as [Hp Hrest].
      unfold no_underscore in Hp. cbn [fst] in Hp.
      destruct (Str.split_once "_" p) as [[from_cur to_cur]|]; [|discriminate].
      destruct (String.eqb p k) eqn:E.
      + apply String.eqb_eq in E. subst p.
        apply pairs_loop_comb_keeps. rewrite PyDictFacts.get_set_same. discriminate.
      + apply String.eqb_neq in E. apply IH; auto.
        simpl in Hi. destruct Hi; [contradiction | assumption]. }
  specialize (K rates (Updater.combined st) (Updater.history_entries st) 0 Hbad Hk).
  destruct (Updater.pairs_loop cfg _ _ _ rates _ _ 0) as [[comb hist] [count|e]];
    exact K.
Qed.

(** C3 (as amended).  When the clients that succeed fetch at least one pair
    in total, [run_update] returns a report and writes both files:
    [total] is the number of pairs fetched by the clients that succeed;
    [ok] is true exactly when no client ended in an error; [errors] holds
    one line per failed client; with distinct client names, [sources] marks
    every client, a failed one with its error; every pair a succeeding
    client fetched is a pair key of the snapshot afterwards, stored under
    the merge rule with the fetched rate, timestamp and source when no later
    client writes that key. *)
Theorem run_update_partial_failure clients db :
  0 < fetched_total clients ->
  let st := Updater.run_clients cfg last_refresh_now clients in
  let db' :=
    Database.append_history
      (Storage.write_snapshot db (Updater.combined st) last_refresh_now)
      (Updater.history_entries st) in
  exists report,
    Updater.run_update cfg clients last_refresh_now db = (Ok report, db')
    /\ Updater.total report = fetched_total clients
    /\ (Updater.ok report = true <->
        forall c, In c clients -> client_error c = None)
    /\ Updater.errors report = flat_map error_line clients
    /\ (NoDup (map Updater.client_name clients) ->
        forall c, In c clients ->
          PyDict.get (Updater.client_name c) (Updater.sources report)
          = Some (source_entry c))
    /\ (forall c rates k,
          In c clients -> Updater.fetch_result c = Ok rates ->
          client_error c = None -> In k (PyDict.keys rates) ->
          In k (PyDict.keys (pairs (Database.read_rates db'))))
    /\ (forall before c after rates k r,
          clients = before ++ c :: after ->
          Updater.fetch_result c = Ok rates -> client_error c = None ->
          NoDup (PyDict.keys rates) -> In (k, r) rates ->
          Forall (leaves_key k) after ->
          PyDict.get k (pairs (Database.read_rates db'))
          = Some (merged_point (PyDict.get k (pairs (Database.read_rates db)))
                    (mk_RatePoint r (client_updated_at last_refresh_now c) (client_source c)))).
Proof.
  intros Hpos st db'.
  assert (Htot : Updater.st_total st = fetched_total clients).
  { subst st. unfold Updater.run_clients. rewrite run_from_total. reflexivity. }
  assert (Herr : Updater.st_errors st = flat_map error_line clients).
  { subst st. unfold Updater.run_clients. rewrite run_from_errors. reflexivity. }
  assert (Hnz : (Updater.st_total st =? 0) = false) by (apply Z.eqb_neq; lia).
  assert (Hpairs : pairs (Database.read_rates db')
                   = Storage.merge_pairs (Updater.combined st)
                       (pairs (Database.read_rates db))) by reflexivity.
  assert (Hsrc : NoDup (map Updater.client_name clients) ->
                 forall c, In c clients ->
                   PyDict.get (Updater.client_name c) (Updater.st_sources st)
                   = Some (source_entry c)).
  { intros Hnd c Hin. subst st. unfold Updater.run_clients.
    now apply run_from_sources. }
  assert (Hkeys : forall c rates k,
             In c clients -> Updater.fetch_result c = Ok rates ->
             client_error c = None -> In k (PyDict.keys rates) ->
             In k (PyDict.keys (pairs (Database.read_rates db')))).
  { intros c rates k Hin Hf Hok Hk. rewrite Hpairs.
    apply PyDictFacts.mem_true_iff. unfold PyDict.mem.
    pose proof (merge_pairs_has_payload_keys (Updater.combined st)
                  (pairs (Database.read_rates db)) k) as K.
    destruct (PyDict.get k (Storage.merge_pairs _ _)); [reflexivity|].
    exfalso. apply K; [|reflexivity].
    apply PyDictFacts.mem_true_iff. unfold PyDict.mem.
    pose proof (run_combined_has_key clients c rates k Hin Hf Hok Hk) as K'.
    fold st in K'. destruct (PyDict.get k (Updater.combined st)); congruence. }
  assert (Hval : forall before c after rates k r,
             clients = before ++ c :: after ->
             Updater.fetch_result c = Ok rates -> client_error c = None ->
             NoDup (PyDict.keys rates) -> In (k, r) rates ->
             Forall (leaves_key k) after ->
             PyDict.get k (pairs (Database.read_rates db'))
             = Some (merged_point (PyDict.get k (pairs (Database.read_rates db)))
                       (mk_RatePoint r (client_updated_at last_refresh_now c) (client_source c)))).
  { intros before c after rates k r Hsplit Hf Hok Hnd Hin Hafter. rewrite Hpairs.
    apply merge_pairs_get_present.
    - subst st. unfold Updater.run_clients. apply run_from_combined_NoDup.
      constructor.
    - apply PyDictFacts.get_Some_In. subst st. rewrite Hsplit.
      now apply run_combined_value with (rates := rates). }
  unfold Updater.run_update. fold st. rewrite Hnz.
  destruct (Updater.st_errors st) as [|e0 es] eqn:E.
  - exists (Updater.mk_SyncReport true (Updater.st_total st) last_refresh_now []
              (Updater.st_sources st)).
    simpl. split; [reflexivity|]. split; [exact Htot|].
    split; [|split; [exact Herr | auto]].
    split; [|reflexivity].
    intros _. apply no_error_lines_iff. now rewrite <- Herr.
  - exists (Updater.mk_SyncReport false (Updater.st_total st) last_refresh_now
              (e0 :: es) (Updater.st_sources st)).
    simpl. split; [reflexivity|]. split; [exact Htot|].
    split; [|split; [exact Herr | auto]].
    split; [discriminate|].
    intros H. apply no_error_lines_iff in H. rewrite <- Herr in H. discriminate.
Qed.

End UpdaterFacts.

(* ================================================================= *)
(** ** The resolver: [_get_pair_rate], [get_rate], [_convert_amount] *)

Section ResolverFacts.
Context {RT : Runtime}.
Variable ttl : Z.

Lemma supported_USD : supported "USD".
Proof. split; [reflexivity | eexists; reflexivity]. Qed.

Lemma checks_pass from_code to_code :
  supported from_code -> supported to_code ->
  exists cur,
    (Utils.validate_currency_code from_code ;;;
     Utils.validate_currency_code to_code ;;;
     Currencies.get_currency from_code ;;;
     Currencies.get_currency to_code) = Ok cur.
Proof.
  intros [V1 [c1 G1]] [V2 [c2 G2]]. exists c2.
  unfold bind. now rewrite V1, V2, G1, G2.
Qed.

(** Reading the cache again at the same monotonic time gives the same
    snapshot and leaves the state as the first reading left it. *)
Lemma cached_rates_again now uc snap uc1 :
  UseCases._cached_rates ttl now uc = (snap, uc1) ->
  UseCases._cached_rates ttl now uc1 = (snap, uc1).
Proof.
  unfold UseCases._cached_rates, Utils.wrapped.
  destruct (UseCases.uc_cache uc) as [[ts val]|] eqn:C.
  - destruct (now - ts <=? Z.max 0 (Z.max 1 ttl)) eqn:L.
    + intros [= <- <-]. simpl. now rewrite L.
    + intros [= <- <-]. simpl.
      replace (now - now <=? Z.max 0 (Z.max 1 ttl)) with true; [reflexivity|].
      symmetry. apply Z.leb_le. lia.
  - intros [= <- <-]. simpl.
    replace (now - now <=? Z.max 0 (Z.max 1 ttl)) with true; [reflexivity|].
    symmetry. apply Z.leb_le. lia.
Qed.

(** The body of [_get_pair_rate] on supported codes, with the snapshot the
    cache gives at [now]. *)
Lemma lookup_step n now from_code to_code uc snap uc1 :
  supported from_code -> supported to_code ->
  UseCases._cached_rates ttl now uc = (snap, uc1) ->
  UseCases._get_pair_rate_fuel ttl (S n) now from_code to_code uc
  = match PyDict.get (Utils.pair_key from_code to_code) (pairs snap) with
    | Some item => (Ok (rate item, updated_at item), uc1)
    | None =>
        match PyDict.get (Utils.pair_key to_code from_code) (pairs snap) with
        | Some item =>
            if (rate item =? 0)%float
            then (Raise (ApiRequestError "Нулевой курс в кеше"), uc1)
            else (Ok ((1 / rate item)%float, updated_at item), uc1)
        | None =>
            if andb (negb (String.eqb from_code "USD")) (negb (String.eqb to_code "USD"))
            then
              match UseCases._get_pair_rate_fuel ttl n now from_code "USD" uc1 with
              | (Raise e, uc2) => (Raise e, uc2)
              | (Ok (r_from, upd), uc2) =>
                  match UseCases._get_pair_rate_fuel ttl n now to_code "USD" uc2 with
                  | (Raise e, uc3) => (Raise e, uc3)
                  | (Ok (r_to, _), uc3) =>
                      if (r_to =? 0)%float
                      then (Raise (ApiRequestError "Нулевой курс USD-моста"), uc3)
                      else (Ok ((r_from / r_to)%float, upd), uc3)
                  end
              end
            else
              (Raise (ApiRequestError
                 (String.append "Курс "
                    (String.append from_code
                       (String.append "→"
                          (String.append to_code " не найден в кеше"))))), uc1)
        end
    end.
Proof.
  intros Hf Ht Hc. cbn [UseCases._get_pair_rate_fuel].
  destruct (checks_pass _ _ Hf Ht) as [cur ->]. rewrite Hc.
  destruct (PyDict.get (Utils.pair_key from_code to_code) (pairs snap)); [reflexivity|].
  destruct (PyDict.get (Utils.pair_key to_code from_code) (pairs snap)) as [item|].
  - unfold py_truediv. destruct (rate item =? 0)%float; reflexivity.
  - destruct (andb (negb (String.eqb from_code "USD")) (negb (String.eqb to_code "USD")));
      [|reflexivity].
    destruct (UseCases._get_pair_rate_fuel ttl n now from_code "USD" uc1)
      as [[[r_from upd]|e] uc2]; [|reflexivity].
    destruct (UseCases._get_pair_rate_fuel ttl n now to_code "USD" uc2)
      as [[[r_to upd']|e] uc3]; [|reflexivity].
    unfold py_truediv. destruct (r_to =? 0)%float; reflexivity.
Qed.

(** A lookup towards ["USD"] never takes the bridge step. *)
Lemma lookup_to_usd n now code uc snap uc1 :
  supported code ->
  UseCases._cached_rates ttl now uc = (snap, uc1) ->
  UseCases._get_pair_rate_fuel ttl (S n) now code "USD" uc
  = match PyDict.get (Utils.pair_key code "USD") (pairs snap) with
    | Some item => (Ok (rate item, updated_at item), uc1)
    | None =>
        match PyDict.get (Utils.pair_key "USD" code) (pairs snap) with
        | Some item =>
            if (rate item =? 0)%float
            then (Raise (ApiRequestError "Нулевой курс в кеше"), uc1)
            else (Ok ((1 / rate item)%float, updated_at item), uc1)
        | None =>
            (Raise (ApiRequestError
               (String.append "Курс "
                  (String.append code
                     (String.append "→"
                        (String.append "USD" " не найден в кеше"))))), uc1)
        end
    end.
Proof.
  intros Hs Hc. rewrite (lookup_step n now code "USD" uc snap uc1 Hs supported_USD Hc).
  rewrite (String.eqb_refl "USD"), Bool.andb_false_r. reflexivity.
Qed.

Lemma lookup_to_usd_state n now code uc snap uc1 :
  supported code ->
  UseCases._cached_rates ttl now uc = (snap, uc1) ->
  snd (UseCases._get_pair_rate_fuel ttl (S n) now code "USD" uc) = uc1.
Proof.
  intros Hs Hc. rewrite (lookup_to_usd n now code uc snap uc1 Hs Hc).
  destruct (PyDict.get (Utils.pair_key code "USD") (pairs snap)); [reflexivity|].
  destruct (PyDict.get (Utils.pair_key "USD" code) (pairs snap)) as [item|];
    [|reflexivity].
  destruct (rate item =? 0)%float; reflexivity.
Qed.

(** Such a lookup does not depend on the fuel, nor on whether the cache
    was already read at [now]. *)
Lemma lookup_to_usd_any n m now code uc snap uc1 :
  supported code ->
  UseCases._cached_rates ttl now uc = (snap, uc1) ->
  UseCases._get_pair_rate_fuel ttl (S n) now code "USD" uc1
  = UseCases._get_pair_rate_fuel ttl (S m) now code "USD" uc.
Proof.
  intros Hs Hc.
  rewrite (lookup_to_usd m now code uc snap uc1 Hs Hc).
  rewrite (lookup_to_usd n now code uc1 snap uc1 Hs (cached_rates_again _ _ _ _ Hc)).
  reflexivity.
Qed.

(** The bridge step of [_get_pair_rate], in terms of the two lookups
    towards ["USD"]. *)
Lemma bridge_step now from_code to_code uc snap uc1 :
  supported from_code -> supported to_code ->
  UseCases._cached_rates ttl now uc = (snap, uc1) ->
  PyDict.get (Utils.pair_key from_code to_code) (pairs snap) = None ->
  PyDict.get (Utils.pair_key to_code from_code) (pairs snap) = None ->
  from_code <> "USD" -> to_code <> "USD" ->
  UseCases._get_pair_rate ttl now from_code to_code uc
  = match UseCases._get_pair_rate ttl now from_code "USD" uc with
    | (Raise e, uc2) => (Raise e, uc2)
    | (Ok (r_from, upd), uc2) =>
        match UseCases._get_pair_rate ttl now to_code "USD" uc2 with
        | (Raise e, uc3) => (Raise e, uc3)
        | (Ok (r_to, _), uc3) =>
            if (r_to =? 0)%float
            then (Raise (ApiRequestError "Нулевой курс USD-моста"), uc3)
            else (Ok ((r_from / r_to)%float, upd), uc3)
        end
    end.
Proof.
  intros Hf Ht Hc Hd Hi Hnf Hnt. unfold UseCases._get_pair_rate.
  rewrite (lookup_step 2 now from_code to_code uc snap uc1 Hf Ht Hc), Hd, Hi.
  apply String.eqb_neq in Hnf, Hnt. rewrite Hnf, Hnt. cbn [negb andb].
  rewrite (lookup_to_usd_any 1 2 now from_code uc snap uc1 Hf Hc).
  pose proof (lookup_to_usd_state 2 now from_code uc snap uc1 Hf Hc) as S1.
  destruct (UseCases._get_pair_rate_fuel ttl 3 now from_code "USD" uc)
    as [[[r_from upd]|e] uc2]; [|reflexivity].
  simpl in S1. subst uc2.
  rewrite (lookup_to_usd_any 1 2 now to_code uc1 snap uc1 Ht
             (cached_rates_again _ _ _ _ Hc)).
  reflexivity.
Qed.

Lemma inverse_step now a b uc snap uc1 item :
  supported a -> supported b ->
  UseCases._cached_rates ttl now uc = (snap, uc1) ->
  PyDict.get (Utils.pair_key b a) (pairs snap) = None ->
  PyDict.get (Utils.pair_key a b) (pairs snap) = Some item ->
  UseCases._get_pair_rate ttl now b a uc
  = if (rate item =? 0)%float
    then (Raise (ApiRequestError "Нулевой курс в кеше"), uc1)
    else (Ok ((1 / rate item)%float, updated_at item), uc1).
Proof.
  intros Ha Hb Hc Hd Hi. unfold UseCases._get_pair_rate.
  now rewrite (lookup_step 2 now b a uc snap uc1 Hb Ha Hc), Hd, Hi.
Qed.

(** C6.  When the snapshot holds [PairKey(A,B)] with rate [r] and not
    [PairKey(B,A)]: for [r] that is not zero, [get_rate(B, A)] returns the
    float quotient [1.0 / r] with the stored entry's [updated_at]; for [r]
    equal to zero the lookup raises the source-unavailable error instead of
    dividing, and [get_rate] goes on with its refresh and one retry. *)
Theorem get_rate_inverse now now' utc_now rf a b uc snap uc1 item :
  supported a -> supported b ->
  UseCases._cached_rates ttl now uc = (snap, uc1) ->
  PyDict.get (Utils.pair_key b a) (pairs snap) = None ->
  PyDict.get (Utils.pair_key a b) (pairs snap) = Some item ->
  ((rate item =? 0)%float = false ->
     UseCases._get_pair_rate ttl now b a uc
     = (Ok ((1 / rate item)%float, updated_at item), uc1)
     /\ UseCases.get_rate ttl now now' utc_now rf b a uc
        = (Ok (UseCases.mk_RateInfo b a (1 / rate item)%float (updated_at item)
                 (UseCases.is_stale ttl utc_now (updated_at item))), uc1))
  /\
  ((rate item =? 0)%float = true ->
     UseCases._get_pair_rate ttl now b a uc
     = (Raise (ApiRequestError "Нулевой курс в кеше"), uc1)
     /\ UseCases.get_rate ttl now now' utc_now rf b a uc
        = match UseCases._try_refresh_rates rf uc1 with
          | (Raise e, uc2) => (Raise e, uc2)
          | (Ok _, uc2) =>
              match UseCases._get_pair_rate ttl now' b a uc2 with
              | (Ok p, uc3) =>
                  (Ok (UseCases.mk_RateInfo b a (fst p) (snd p)
                         (UseCases.is_stale ttl utc_now (snd p))), uc3)
              | (Raise e, uc3) => (Raise e, uc3)
              end
          end).
Proof.
  intros Ha Hb Hc Hd Hi.
  pose proof (inverse_step now a b uc snap uc1 item Ha Hb Hc Hd Hi) as E.
  split; intros Hz; rewrite Hz in E; (split; [exact E|]);
    unfold UseCases.get_rate; rewrite E; reflexivity.
Qed.

(** C5.  For supported codes neither of which is ["USD"], with neither the
    direct nor the inverse pair key in the snapshot, [_get_pair_rate]
    resolves [from -> USD] and [to -> USD] by the recursive calls and
    returns the quotient of the two rates with the timestamp of the
    [from -> USD] lookup; a [to -> USD] rate equal to zero raises the
    source-unavailable error instead of dividing.  With [A_USD = 2.0] and
    [B_USD = 4.0] stored, [get_rate(A, B)] returns [0.5]. *)
Theorem get_rate_bridge now now' utc_now rf from_code to_code uc snap uc1 :
  supported from_code -> supported to_code ->
  UseCases._cached_rates ttl now uc = (snap, uc1) ->
  PyDict.get (Utils.pair_key from_code to_code) (pairs snap) = None ->
  PyDict.get (Utils.pair_key to_code from_code) (pairs snap) = None ->
  from_code <> "USD" -> to_code <> "USD" ->
  UseCases._get_pair_rate ttl now from_code to_code uc
  = match UseCases._get_pair_rate ttl now from_code "USD" uc with
    | (Raise e, uc2) => (Raise e, uc2)
    | (Ok (r_from, upd), uc2) =>
        match UseCases._get_pair_rate ttl now to_code "USD" uc2 with
        | (Raise e, uc3) => (Raise e, uc3)
        | (Ok (r_to, _), uc3) =>
            if (r_to =? 0)%float
            then (Raise (ApiRequestError "Нулевой курс USD-моста"), uc3)
            else (Ok ((r_from / r_to)%float, upd), uc3)
        end
    end
  /\
  (forall r_from upd r_to upd',
     UseCases._get_pair_rate ttl now from_code "USD" uc = (Ok (r_from, upd), uc1) ->
     UseCases._get_pair_rate ttl now to_code "USD" uc1 = (Ok (r_to, upd'), uc1) ->
     (r_to =? 0)%float = false ->
     UseCases.get_rate ttl now now' utc_now rf from_code to_code uc
     = (Ok (UseCases.mk_RateInfo from_code to_code (r_from / r_to)%float upd
              (UseCases.is_stale ttl utc_now upd)), uc1))
  /\
  (forall item_a item_b,
     PyDict.get (Utils.pair_key from_code "USD") (pairs snap) = Some item_a ->
     PyDict.get (Utils.pair_key to_code "USD") (pairs snap) = Some item_b ->
     rate item_a = 2%float -> rate item_b = 4%float ->
     UseCases.get_rate ttl now now' utc_now rf from_code to_code uc
     = (Ok (UseCases.mk_RateInfo from_code to_code 0.5%float (updated_at item_a)
              (UseCases.is_stale ttl utc_now (updated_at item_a))), uc1)).
Proof.
  intros Hf Ht Hc Hd Hi Hnf Hnt.
  pose proof (bridge_step now from_code to_code uc snap uc1 Hf Ht Hc Hd Hi Hnf Hnt) as B.
  split; [exact B|]. split.
  - intros r_from upd r_to upd' E1 E2 Hz.
    unfold UseCases.get_rate. rewrite B, E1, E2, Hz. reflexivity.
  - intros item_a item_b Ga Gb Ra Rb.
    assert (E1 : UseCases._get_pair_rate ttl now from_code "USD" uc
                 = (Ok (rate item_a, updated_at item_a), uc1)).
    { unfold UseCases._get_pair_rate.
      now rewrite (lookup_to_usd 2 now from_code uc snap uc1 Hf Hc), Ga. }
    assert (E2 : UseCases._get_pair_rate ttl now to_code "USD" uc1
                 = (Ok (rate item_b, updated_at item_b), uc1)).
    { unfold UseCases._get_pair_rate.
      now rewrite (lookup_to_usd 2 now to_code uc1 snap uc1 Ht
                     (cached_rates_again _ _ _ _ Hc)), Gb. }
    unfold UseCases.get_rate. rewrite B, E1, E2, Ra, Rb. reflexivity.
Qed.

Lemma usd_usd_lookup now uc snap uc1 :
  UseCases._cached_rates ttl now uc = (snap, uc1) ->
  PyDict.get "USD_USD" (pairs snap) = None ->
  UseCases._get_pair_rate ttl now "USD" "USD" uc
  = (Raise (ApiRequestError "Курс USD→USD не найден в кеше"), uc1).
Proof.
  intros Hc Hd. unfold UseCases._get_pair_rate.
  rewrite (lookup_to_usd 2 now "USD" uc snap uc1 supported_USD Hc).
  change (Utils.pair_key "USD" "USD") with "USD_USD". now rewrite Hd.
Qed.

(** C10 (as amended).  With [USD_USD] absent from the snapshot, the lookup
    of [("USD", "USD")] misses the direct and the inverse step, skips the
    bridge step and raises the source-unavailable error; [get_rate] then
    runs one refresh and raises that error again when the refresh fails or
    leaves [USD_USD] absent.  For a supported code [X] other than ["USD"]
    with [X_X] absent, the bridge step is taken: the lookup resolves
    [X -> USD] twice and returns the quotient of that rate by itself, and it
    fails only when [X -> USD] does not resolve or resolves to zero.
    [_convert_amount] with equal codes returns the amount unchanged and
    reads nothing. *)
Theorem get_rate_same_code now now' utc_now rf uc snap uc1 :
  UseCases._cached_rates ttl now uc = (snap, uc1) ->
  (PyDict.get "USD_USD" (pairs snap) = None ->
     UseCases._get_pair_rate ttl now "USD" "USD" uc
     = (Raise (ApiRequestError "Курс USD→USD не найден в кеше"), uc1)
     /\ (forall e uc2,
           UseCases._try_refresh_rates rf uc1 = (Raise e, uc2) ->
           UseCases.get_rate ttl now now' utc_now rf "USD" "USD" uc = (Raise e, uc2))
     /\ (forall u uc2 snap2 uc3,
           UseCases._try_refresh_rates rf uc1 = (Ok u, uc2) ->
           UseCases._cached_rates ttl now' uc2 = (snap2, uc3) ->
           PyDict.get "USD_USD" (pairs snap2) = None ->
           UseCases.get_rate ttl now now' utc_now rf "USD" "USD" uc
           = (Raise (ApiRequestError "Курс USD→USD не найден в кеше"), uc3)))
  /\
  (forall x,
     supported x -> x <> "USD" ->
     PyDict.get (Utils.pair_key x x) (pairs snap) = None ->
     UseCases._get_pair_rate ttl now x x uc
     = match UseCases._get_pair_rate ttl now x "USD" uc with
       | (Raise e, uc2) => (Raise e, uc2)
       | (Ok (r, upd), uc2) =>
           if (r =? 0)%float
           then (Raise (ApiRequestError "Нулевой курс USD-моста"), uc2)
           else (Ok ((r / r)%float, upd), uc2)
       end)
  /\
  (forall amount x,
     UseCases._convert_amount ttl now amount x x uc = (Ok amount, uc)).
Proof.
  intros Hc. split; [|split].
  - intros Hd.
    pose proof (usd_usd_lookup now uc snap uc1 Hc Hd) as E.
    split; [exact E|]. split.
    + intros e uc2 R. unfold UseCases.get_rate. now rewrite E, R.
    + intros u uc2 snap2 uc3 R Hc2 Hd2. unfold UseCases.get_rate.
      rewrite E, R. now rewrite (usd_usd_lookup now' uc2 snap2 uc3 Hc2 Hd2).
  - intros x Hs Hne Hd.
    rewrite (bridge_step now x x uc snap uc1 Hs Hs Hc Hd Hd Hne Hne).
    pose proof (lookup_to_usd_state 2 now x uc snap uc1 Hs Hc) as S1.
    unfold UseCases._get_pair_rate in *.
    destruct (UseCases._get_pair_rate_fuel ttl 3 now x "USD" uc)
      as [[[r upd]|e] uc2] eqn:E1; [|reflexivity].
    simpl in S1. subst uc2.
    assert (E2 : UseCases._get_pair_rate_fuel ttl 3 now x "USD" uc1
                 = (Ok (r, upd), uc1)).
    { rewrite (lookup_to_usd_any 2 2 now x uc snap uc1 Hs Hc). exact E1. }
    rewrite E2. reflexivity.
  - intros amount x. unfold UseCases._convert_amount.
    now rewrite String.eqb_refl.
Qed.

End ResolverFacts.

(* ================================================================= *)
(** ** [ExchangeRateApiClient.fetch_rates] and values equal to zero *)

Section ClientFacts.
Context {RT : Runtime}.
Variable cfg : ParserConfig.

Lemma get_rates_zero_as_null code rates :
  PyDict.get code (rates_zero_as_null rates)
  = option_map zero_as_null (PyDict.get code rates).
Proof.
  induction rates as [|[k raw] rest IH]; simpl; [reflexivity|].
  destruct (String.eqb k code); [reflexivity | exact IH].
Qed.

Lemma fiat_step_zero_as_null rates out code :
  ApiClients.fiat_step cfg (rates_zero_as_null rates) out code
  = ApiClients.fiat_step cfg rates out code.
Proof.
  unfold ApiClients.fiat_step. rewrite get_rates_zero_as_null.
  destruct (Utils.validate_currency_code code); [|reflexivity]. unfold bind.
  destruct (String.eqb code (BASE_CURRENCY cfg)); [reflexivity|].
  destruct (PyDict.get code rates) as [[|value|e]|]; simpl; try reflexivity.
  destruct (value =? 0)%float eqn:Z; simpl; [reflexivity|]. now rewrite Z.
Qed.

Lemma fiat_loop_zero_as_null rates codes : forall out,
  ApiClients.fiat_loop cfg (rates_zero_as_null rates) codes out
  = ApiClients.fiat_loop cfg rates codes out.
Proof.
  induction codes as [|code rest IH]; intros out; simpl; [reflexivity|].
  rewrite fiat_step_zero_as_null.
  destruct (ApiClients.fiat_step cfg rates out code); simpl; auto.
Qed.

Lemma fiat_step_zero_skipped rates out code value :
  Utils.validate_currency_code code = Ok tt ->
  PyDict.get code rates = Some (ApiClients.RawNumber value) ->
  (value =? 0)%float = true ->
  ApiClients.fiat_step cfg rates out code = Ok out.
Proof.
  intros V G Z. unfold ApiClients.fiat_step, bind. rewrite V, G, Z.
  now destruct (String.eqb code (BASE_CURRENCY cfg)).
Qed.

Lemma fiat_step_inverted rates out out' code :
  In code (FIAT_CURRENCIES cfg) ->
  (forall k q, PyDict.get k out = Some q -> inverted_nonzero cfg rates k q) ->
  ApiClients.fiat_step cfg rates out code = Ok out' ->
  forall k q, PyDict.get k out' = Some q -> inverted_nonzero cfg rates k q.
Proof.
  intros Hin Hinv. unfold ApiClients.fiat_step, bind.
  destruct (Utils.validate_currency_code code); [|discriminate].
  destruct (String.eqb code (BASE_CURRENCY cfg)); [now intros [= <-]|].
  destruct (PyDict.get code rates) as [[|value|e]|] eqn:G;
    try (now intros [= <-]); try discriminate.
  destruct (value =? 0)%float eqn:Z; [now intros [= <-]|].
  unfold py_truediv. rewrite Z. intros [= <-] k q.
  destruct (String.eqb k (Utils.pair_key code (BASE_CURRENCY cfg))) eqn:E.
  - apply String.eqb_eq in E. subst k. rewrite PyDictFacts.get_set_same.
    intros [= <-]. exists code, value. auto.
  - apply String.eqb_neq in E. rewrite PyDictFacts.get_set_other by assumption.
    apply Hinv.
Qed.

Lemma fiat_loop_inverted rates codes : forall out out',
  incl codes (FIAT_CURRENCIES cfg) ->
  (forall k q, PyDict.get k out = Some q -> inverted_nonzero cfg rates k q) ->
  ApiClients.fiat_loop cfg rates codes out = Ok out' ->
  forall k q, PyDict.get k out' = Some q -> inverted_nonzero cfg rates k q.
Proof.
  induction codes as [|code rest IH]; intros out out' Hincl Hinv; simpl.
  - now intros [= <-].
  - destruct (ApiClients.fiat_step cfg rates out code) as [out1|e] eqn:S;
      [|discriminate].
    simpl. apply IH.
    + intros c Hc. apply Hincl. now right.
    + apply (fiat_step_inverted rates out out1 code); auto.
      apply Hincl. now left.
Qed.

Lemma fetch_rates_zero_as_null x :
  ApiClients.fetch_rates cfg (exchange_zero_as_null x) = ApiClients.fetch_rates cfg x.
Proof.
  unfold exchange_zero_as_null.
  destruct (ApiClients.x_http x) as [msg|resp] eqn:H; [reflexivity|].
  destruct (ApiClients.resp_json resp) as [data|] eqn:J; [|reflexivity].
  unfold ApiClients.fetch_rates. rewrite H. cbn [ApiClients.x_http].
  destruct (negb (ApiClients.truthy (EXCHANGERATE_API_KEY cfg))); [reflexivity|].
  unfold ApiClients.status_check. cbn [ApiClients.resp_status_code ApiClients.resp_text].
  rewrite J. cbn [ApiClients.resp_json ApiClients.p_result ApiClients.p_error_type
                  ApiClients.p_rates ApiClients.p_time_last_update_utc
                  ApiClients.x_now ApiClients.x_ms ApiClients.resp_etag
                  ApiClients.resp_status_code].
  rewrite fiat_loop_zero_as_null. reflexivity.
Qed.

(** C8 (as amended).  A provider value equal to zero does not make the
    fetch fail: the code it belongs to is skipped, and the fetch returns
    what it would return had the provider sent [null] there.  A provider
    value of zero is never inverted: every returned entry is [1.0 / value]
    for a configured code whose provider value is a number other than
    zero.  The quotient itself is not checked: a provider value of
    infinity is inverted, and the rate [0.0] is stored for its code. *)
Theorem fetch_rates_zero_value x :
  ApiClients.fetch_rates cfg (exchange_zero_as_null x) = ApiClients.fetch_rates cfg x
  /\ (forall rates out code value,
        Utils.validate_currency_code code = Ok tt ->
        PyDict.get code rates = Some (ApiClients.RawNumber value) ->
        (value =? 0)%float = true ->
        ApiClients.fiat_step cfg rates out code = Ok out)
  /\ (forall resp data out m,
        ApiClients.x_http x = ApiClients.HttpResponse resp ->
        ApiClients.resp_json resp = Some data ->
        ApiClients.fetch_rates cfg x = Ok (out, m) ->
        forall k q,
          PyDict.get k out = Some q ->
          inverted_nonzero cfg (ApiClients.p_rates data) k q)
  /\ (forall rates out code,
        Utils.validate_currency_code code = Ok tt ->
        String.eqb code (BASE_CURRENCY cfg) = false ->
        PyDict.get code rates = Some (ApiClients.RawNumber infinity) ->
        ApiClients.fiat_step cfg rates out code
        = Ok (PyDict.set (Utils.pair_key code (BASE_CURRENCY cfg)) 0%float out)).
Proof.
  split; [apply fetch_rates_zero_as_null|]. split.
  - intros rates out code value. apply fiat_step_zero_skipped.
  - split.
    2:{ intros rates out code V B G. unfold ApiClients.fiat_step, bind.
        rewrite V, B, G. reflexivity. }
    intros resp data out m H J. unfold ApiClients.fetch_rates. rewrite H, J.
    destruct (negb (ApiClients.truthy (EXCHANGERATE_API_KEY cfg))); [discriminate|].
    destruct (ApiClients.status_check resp); [|discriminate]. unfold bind.
    destruct (negb (Str.option_eqb (ApiClients.p_result data) (Some "success")));
      [discriminate|].
    match goal with
    | |- match ?d with Ok _ => _ | Raise _ => _ end = _ -> _ =>
        destruct d; [|discriminate]
    end.
    destruct (ApiClients.fiat_loop cfg (ApiClients.p_rates data) (FIAT_CURRENCIES cfg) [])
      as [out0|e] eqn:L; [|discriminate].
    intros [= <- _].
    apply (fiat_loop_inverted (ApiClients.p_rates data) (FIAT_CURRENCIES cfg) [] out0);
      auto using incl_refl.
    intros k q. discriminate.
Qed.

End ClientFacts.

(* ================================================================= *)
(** ** Further properties of the history and of the resolver *)

Section HistoryDedup.

Lemma option_eqb_eq (a b : option string) : Str.option_eqb a b = true <-> a = b.
Proof.
  destruct a as [x|], b as [y|]; simpl; try (split; congruence).
  rewrite String.eqb_eq. split; congruence.
Qed.

Lemma id_in_iff (i : option string) (ids : list (option string)) :
  Database.id_in i ids = true <-> In i ids.
Proof.
  unfold Database.id_in. rewrite existsb_exists. split.
  - intros [x [Hin Heq]]. apply option_eqb_eq in Heq. now subst.
  - intros Hin. exists i. split; [assumption | now apply option_eqb_eq].
Qed.

Lemma id_in_false_iff (i : option string) (ids : list (option string)) :
  Database.id_in i ids = false <-> ~ In i ids.
Proof.
  rewrite <- id_in_iff. destruct (Database.id_in i ids); split; congruence.
Qed.

Lemma NoDup_ids_filter (f : HistoryEntry -> bool) (entries : list HistoryEntry) :
  NoDup (map h_id entries) -> NoDup (map h_id (filter f entries)).
Proof.
  induction entries as [|e rest IH]; simpl; intros H; [constructor|].
  inversion H as [|? ? Hnot Hnd]; subst.
  destruct (f e); simpl; auto.
  constructor; auto.
  intros Hin. apply Hnot. apply in_map_iff in Hin. destruct Hin as [x [Hx Hin]].
  apply filter_In in Hin. apply in_map_iff. exists x. tauto.
Qed.

Lemma filter_none {A : Type} (f : A -> bool) (l : list A) :
  (forall x, In x l -> f x = false) -> filter f l = [].
Proof.
  induction l as [|x l IH]; simpl; intros H; [reflexivity|].
  rewrite (H x) by auto. apply IH. auto.
Qed.

(** X1.  History dedup for calls whose entries carry distinct ids: when the
    ids of the history are distinct and the ids of the appended entries are
    distinct, the ids after the append are distinct, they are exactly the
    ids of the history and of the entries, and so the length of the history
    is the number of distinct ids of the two together. *)
Theorem append_history_distinct_ids db entries :
  NoDup (map h_id (Database.read_history db)) ->
  NoDup (map h_id entries) ->
  let after := Database.read_history (Database.append_history db entries) in
  NoDup (map h_id after)
  /\ (forall i, In i (map h_id after) <->
                In i (map h_id (Database.read_history db)) \/ In i (map h_id entries))
  /\ List.length after
     = List.length
         (nodup id_eq_dec
            (map h_id (Database.read_history db) ++ map h_id entries)).
Proof.
  intros Hh He after.
  assert (Hafter : after
                   = Database.read_history db
                     ++ filter (fun e => negb (Database.id_in (h_id e)
                                                 (map h_id (Database.read_history db))))
                          entries)
    by apply read_history_after_append.
  assert (Hnd : NoDup (map h_id after)).
  { rewrite Hafter, map_app. apply NoDup_app; repeat split; auto.
    - now apply NoDup_ids_filter.
    - intros i Hi Hf. apply in_map_iff in Hf. destruct Hf as [e [<- Hin]].
      apply filter_In in Hin. destruct Hin as [_ Hneg].
      apply Bool.negb_true_iff in Hneg. apply id_in_false_iff in Hneg. contradiction. }
  assert (Hiff : forall i, In i (map h_id after) <->
                   In i (map h_id (Database.read_history db)) \/ In i (map h_id entries)).
  { intros i. rewrite Hafter, map_app, in_app_iff. split.
    - intros [H | H]; [now left|]. right.
      apply in_map_iff in H. destruct H as [e [<- Hin]].
      apply filter_In in Hin. apply in_map. tauto.
    - intros [H | H]; [now left|].
      destruct (Database.id_in i (map h_id (Database.read_history db))) eqn:E.
      + left. now apply id_in_iff.
      + right. apply in_map_iff in H. destruct H as [e [<- Hin]].
        apply in_map. apply filter_In. split; [assumption|].
        now rewrite E. }
  split; [exact Hnd|]. split; [exact Hiff|].
  rewrite <- (length_map h_id after).
  apply Nat.le_antisymm; apply NoDup_incl_length.
  - exact Hnd.
  - intros i Hi. apply nodup_In. apply in_app_iff. now apply Hiff.
  - apply NoDup_nodup.
  - intros i Hi. apply nodup_In in Hi. apply in_app_iff in Hi. now apply Hiff.
Qed.

(** X2.  The history is append-only, and appending the same entries a second
    time changes nothing: the rows the history held stay in front in their
    order, and a second call with the same list finds every id present. *)
Theorem append_history_again db entries :
  (exists added,
      Database.read_history (Database.append_history db entries)
      = Database.read_history db ++ added)
  /\ Database.append_history (Database.append_history db entries) entries
     = Database.append_history db entries.
Proof.
  split.
  - eexists. apply read_history_after_append.
  - set (db1 := Database.append_history db entries).
    assert (H1 : Database.read_history db1
                 = Database.read_history db
                   ++ filter (fun e => negb (Database.id_in (h_id e)
                                               (map h_id (Database.read_history db))))
                        entries)
      by apply read_history_after_append.
    assert (H2 : filter (fun e => negb (Database.id_in (h_id e)
                                          (map h_id (Database.read_history db1))))
                   entries = []).
    { apply filter_none. intros e Hin. apply Bool.negb_false_iff.
      apply id_in_iff. rewrite H1, map_app, in_app_iff.
      destruct (Database.id_in (h_id e) (map h_id (Database.read_history db))) eqn:E.
      - left. now apply id_in_iff.
      - right. apply in_map. apply filter_In. split; [assumption|]. now rewrite E. }
    pose proof (read_history_after_append db1 entries) as R.
    rewrite H2, app_nil_r in R.
    unfold Database.append_history at 1.
    change (fold_left _ entries (Database.read_history db1))
      with (Database.read_history (Database.append_history db1 entries)).
    rewrite R. reflexivity.
Qed.

End HistoryDedup.

Section ResolverMore.
Context {RT : Runtime}.
Variable ttl : Z.

Lemma checks_supported from_code to_code cur :
  (Utils.validate_currency_code from_code ;;;
   Utils.validate_currency_code to_code ;;;
   Currencies.get_currency from_code ;;;
   Currencies.get_currency to_code) = Ok cur ->
  supported from_code /\ supported to_code.
Proof.
  unfold supported, bind.
  destruct (Utils.validate_currency_code from_code) as [[]|]; [|discriminate].
  destruct (Utils.validate_currency_code to_code) as [[]|]; [|discriminate].
  destruct (Currencies.get_currency from_code) as [c1|]; [|discriminate].
  destruct (Currencies.get_currency to_code) as [c2|]; [|discriminate].
  intros _. split; split; eauto.
Qed.

Lemma checks_never_out_of_fuel from_code to_code e msg :
  (Utils.validate_currency_code from_code ;;;
   Utils.validate_currency_code to_code ;;;
   Currencies.get_currency from_code ;;;
   Currencies.get_currency to_code) = Raise e ->
  e <> RecursionError msg.
Proof.
  unfold bind, Utils.validate_currency_code, Currencies.get_currency.
  repeat match goal with
         | |- context [if ?b then _ else _] => destruct b
         | |- context [match PyDict.get ?k ?d with _ => _ end] =>
             destruct (PyDict.get k d)
         end; intros [= <-]; discriminate.
Qed.

Lemma lookup_to_usd_never_out_of_fuel n now code uc msg :
  supported code ->
  fst (UseCases._get_pair_rate_fuel ttl (S n) now code "USD" uc)
  <> Raise (RecursionError msg).
Proof.
  intros Hs. destruct (UseCases._cached_rates ttl now uc) as [snap uc1] eqn:Hc.
  rewrite (lookup_to_usd ttl n now code uc snap uc1 Hs Hc).
  destruct (PyDict.get (Utils.pair_key code "USD") (pairs snap)); [discriminate|].
  destruct (PyDict.get (Utils.pair_key "USD" code) (pairs snap)) as [item|];
    [|discriminate].
  destruct (rate item =? 0)%float; discriminate.
Qed.

(** X3.  [_get_pair_rate] terminates: the recursion goes one level deep at
    most, so every fuel from two on gives the result of [_get_pair_rate],
    and that result is never the out-of-fuel error. *)
Theorem get_pair_rate_fuel_enough n now from_code to_code uc :
  UseCases._get_pair_rate_fuel ttl (S (S n)) now from_code to_code uc
  = UseCases._get_pair_rate ttl now from_code to_code uc
  /\ forall msg,
       fst (UseCases._get_pair_rate ttl now from_code to_code uc)
       <> Raise (RecursionError msg).
Proof.
  unfold UseCases._get_pair_rate.
  destruct (Utils.validate_currency_code from_code ;;;
            Utils.validate_currency_code to_code ;;;
            Currencies.get_currency from_code ;;;
            Currencies.get_currency to_code) as [cur|e] eqn:E.
  2:{ cbn [UseCases._get_pair_rate_fuel]. rewrite E. split; [reflexivity|].
      intros msg. cbn [fst]. intros [= H]. revert H.
      now apply checks_never_out_of_fuel with (from_code := from_code)
                                              (to_code := to_code). }
  destruct (checks_supported _ _ _ E) as [Hf Ht].
  destruct (UseCases._cached_rates ttl now uc) as [snap uc1] eqn:Hc.
  pose proof (cached_rates_again ttl now uc snap uc1 Hc) as Hc1.
  rewrite (lookup_step ttl (S n) now from_code to_code uc snap uc1 Hf Ht Hc).
  rewrite (lookup_step ttl 2 now from_code to_code uc snap uc1 Hf Ht Hc).
  destruct (PyDict.get (Utils.pair_key from_code to_code) (pairs snap));
    [split; [reflexivity | discriminate]|].
  destruct (PyDict.get (Utils.pair_key to_code from_code) (pairs snap)) as [item|].
  { destruct (rate item =? 0)%float; split; try reflexivity; discriminate. }
  destruct (andb (negb (String.eqb from_code "USD")) (negb (String.eqb to_code "USD")));
    [|split; [reflexivity | discriminate]].
  rewrite (lookup_to_usd_any ttl n 1 now from_code uc1 snap uc1 Hf Hc1).
  pose proof (lookup_to_usd_state ttl 1 now from_code uc1 snap uc1 Hf Hc1) as S1.
  pose proof (lookup_to_usd_never_out_of_fuel 1 now from_code uc1) as N1.
  destruct (UseCases._get_pair_rate_fuel ttl 2 now from_code "USD" uc1)
    as [[[r_from upd]|e] uc2].
  2:{ split; [reflexivity|]. intros msg. apply (N1 msg Hf). }
  simpl in S1. subst uc2.
  rewrite (lookup_to_usd_any ttl n 1 now to_code uc1 snap uc1 Ht Hc1).
  pose proof (lookup_to_usd_never_out_of_fuel 1 now to_code uc1) as N2.
  destruct (UseCases._get_pair_rate_fuel ttl 2 now to_code "USD" uc1)
    as [[[r_to upd']|e] uc3].
  2:{ split; [reflexivity|]. intros msg. apply (N2 msg Ht). }
  destruct (r_to =? 0)%float; split; try reflexivity; discriminate.
Qed.

(** X4.  A from-code that is well formed but not in the registry, with any
    to-code: [get_rate] raises at once, the cache is not read, no refresh
    is run and the state is as before.  Both format checks come before the
    registry, so a malformed to-code gives its [ValueError]; with a well
    formed to-code the error is the currency-not-found error of the
    from-code. *)
Theorem get_rate_unknown_currency now now' utc_now rf from_code to_code uc :
  Utils.validate_currency_code from_code = Ok tt ->
  PyDict.get (Str.strip (Str.upper from_code)) Currencies._REGISTRY = None ->
  UseCases.get_rate ttl now now' utc_now rf from_code to_code uc
  = (Raise (match Utils.validate_currency_code to_code with
            | Ok _ => CurrencyNotFoundError (Str.strip (Str.upper from_code))
            | Raise _ =>
                ValueError "code — верхний регистр, 2–5 символов, без пробелов"
            end), uc).
Proof.
  intros V1 G. unfold UseCases.get_rate, UseCases._get_pair_rate.
  cbn [UseCases._get_pair_rate_fuel]. unfold bind, Currencies.get_currency.
  rewrite V1. unfold Utils.validate_currency_code.
  destruct (orb _ _); [reflexivity|]. now rewrite G.
Qed.


(** X6.  The TTL cache: a reading no more than [max(1, ttl)] after the cached
    one returns the cached snapshot whatever the file holds and leaves the
    cache as it is; a later reading returns the file's snapshot and caches
    it with the time of the reading. *)
Theorem cached_rates_ttl ts val db now :
  (now - ts <= Z.max 1 ttl ->
   UseCases._cached_rates ttl now (UseCases.mk_UC (Some (ts, val)) db)
   = (val, UseCases.mk_UC (Some (ts, val)) db))
  /\ (Z.max 1 ttl < now - ts ->
      UseCases._cached_rates ttl now (UseCases.mk_UC (Some (ts, val)) db)
      = (Database.read_rates db,
         UseCases.mk_UC (Some (now, Database.read_rates db)) db)).
Proof.
  unfold UseCases._cached_rates, Utils.wrapped. simpl.
  split; intros H.
  - replace (now - ts <=? Z.max 0 (Z.max 1 ttl)) with true; [reflexivity|].
    symmetry. apply Z.leb_le. lia.
  - replace (now - ts <=? Z.max 0 (Z.max 1 ttl)) with false; [reflexivity|].
    symmetry. apply Z.leb_gt. lia.
Qed.

End ResolverMore.

Section UpdaterMore.
Context {RT : Runtime}.
Variable cfg : ParserConfig.
Variable last_refresh_now : string.

(** X7.  Conflicts within one run: for a pair key that a succeeding client
    fetched and no later client writes, [combined] holds that client's
    rate, timestamp and source, whatever the earlier clients fetched. *)
Theorem run_clients_later_client_wins before c after rates k r :
  Updater.fetch_result c = Ok rates -> client_error c = None ->
  NoDup (PyDict.keys rates) -> In (k, r) rates ->
  Forall (leaves_key k) after ->
  PyDict.get k (Updater.combined
                  (Updater.run_clients cfg last_refresh_now (before ++ c :: after)))
  = Some (mk_RatePoint r (client_updated_at last_refresh_now c) (client_source c)).
Proof.
  intros Hf Hok Hnd Hin Hafter.
  now apply run_combined_value with (rates := rates).
Qed.

End UpdaterMore.

(* ================================================================= *)
(** ** Lookups and the files; real clients under the updater *)

Section ReadOnly.
Context {RT : Runtime}.
Variable ttl : Z.

Lemma cached_rates_db now uc :
  UseCases.uc_db (snd (UseCases._cached_rates ttl now uc)) = UseCases.uc_db uc.
Proof.
  unfold UseCases._cached_rates.
  destruct (Utils.wrapped (Z.max 1 ttl) now (Database.read_rates (UseCases.uc_db uc))
              (UseCases.uc_cache uc)).
  reflexivity.
Qed.

Lemma lookup_fuel_db fuel : forall now from_code to_code uc,
  UseCases.uc_db (snd (UseCases._get_pair_rate_fuel ttl fuel now from_code to_code uc))
  = UseCases.uc_db uc.
Proof.
  induction fuel as [|fuel IH]; intros now from_code to_code uc;
    cbn [UseCases._get_pair_rate_fuel]; [reflexivity|].
  destruct (Utils.validate_currency_code from_code ;;;
            Utils.validate_currency_code to_code ;;;
            Currencies.get_currency from_code ;;;
            Currencies.get_currency to_code); [|reflexivity].
  pose proof (cached_rates_db now uc) as Hc.
  destruct (UseCases._cached_rates ttl now uc) as [snap uc1]. cbn [snd] in Hc.
  destruct (PyDict.get (Utils.pair_key from_code to_code) (pairs snap)); [exact Hc|].
  destruct (PyDict.get (Utils.pair_key to_code from_code) (pairs snap)) as [item|].
  { destruct (rate item =? 0)%float; exact Hc. }
  destruct (andb (negb (String.eqb from_code "USD")) (negb (String.eqb to_code "USD")));
    [|exact Hc].
  pose proof (IH now from_code "USD" uc1) as H1.
  destruct (UseCases._get_pair_rate_fuel ttl fuel now from_code "USD" uc1)
    as [[[r_from upd]|e] uc2]; cbn [snd] in H1 |- *; [|congruence].
  pose proof (IH now to_code "USD" uc2) as H2.
  destruct (UseCases._get_pair_rate_fuel ttl fuel now to_code "USD" uc2)
    as [[[r_to upd']|e] uc3]; cbn [snd] in H2 |- *; [|congruence].
  destruct (r_to =? 0)%float; cbn [snd]; congruence.
Qed.

Lemma run_update_raise_db cfg clients refreshed db e db' :
  Updater.run_update cfg clients refreshed db = (Raise e, db') -> db' = db.
Proof.
  unfold Updater.run_update.
  destruct (Updater.st_total (Updater.run_clients cfg refreshed clients) =? 0).
  - now intros [= _ <-].
  - destruct (Updater.st_errors (Updater.run_clients cfg refreshed clients));
      discriminate.
Qed.

(** X8.  Lookups never write the files: [_get_pair_rate] and
    [_convert_amount] leave the snapshot and history files as they were,
    whatever they return; [get_rate] changes them only when its refresh
    succeeded, that is when [run_update] on the two clients returned a
    report. *)
Theorem lookups_never_write now now' utc_now rf amount from_code to_code uc :
  UseCases.uc_db (snd (UseCases._get_pair_rate ttl now from_code to_code uc))
  = UseCases.uc_db uc
  /\ UseCases.uc_db (snd (UseCases._convert_amount ttl now amount from_code to_code uc))
     = UseCases.uc_db uc
  /\ (UseCases.uc_db (snd (UseCases.get_rate ttl now now' utc_now rf from_code to_code uc))
      <> UseCases.uc_db uc ->
      exists report db',
        Updater.run_update (UseCases.rf_cfg rf) (UseCases.refresh_clients rf)
          (UseCases.rf_last_refresh rf) (UseCases.uc_db uc)
        = (Ok report, db')).
Proof.
  pose proof (lookup_fuel_db 3 now from_code to_code uc) as L.
  fold (UseCases._get_pair_rate ttl now from_code to_code uc) in L.
  split; [exact L|]. split.
  - unfold UseCases._convert_amount.
    destruct (String.eqb (Str.upper from_code) (Str.upper to_code)); [reflexivity|].
    destruct (UseCases._get_pair_rate ttl now from_code to_code uc)
      as [[[r upd]|e] uc1]; exact L.
  - unfold UseCases.get_rate.
    destruct (UseCases._get_pair_rate ttl now from_code to_code uc)
      as [[p|e] uc1]; cbn [snd] in L.
    { cbn [snd]. congruence. }
    destruct e; cbn [snd]; try congruence.
    unfold UseCases._try_refresh_rates. rewrite L.
    destruct (Updater.run_update (UseCases.rf_cfg rf) (UseCases.refresh_clients rf)
                (UseCases.rf_last_refresh rf) (UseCases.uc_db uc))
      as [[report|e] db'] eqn:R.
    + intros _. eauto.
    + apply run_update_raise_db in R. subst db'. cbn [snd UseCases.uc_db]. congruence.
Qed.

End ReadOnly.

Section RealClients.
Context {RT : Runtime}.
Variable cfg : ParserConfig.



Lemma set_keeps_Forall {V : Type} (P : string * V -> Prop) k v (d : PyDict.t V) :
  P (k, v) -> Forall P d -> Forall P (PyDict.set k v d).
Proof.
  intros Hk. induction d as [|[k0 v0] r IH]; simpl; intros H.
  - repeat constructor. exact Hk.
  - inversion H as [|? ? H0 Hr]; subst.
    destruct (String.eqb k0 k) eqn:E.
    + apply String.eqb_eq in E. subst k0. constructor; assumption.
    + constructor; auto.
Qed.




End RealClients.

Section HistoryIds.
Context {RT : Runtime}.
Variable cfg : ParserConfig.
Variable last_refresh_now : string.

Lemma split_once_join p : forall a b,
  Str.split_once "_" p = Some (a, b) ->
  String.append a (String.append "_" b) = p.
Proof.
  induction p as [|c p IH]; simpl; intros a b; [discriminate|].
  destruct (Ascii.eqb c "_") eqn:E.
  - apply Ascii.eqb_eq in E. subst c. now intros [= <- <-].
  - destruct (Str.split_once "_" p) as [[x y]|]; [|discriminate].
    intros [= <- <-]. simpl. f_equal. now apply IH.
Qed.

Lemma append_assoc3 (a b c : string) :
  String.append (String.append a b) c = String.append a (String.append b c).
Proof. induction a as [|x a IH]; simpl; congruence. Qed.

Lemma pairs_loop_history source upd meta items : forall comb hist count,
  existsb no_underscore items = false ->
  exists added,
    snd (fst (Updater.pairs_loop cfg source upd meta items comb hist count))
    = hist ++ added
    /\ Forall2 (recorded source upd) items added.
Proof.
  induction items as [|[p r] rest IH]; intros comb hist count Hok.
  - exists []. simpl. rewrite app_nil_r. split; [reflexivity | constructor].
  - cbn [Updater.pairs_loop]. cbn [existsb] in Hok.
    apply Bool.orb_false_iff in Hok. destruct Hok as [Hp Hrest].
    unfold no_underscore in Hp. cbn [fst] in Hp.
    destruct (Str.split_once "_" p) as [[from_cur to_cur]|] eqn:S; [|discriminate].
    match goal with
    | |- context [Updater.pairs_loop cfg source upd meta rest ?c (hist ++ [?e]) ?n] =>
        destruct (IH c (hist ++ [e]) n Hrest) as [added [E F]];
        exists (e :: added)
    end.
    split.
    + rewrite E. now rewrite <- app_assoc.
    + constructor; [|exact F].
      pose proof (split_once_join p from_cur to_cur S) as J.
      unfold recorded. cbn [h_id from_currency to_currency h_rate timestamp h_source
                            fst snd].
      repeat split; auto.
      f_equal. rewrite <- J. now rewrite !append_assoc3.
Qed.

(** X10.  History ids are deterministic.  For a client that succeeds, the
    updater adds to the history entries one row per fetched pair, in the
    order of the returned map; the id of a row is the pair key, an
    underscore and the timestamp the updater gives the client's pairs, and
    its [from_currency] and [to_currency] join back into the pair key. *)
Theorem client_step_history st c rates :
  Updater.fetch_result c = Ok rates -> client_error c = None ->
  exists added,
    Updater.history_entries (Updater.client_step cfg last_refresh_now st c)
    = Updater.history_entries st ++ added
    /\ Forall2 (recorded (client_source c) (client_updated_at last_refresh_now c))
         rates added.
Proof.
  unfold client_error, Updater.client_step. intros Hf. rewrite Hf.
  destruct (existsb no_underscore rates) eqn:Hbad; [discriminate|]. intros _.
  destruct (pairs_loop_history
              (Updater.or_default (m_source (Updater.last_meta c)) (Updater.client_name c))
              (Updater.or_default (m_timestamp (Updater.last_meta c)) last_refresh_now)
              (Updater.last_meta c) rates
              (Updater.combined st) (Updater.history_entries st) 0 Hbad)
    as [added [E F]].
  exists added.
  destruct (Updater.pairs_loop cfg _ _ _ rates _ _ 0) as [[comb hist] [count|e]];
    cbn [fst snd] in E; subst hist; split; auto.
Qed.

End HistoryIds.

Section Rerun.
Context {RT : Runtime}.
Variable cfg : ParserConfig.

Lemma pairs_loop_any_meta source u m1 m2 items : forall comb h1 h2 count,
  map h_id h1 = map h_id h2 ->
  exists comb' k1 k2 r,
    Updater.pairs_loop cfg source u m1 items comb h1 count = (comb', k1, r)
    /\ Updater.pairs_loop cfg source u m2 items comb h2 count = (comb', k2, r)
    /\ map h_id k1 = map h_id k2.
Proof.
  induction items as [|[k r] rest IH]; intros comb h1 h2 count E; simpl.
  - exists comb, h1, h2, (Ok count). auto.
  - destruct (Str.split_once "_" k) as [[f t]|].
    + apply IH. rewrite !map_app, E. reflexivity.
    + eexists _, h1, h2, _. auto.
Qed.

Lemma client_step_same_data t1 t2 st1 st2 c1 c2 :
  timestamped c1 -> same_data c1 c2 -> same_stored st1 st2 ->
  same_stored (Updater.client_step cfg t1 st1 c1) (Updater.client_step cfg t2 st2 c2).
Proof.
  intros Hts [N [F [S T]]] [C [H [To [Er So]]]].
  unfold timestamped in Hts. unfold Updater.client_step.
  rewrite <- N, <- F, <- S, <- T, <- C.
  destruct (Updater.fetch_result c1) as [rates|e].
  - specialize (Hts eq_refl).
    destruct (m_timestamp (Updater.last_meta c1)) as [u|]; [|contradiction].
    cbn [Updater.or_default].
    destruct (pairs_loop_any_meta
                (Updater.or_default (m_source (Updater.last_meta c1))
                   (Updater.client_name c1))
                u (Updater.last_meta c1) (Updater.last_meta c2) rates
                (Updater.combined st1) (Updater.history_entries st1)
                (Updater.history_entries st2) 0 H)
      as [comb' [k1 [k2 [r [E1 [E2 K]]]]]].
    rewrite E1, E2. destruct r as [count|e]; unfold same_stored, Updater.record_failure;
      cbn [Updater.combined Updater.history_entries Updater.st_total
           Updater.st_errors Updater.st_sources];
      rewrite To, Er, So; auto.
  - unfold same_stored, Updater.record_failure;
      cbn [Updater.combined Updater.history_entries Updater.st_total
           Updater.st_errors Updater.st_sources].
    rewrite To, Er, So. auto.
Qed.

Lemma run_clients_same_data t1 t2 clients1 clients2 :
  Forall timestamped clients1 ->
  Forall2 same_data clients1 clients2 ->
  same_stored (Updater.run_clients cfg t1 clients1) (Updater.run_clients cfg t2 clients2).
Proof.
  unfold Updater.run_clients. intros Hts Hsame.
  assert (I : same_stored Updater.init_state Updater.init_state)
    by (unfold same_stored; auto).
  revert Hts I. generalize Updater.init_state at 1 3.
  generalize Updater.init_state.
  induction Hsame as [|c1 c2 r1 r2 Hc Hrest IH]; intros st2 st1 Hts I; simpl;
    [assumption|].
  inversion Hts; subst. apply IH; [assumption|].
  now apply client_step_same_data.
Qed.

Lemma appended_ids_present db entries entries' :
  map h_id entries' = map h_id entries ->
  filter (fun e => negb (Database.id_in (h_id e)
                           (map h_id (Database.read_history
                                        (Database.append_history db entries)))))
    entries' = [].
Proof.
  intros Hids. apply filter_none. intros e Hin. apply Bool.negb_false_iff.
  apply id_in_iff. rewrite read_history_after_append, map_app, in_app_iff.
  destruct (Database.id_in (h_id e) (map h_id (Database.read_history db))) eqn:E.
  - left. now apply id_in_iff.
  - right. apply (in_map h_id) in Hin. rewrite Hids in Hin.
    apply in_map_iff in Hin. destruct Hin as [e0 [Heq Hin0]].
    apply in_map_iff. exists e0. split; [assumption|].
    apply filter_In. split; [assumption|]. now rewrite Heq, E.
Qed.

(** X11.  Re-running with the same provider data.  The second run calls
    the clients again: each brings the same rates under the same source
    and timestamp as in the first run, with a latency, status code and
    [ETag] of its own.  When every client that returns carries a timestamp,
    the second [run_update], at any [last_refresh], leaves the pairs of the
    snapshot and the whole history exactly as the first run left them.
    The premise is about the timestamp the client reports: the
    ExchangeRate-API client takes it from the provider's answer, the
    CoinGecko client from its clock at the request, so two CoinGecko
    requests are covered only when they fall in the same second. *)
Theorem run_update_again clients1 clients2 t1 t2 db :
  Forall timestamped clients1 ->
  Forall2 same_data clients1 clients2 ->
  let db1 := snd (Updater.run_update cfg clients1 t1 db) in
  let db2 := snd (Updater.run_update cfg clients2 t2 db1) in
  pairs (Database.read_rates db2) = pairs (Database.read_rates db1)
  /\ Database.read_history db2 = Database.read_history db1.
Proof.
  intros Hts Hsame db1 db2. subst db1 db2. unfold Updater.run_update.
  destruct (run_clients_same_data t1 t2 clients1 clients2 Hts Hsame)
    as [C [Hi [To [Er _]]]].
  set (st := Updater.run_clients cfg t1 clients1) in *.
  set (st' := Updater.run_clients cfg t2 clients2) in *.
  rewrite <- To, <- Er, <- C.
  assert (Hnd : NoDup (PyDict.keys (Updater.combined st))).
  { subst st. unfold Updater.run_clients. apply run_from_combined_NoDup. constructor. }
  set (db1 := Database.append_history
                (Storage.write_snapshot db (Updater.combined st) t1)
                (Updater.history_entries st)).
  set (db2 := Database.append_history
                (Storage.write_snapshot db1 (Updater.combined st) t2)
                (Updater.history_entries st')).
  assert (P : pairs (Database.read_rates db2) = pairs (Database.read_rates db1)).
  { change (pairs (Database.read_rates db2))
      with (Storage.merge_pairs (Updater.combined st)
              (Storage.merge_pairs (Updater.combined st)
                 (pairs (Database.read_rates db)))).
    now rewrite merge_pairs_idempotent. }
  assert (H : Database.read_history db2 = Database.read_history db1).
  { subst db2. rewrite read_history_after_append.
    change (Database.read_history
              (Storage.write_snapshot db1 (Updater.combined st) t2))
      with (Database.read_history db1).
    subst db1. rewrite (appended_ids_present _ _ _ (eq_sym Hi)). now rewrite app_nil_r. }
  destruct (Updater.st_total st =? 0).
  - cbn [snd]. split; reflexivity.
  - destruct (Updater.st_errors st); cbn [snd]; split; assumption.
Qed.

End Rerun.

(* ----------------------------------------------------------------- *)
(** ** The account files *)

Section AccountFiles.
Import Accounts.

Lemma upsert_in_find uid doc l :
  id_or_minus_one (pd_user_id doc) = uid ->
  find (fun p => id_or_minus_one (pd_user_id p) =? uid) (upsert_in uid doc l) = Some doc.
Proof.
  intros Hid. induction l as [|p r IH]; simpl.
  - now rewrite Hid, Z.eqb_refl.
  - destruct (id_or_minus_one (pd_user_id p) =? uid) eqn:E; simpl.
    + now rewrite Hid, Z.eqb_refl.
    + now rewrite E.
Qed.

Lemma upsert_in_find_other uid other doc l :
  id_or_minus_one (pd_user_id doc) = uid -> other <> uid ->
  find (fun p => id_or_minus_one (pd_user_id p) =? other) (upsert_in uid doc l)
  = find (fun p => id_or_minus_one (pd_user_id p) =? other) l.
Proof.
  intros Hid Hne.
  assert (Hdoc : (id_or_minus_one (pd_user_id doc) =? other) = false)
    by (apply Z.eqb_neq; congruence).
  induction l as [|p r IH]; simpl.
  - now rewrite Hdoc.
  - destruct (id_or_minus_one (pd_user_id p) =? uid) eqn:E; simpl.
    + rewrite Hdoc. apply Z.eqb_eq in E.
      assert ((id_or_minus_one (pd_user_id p) =? other) = false) as ->
        by (apply Z.eqb_neq; congruence).
      reflexivity.
    + destruct (id_or_minus_one (pd_user_id p) =? other); auto.
Qed.

Lemma upsert_in_absent uid doc l :
  find (fun p => id_or_minus_one (pd_user_id p) =? uid) l = None ->
  upsert_in uid doc l = l ++ [doc].
Proof.
  induction l as [|p r IH]; simpl; auto.
  destruct (id_or_minus_one (pd_user_id p) =? uid); [discriminate|].
  intros H. now rewrite IH.
Qed.

Lemma upsert_in_present uid doc l :
  find (fun p => id_or_minus_one (pd_user_id p) =? uid) l <> None ->
  List.length (upsert_in uid doc l) = List.length l.
Proof.
  induction l as [|p r IH]; simpl; [congruence|].
  destruct (id_or_minus_one (pd_user_id p) =? uid); simpl; auto.
Qed.

(** X12.  [upsert_portfolio] and [get_portfolio].  A portfolio document
    that carries a user id is stored without an exception; afterwards
    [get_portfolio] of that id returns the document, the answer for every
    other id is as before, the list grew by this one document when the id
    had none and kept its length otherwise, and the users and the session
    are untouched. *)
Theorem upsert_portfolio_get f doc uid :
  pd_user_id doc = Some uid ->
  exists f',
    upsert_portfolio f doc = Return f'
    /\ get_portfolio f' uid = Some doc
    /\ (forall other, other <> uid -> get_portfolio f' other = get_portfolio f other)
    /\ (get_portfolio f uid = None -> list_portfolios f' = list_portfolios f ++ [doc])
    /\ (get_portfolio f uid <> None ->
        List.length (list_portfolios f') = List.length (list_portfolios f))
    /\ users_json f' = users_json f
    /\ session_json f' = session_json f.
Proof.
  intros Hid. unfold upsert_portfolio. rewrite Hid.
  eexists. split; [reflexivity|].
  assert (Hdoc : id_or_minus_one (pd_user_id doc) = uid) by now rewrite Hid.
  unfold get_portfolio, save_portfolios, list_portfolios at 1 3 5; simpl.
  repeat split.
  - now apply upsert_in_find.
  - intros other Hne. now apply upsert_in_find_other.
  - apply upsert_in_absent.
  - apply upsert_in_present.
Qed.

Lemma user_ids_all users ids :
  user_ids users = Return ids ->
  Forall2 (fun u i => ud_user_id u = Some i) users ids.
Proof.
  revert ids. induction users as [|u r IH]; simpl; intros ids.
  - intros [= <-]. constructor.
  - destruct (ud_user_id u) as [i|] eqn:E; [|discriminate].
    destruct (user_ids r) as [ids'|] eqn:Er; simpl; [|discriminate].
    intros [= <-]. constructor; auto.
Qed.

Lemma user_ids_missing users e :
  user_ids users = Throw e ->
  e = KeyError "user_id" /\ exists u, In u users /\ ud_user_id u = None.
Proof.
  induction users as [|u r IH]; simpl; [discriminate|].
  destruct (ud_user_id u) as [i|] eqn:E.
  - destruct (user_ids r) as [ids'|e'] eqn:Er; simpl; [discriminate|].
    intros [= <-]. destruct (IH eq_refl) as [-> [u' [Hin Hu']]].
    split; auto. exists u'. auto.
  - intros [= <-]. split; auto. exists u. auto.
Qed.

Lemma Forall2_In_left {A B : Type} (R : A -> B -> Prop) l l' x :
  Forall2 R l l' -> In x l -> exists y, In y l' /\ R x y.
Proof.
  induction 1 as [|a b l l' Hab Hrest IH]; simpl; [tauto|].
  intros [<- | Hin].
  - exists b. auto.
  - destruct (IH Hin) as [y [Hy Hr]]. exists y. auto.
Qed.

Lemma fold_max_ge_init l : forall a, a <= fold_left Z.max l a.
Proof.
  induction l as [|y r IH]; simpl; intros a; [lia|].
  specialize (IH (Z.max a y)). lia.
Qed.

Lemma fold_max_ge_in l : forall a x, In x l -> x <= fold_left Z.max l a.
Proof.
  induction l as [|y r IH]; simpl; intros a x; [tauto|].
  intros [<- | Hin]; auto.
  pose proof (fold_max_ge_init r (Z.max a y)). lia.
Qed.

Lemma find_none_iff {A : Type} (p : A -> bool) (l : list A) :
  find p l = None <-> Forall (fun x => p x = false) l.
Proof.
  induction l as [|x r IH]; simpl.
  - split; auto.
  - destruct (p x) eqn:E.
    + split; [discriminate|]. intros H. inversion H; congruence.
    + rewrite IH. split; intros H; [now constructor | now inversion H].
Qed.

(** X13.  [next_user_id].  When it returns, the id is above the id of
    every stored user, so no stored user has it, and it is [1] for an empty
    list; it raises, with [KeyError], exactly when some stored user has no
    [user_id]. *)
Theorem next_user_id_fresh f :
  match next_user_id f with
  | Return n =>
      get_user_by_id f n = None
      /\ (forall u, In u (list_users f) -> exists i, ud_user_id u = Some i /\ i < n)
      /\ (list_users f = [] -> n = 1)
  | Throw e =>
      e = KeyError "user_id"
      /\ exists u, In u (list_users f) /\ ud_user_id u = None
  end.
Proof.
  unfold next_user_id, get_user_by_id.
  destruct (list_users f) as [|u0 r] eqn:Hl.
  - repeat split; auto. intros u [].
  - destruct (user_ids (u0 :: r)) as [ids|e] eqn:Hids; cbn [and_then].
    + pose proof (user_ids_all _ _ Hids) as Hall.
      set (m := fold_left Z.max (tl ids) (hd 0 ids)).
      assert (Hbound : forall u, In u (u0 :: r) ->
                exists i, ud_user_id u = Some i /\ i < m + 1).
      { intros u Hin.
        destruct (Forall2_In_left _ _ _ _ Hall Hin) as [i [Hi Hu]].
        exists i. split; auto.
        enough (i <= m) by lia. subst m.
        destruct ids as [|i0 ids']; [destruct Hi|]. simpl.
        destruct Hi as [<- | Hi].
        - apply fold_max_ge_init.
        - now apply fold_max_ge_in. }
      repeat split; auto; [|discriminate].
      apply find_none_iff. apply Forall_forall. intros u Hin.
      destruct (Hbound u Hin) as [i [Hu Hlt]]. rewrite Hu. simpl.
      apply Z.eqb_neq. lia.
    + now apply user_ids_missing.
Qed.

End AccountFiles.

(* ----------------------------------------------------------------- *)
(** ** Strings under [upper] and [strip] *)

Section StringFacts.

Lemma is_space_upper c : Str.is_space (Str.upper_ascii c) = Str.is_space c.
Proof. destruct c as [[] [] [] [] [] [] [] []]; reflexivity. Qed.

Lemma upper_ascii_twice c : Str.upper_ascii (Str.upper_ascii c) = Str.upper_ascii c.
Proof. destruct c as [[] [] [] [] [] [] [] []]; reflexivity. Qed.

Lemma upper_twice s : Str.upper (Str.upper s) = Str.upper s.
Proof. induction s as [|c r IH]; simpl; [reflexivity|]. now rewrite upper_ascii_twice, IH. Qed.

Lemma lstrip_upper s : Str.lstrip (Str.upper s) = Str.upper (Str.lstrip s).
Proof.
  induction s as [|c r IH]; simpl; [reflexivity|].
  rewrite is_space_upper. destruct (Str.is_space c); auto.
Qed.

Lemma rstrip_upper s : Str.rstrip (Str.upper s) = Str.upper (Str.rstrip s).
Proof.
  induction s as [|c r IH]; simpl; [reflexivity|].
  rewrite IH, is_space_upper.
  destruct (Str.rstrip r); simpl; [destruct (Str.is_space c)|]; reflexivity.
Qed.

Lemma strip_upper s : Str.strip (Str.upper s) = Str.upper (Str.strip s).
Proof. unfold Str.strip. now rewrite lstrip_upper, rstrip_upper. Qed.

(** A code in upper case passes the check of its form when the code does. *)
Lemma validate_upper code :
  Utils.validate_currency_code (Str.upper code) = Utils.validate_currency_code code.
Proof.
  unfold Utils.validate_currency_code. now rewrite strip_upper, upper_twice.
Qed.

Lemma get_currency_upper code :
  Currencies.get_currency (Str.upper code) = Currencies.get_currency code.
Proof. unfold Currencies.get_currency. now rewrite upper_twice. Qed.

End StringFacts.

(* ----------------------------------------------------------------- *)
(** ** Wallets and portfolios *)

Section ModelFacts.

Lemma validate_unit code u : Utils.validate_currency_code code = Ok u ->
  Utils.validate_currency_code code = Ok tt.
Proof. now destruct u. Qed.

Lemma wallet_init_inv code b w :
  Wallet.init code b = Ok w ->
  w = Wallet.mk code b
  /\ Utils.validate_currency_code code = Ok tt
  /\ (b <? 0)%float = false.
Proof.
  unfold Wallet.init, Wallet.set_balance, bind.
  destruct (Utils.validate_currency_code code) as [[]|]; [|discriminate].
  destruct (b <? 0)%float; [discriminate|]. simpl. intros [= <-]. auto.
Qed.

Lemma wallet_init_runs code b :
  Utils.validate_currency_code code = Ok tt -> (b <? 0)%float = false ->
  Wallet.init code b = Ok (Wallet.mk code b).
Proof.
  intros Hv Hb. unfold Wallet.init, Wallet.set_balance, bind. now rewrite Hv, Hb.
Qed.

Lemma set_absent_app {V : Type} k (v : V) d :
  PyDict.get k d = None -> PyDict.set k v d = d ++ [(k, v)].
Proof.
  induction d as [|[k0 v0] r IH]; simpl; auto.
  destruct (String.eqb k0 k); [discriminate|]. intros H. now rewrite IH.
Qed.

Lemma wallets_from_inv raw : forall acc ws,
  Portfolio.wallets_from raw acc = Ok ws ->
  NoDup (PyDict.keys acc) -> Forall wallet_ok acc ->
  NoDup (PyDict.keys ws) /\ Forall wallet_ok ws.
Proof.
  induction raw as [|[code payload] rest IH]; simpl; intros acc ws.
  - intros [= <-]. auto.
  - unfold Wallet.from_dict.
    destruct (Wallet.init code _) as [w|] eqn:Ew; simpl; [|discriminate].
    intros H Hnd Hok. apply (IH _ _ H).
    + now apply set_keeps_NoDup.
    + apply set_keeps_Forall; auto.
      apply wallet_init_inv in Ew. destruct Ew as [-> [Hv Hb]].
      repeat split; auto.
Qed.

Lemma wallets_from_saved l : forall acc,
  NoDup (PyDict.keys (acc ++ l)) -> Forall wallet_ok l ->
  Portfolio.wallets_from
    (map (fun cw => (fst cw, Some (Wallet.balance (snd cw)))) l) acc
  = Ok (acc ++ l).
Proof.
  induction l as [|[k w] r IH]; simpl; intros acc Hnd Hok.
  - now rewrite app_nil_r.
  - inversion Hok as [|? ? [Hc [Hv Hb]] Hr]; subst. simpl in Hc, Hv, Hb.
    unfold Wallet.from_dict. rewrite (wallet_init_runs k _ Hv Hb). simpl.
    assert (Hk : PyDict.get k acc = None).
    { apply PyDictFacts.get_None_not_In. intros Hin.
      unfold PyDict.keys in Hnd. rewrite map_app in Hnd. simpl in Hnd.
      apply NoDup_remove_2 in Hnd. apply Hnd. apply in_or_app. now left. }
    rewrite (set_absent_app _ _ _ Hk).
    assert (Hw : Wallet.mk k (Wallet.balance w) = w)
      by (destruct w; simpl in *; congruence).
    rewrite Hw.
    replace (acc ++ (k, w) :: r) with ((acc ++ [(k, w)]) ++ r)
      by now rewrite <- app_assoc.
    apply IH; auto. now rewrite <- app_assoc.
Qed.

Lemma from_dict_ok d p :
  Portfolio.from_dict d = Return p -> portfolio_ok p.
Proof.
  unfold Portfolio.from_dict.
  destruct (Portfolio.wallets_from _ []) as [ws|] eqn:Ew; simpl; [|discriminate].
  destruct (Accounts.pd_user_id d) as [uid|]; [|discriminate].
  unfold Portfolio.init. destruct (uid <=? 0) eqn:Eu; simpl; [discriminate|].
  intros [= <-]. apply Z.leb_gt in Eu.
  destruct (wallets_from_inv _ _ _ Ew) as [Hnd Hok]; [constructor | constructor |].
  repeat split; auto.
Qed.

Lemma saved_portfolio_loads p :
  portfolio_ok p -> Portfolio.from_dict (Portfolio.to_dict p) = Return p.
Proof.
  intros [Hid [Hnd Hok]]. unfold Portfolio.from_dict, Portfolio.to_dict. simpl.
  rewrite (wallets_from_saved _ [] Hnd Hok). simpl.
  unfold Portfolio.init.
  assert ((Portfolio._user_id p <=? 0) = false) as -> by (apply Z.leb_gt; lia).
  simpl. now destruct p.
Qed.

(** X14.  The documents of portfolios.  [Portfolio.from_dict] gives back
    the portfolio [to_dict] was applied to exactly when the portfolio has a
    positive user id and holds every wallet once, under the wallet's own
    well-formed code, with a balance that is not negative; and every
    portfolio [from_dict] returns is of that kind. *)
Theorem portfolio_round_trip p :
  (portfolio_ok p <-> Portfolio.from_dict (Portfolio.to_dict p) = Return p)
  /\ (forall d, Portfolio.from_dict d = Return p -> portfolio_ok p).
Proof.
  split; [split|].
  - apply saved_portfolio_loads.
  - apply from_dict_ok.
  - intros d. apply from_dict_ok.
Qed.

End ModelFacts.

(* ----------------------------------------------------------------- *)
(** ** [strip] applied twice *)

Section StripFacts.

Lemma lstrip_twice s : Str.lstrip (Str.lstrip s) = Str.lstrip s.
Proof.
  induction s as [|c r IH]; simpl; [reflexivity|].
  destruct (Str.is_space c) eqn:E; [exact IH|]. simpl. now rewrite E.
Qed.

Lemma rstrip_twice s : Str.rstrip (Str.rstrip s) = Str.rstrip s.
Proof.
  induction s as [|c r IH]; simpl; [reflexivity|].
  destruct (Str.rstrip r) as [|c' r'] eqn:E.
  - destruct (Str.is_space c) eqn:Ec; simpl; [reflexivity|]. now rewrite Ec.
  - cbn [Str.rstrip] in IH |- *. now rewrite IH.
Qed.

(** A string that does not start with a space still does not after
    [rstrip]. *)
Lemma lstrip_rstrip_fixed s :
  Str.lstrip s = s -> Str.lstrip (Str.rstrip s) = Str.rstrip s.
Proof.
  destruct s as [|c r]; simpl; [reflexivity|].
  destruct (Str.is_space c) eqn:E.
  - intros H. exfalso.
    assert (Hlen : (String.length (Str.lstrip r) <= String.length r)%nat).
    { clear. induction r as [|x r IH]; simpl; [lia|].
      destruct (Str.is_space x); simpl; lia. }
    rewrite H in Hlen. simpl in Hlen. lia.
  - intros _. destruct (Str.rstrip r); simpl; now rewrite E.
Qed.

Lemma strip_twice s : Str.strip (Str.strip s) = Str.strip s.
Proof.
  unfold Str.strip.
  rewrite (lstrip_rstrip_fixed (Str.lstrip s)) by apply lstrip_twice.
  apply rstrip_twice.
Qed.

End StripFacts.

(* ----------------------------------------------------------------- *)
(** ** Wallet operations inside a portfolio *)

Section WalletSteps.

Lemma deposit_inv w a w' :
  Wallet.deposit w a = Ok w' ->
  w' = Wallet.mk (Wallet.currency_code w) (Wallet.balance w + a)%float
  /\ (a <=? 0)%float = false
  /\ (Wallet.balance w + a <? 0)%float = false.
Proof.
  unfold Wallet.deposit, UtilsMore.ensure_float_positive, Wallet.set_balance, bind.
  destruct (a <=? 0)%float; [discriminate|].
  destruct (Wallet.balance w + a <? 0)%float; [discriminate|].
  intros [= <-]. auto.
Qed.

Lemma withdraw_inv w a w' :
  Wallet.withdraw w a = Return w' ->
  w' = Wallet.mk (Wallet.currency_code w) (Wallet.balance w - a)%float
  /\ (a <=? 0)%float = false
  /\ (Wallet.balance w <? a)%float = false
  /\ (Wallet.balance w - a <? 0)%float = false.
Proof.
  unfold Wallet.withdraw, UtilsMore.ensure_float_positive, Wallet.set_balance.
  destruct (a <=? 0)%float; [discriminate|]. simpl.
  destruct (Wallet.balance w <? a)%float; [discriminate|].
  destruct (Wallet.balance w - a <? 0)%float; [discriminate|].
  intros [= <-]. auto.
Qed.

Lemma deposit_keeps_ok k w a w' :
  wallet_ok (k, w) -> Wallet.deposit w a = Ok w' -> wallet_ok (k, w').
Proof.
  intros [Hc [Hv Hb]] H. apply deposit_inv in H. destruct H as [-> [_ Hn]].
  repeat split; auto.
Qed.

Lemma withdraw_keeps_ok k w a w' :
  wallet_ok (k, w) -> Wallet.withdraw w a = Return w' -> wallet_ok (k, w').
Proof.
  intros [Hc [Hv Hb]] H. apply withdraw_inv in H. destruct H as [-> [_ [_ Hn]]].
  repeat split; auto.
Qed.

Lemma add_currency_runs p c :
  Utils.validate_currency_code c = Ok tt ->
  Portfolio.add_currency p c
  = match PyDict.get (Str.upper c) (Portfolio._wallets p) with
    | Some w => Ok (w, p)
    | None =>
        Ok (Wallet.mk (Str.upper c) 0,
            Portfolio.mk (Portfolio._user_id p)
              (Portfolio._wallets p ++ [(Str.upper c, Wallet.mk (Str.upper c) 0)]))
    end.
Proof.
  intros Hv. unfold Portfolio.add_currency, bind. rewrite Hv.
  destruct (PyDict.get (Str.upper c) (Portfolio._wallets p)) eqn:G; [reflexivity|].
  rewrite wallet_init_runs; [|now rewrite validate_upper | reflexivity].
  now rewrite (set_absent_app _ _ _ G).
Qed.

Lemma get_app_absent {V : Type} k k' (v : V) d :
  k' <> k -> PyDict.get k' (d ++ [(k, v)]) = PyDict.get k' d.
Proof.
  intros Hne. induction d as [|[k0 v0] r IH]; simpl.
  - destruct (String.eqb k k') eqn:E; auto. apply String.eqb_eq in E. congruence.
  - destruct (String.eqb k0 k'); auto.
Qed.

Lemma get_app_new {V : Type} k (v : V) d :
  PyDict.get k d = None -> PyDict.get k (d ++ [(k, v)]) = Some v.
Proof.
  induction d as [|[k0 v0] r IH]; simpl.
  - now rewrite String.eqb_refl.
  - destruct (String.eqb k0 k); [discriminate | auto].
Qed.

Lemma get_app_old {V : Type} k k' (v v' : V) d :
  PyDict.get k' d = Some v' -> PyDict.get k' (d ++ [(k, v)]) = Some v'.
Proof.
  induction d as [|[k0 v0] r IH]; simpl; [discriminate|].
  destruct (String.eqb k0 k'); auto.
Qed.

Lemma added_wallet_ok p k :
  portfolio_ok p -> Utils.validate_currency_code k = Ok tt ->
  PyDict.get k (Portfolio._wallets p) = None ->
  portfolio_ok (Portfolio.mk (Portfolio._user_id p)
                  (Portfolio._wallets p ++ [(k, Wallet.mk k 0)])).
Proof.
  intros [Hid [Hnd Hok]] Hv G. repeat split; simpl; auto.
  - rewrite <- (set_absent_app k (Wallet.mk k 0) _ G). now apply set_keeps_NoDup.
  - apply Forall_app. split; auto. repeat constructor; auto.
Qed.

(** X15.  [add_currency] never resets a wallet.  It raises only the error
    of a malformed code.  Otherwise the portfolio holds the returned wallet
    under the code in upper case, every wallet it held before is still
    there unchanged, and when the code had no wallet the new one has the
    balance zero and stands last; a well-formed portfolio stays so. *)
Theorem add_currency_keeps_wallets p c :
  match Portfolio.add_currency p c with
  | Ok (w, p') =>
      Portfolio._user_id p' = Portfolio._user_id p
      /\ PyDict.get (Str.upper c) (Portfolio._wallets p') = Some w
      /\ (forall k w0, PyDict.get k (Portfolio._wallets p) = Some w0 ->
                       PyDict.get k (Portfolio._wallets p') = Some w0)
      /\ (PyDict.get (Str.upper c) (Portfolio._wallets p) = None ->
          w = Wallet.mk (Str.upper c) 0
          /\ Portfolio._wallets p' = Portfolio._wallets p ++ [(Str.upper c, w)])
      /\ (portfolio_ok p -> portfolio_ok p')
  | Raise e => Utils.validate_currency_code c = Raise e
  end.
Proof.
  destruct (Utils.validate_currency_code c) as [[]|e] eqn:Hv.
  - rewrite (add_currency_runs p c Hv).
    destruct (PyDict.get (Str.upper c) (Portfolio._wallets p)) as [w|] eqn:G.
    + split; [reflexivity|]. split; [exact G|]. split; [auto|].
      split; [intros [=] | auto].
    + cbn [Portfolio._user_id Portfolio._wallets].
      split; [reflexivity|]. split; [now apply get_app_new|].
      split; [intros k w0; apply get_app_old|]. split; [auto|].
      intros Hok. apply added_wallet_ok; auto. now rewrite validate_upper.
  - unfold Portfolio.add_currency, bind. now rewrite Hv.
Qed.

(** X16.  A wallet [get_wallet] cannot find.  [add_currency] keys the
    wallet by the code in upper case as given, [get_wallet] looks a code up
    in upper case and stripped: after [add_currency] of a code with
    surrounding white space, [get_wallet] answers for every code what it
    answered before, so the wallet just added is not found under any. *)
Theorem add_currency_padded_code p c w p' :
  Portfolio.add_currency p c = Ok (w, p') ->
  Str.strip (Str.upper c) <> Str.upper c ->
  forall c', Portfolio.get_wallet p' c' = Portfolio.get_wallet p c'.
Proof.
  intros Hadd Hpad c'.
  assert (Hv : Utils.validate_currency_code c = Ok tt).
  { unfold Portfolio.add_currency, bind in Hadd.
    destruct (Utils.validate_currency_code c) as [[]|]; [reflexivity | discriminate]. }
  rewrite (add_currency_runs p c Hv) in Hadd.
  destruct (PyDict.get (Str.upper c) (Portfolio._wallets p)) eqn:G.
  - now injection Hadd as _ <-.
  - injection Hadd as _ <-. unfold Portfolio.get_wallet. simpl.
    apply get_app_absent. intros Heq. apply Hpad.
    rewrite <- Heq. apply strip_twice.
Qed.

End WalletSteps.


(* ----------------------------------------------------------------- *)
(** ** Running a sequence of calls *)

(** One step of a sequence in a hypothesis: the call [r] is split into the
    value it returns and the exception it raises. *)
Ltac io_call H r pat E :=
  unfold next at 1 in H; unfold call at 1 in H;
  destruct r as pat eqn:E; cbn [lift] in H.

(** A hypothesis in which a raised exception is said to be a result. *)
Ltac io_stop H := first [discriminate H | now (unfold throw in H; discriminate H)].

(** One step of a sequence in the goal, for a call whose result [E] gives. *)
Ltac go_call E := unfold next at 1; unfold call at 1; rewrite E; cbn [lift].

(* ----------------------------------------------------------------- *)
(** ** Loading and saving a portfolio *)

Section PortfolioFiles.
Import Accounts CoreUseCases.

Lemma find_holds {A : Type} (p : A -> bool) l x : find p l = Some x -> p x = true.
Proof. intros H. now apply find_some in H. Qed.

Lemma upsert_runs f doc uid :
  pd_user_id doc = Some uid ->
  upsert doc f
  = (Return tt, save_portfolios f (upsert_in uid doc (list_portfolios f))).
Proof. intros H. unfold upsert, upsert_portfolio. now rewrite H. Qed.

Lemma get_after_upsert f doc uid :
  pd_user_id doc = Some uid ->
  get_portfolio (save_portfolios f (upsert_in uid doc (list_portfolios f))) uid
  = Some doc.
Proof.
  intros H. unfold get_portfolio, save_portfolios, list_portfolios at 1. simpl.
  apply upsert_in_find. now rewrite H.
Qed.

Lemma get_other_after_upsert f doc uid other :
  pd_user_id doc = Some uid -> other <> uid ->
  get_portfolio (save_portfolios f (upsert_in uid doc (list_portfolios f))) other
  = get_portfolio f other.
Proof.
  intros H Hne. unfold get_portfolio, save_portfolios, list_portfolios at 1. simpl.
  apply upsert_in_find_other; auto. now rewrite H.
Qed.

Lemma load_portfolio_found uid f d :
  get_portfolio f uid = Some d ->
  load_portfolio uid f = (Portfolio.from_dict d, f).
Proof.
  intros H. unfold load_portfolio, next, reading, call. now rewrite H.
Qed.

Lemma load_portfolio_absent uid f :
  get_portfolio f uid = None ->
  load_portfolio uid f
  = (if uid <=? 0
     then Throw (Builtin (ValueError "user_id должен быть положительным int"))
     else Return (Portfolio.mk uid []),
     save_portfolios f
       (list_portfolios f ++ [mk_PortfolioDoc (Some uid) (Some [])])).
Proof.
  intros H. unfold load_portfolio, next, reading, call. rewrite H.
  rewrite (upsert_runs f (mk_PortfolioDoc (Some uid) (Some [])) uid eq_refl).
  rewrite upsert_in_absent by exact H.
  unfold Portfolio.from_dict, Portfolio.init. simpl.
  now destruct (uid <=? 0).
Qed.

(** The portfolio [load_portfolio] returns is the user's and well formed. *)
Lemma load_portfolio_ok uid f p f1 :
  load_portfolio uid f = (Return p, f1) ->
  portfolio_ok p /\ Portfolio._user_id p = uid.
Proof.
  destruct (get_portfolio f uid) as [d|] eqn:G.
  - rewrite (load_portfolio_found _ _ _ G). intros [= Hp <-].
    split; [now apply (from_dict_ok d)|].
    apply find_holds in G. apply Z.eqb_eq in G.
    unfold Portfolio.from_dict in Hp.
    destruct (Portfolio.wallets_from _ []); simpl in Hp; [|discriminate].
    destruct (pd_user_id d) as [k|]; [|discriminate].
    unfold Portfolio.init in Hp. destruct (k <=? 0); simpl in Hp; [discriminate|].
    injection Hp as <-. exact G.
  - rewrite (load_portfolio_absent _ _ G).
    destruct (uid <=? 0) eqn:E; [discriminate|]. intros [= <- <-].
    apply Z.leb_gt in E. repeat split; simpl; auto; constructor.
Qed.

(** X17.  [load_portfolio] and the files.  Loading the portfolio of a user
    who has one writes nothing.  For a user who has none the empty portfolio
    is appended to the stored list first, also when the user id is not
    positive and the call then raises [ValueError]; the users and the
    session stay.  Loading a second time returns the same and writes
    nothing. *)
Theorem load_portfolio_files uid f :
  let r := load_portfolio uid f in
  load_portfolio uid (snd r) = r
  /\ (get_portfolio f uid <> None -> snd r = f)
  /\ (get_portfolio f uid = None ->
      list_portfolios (snd r)
      = list_portfolios f ++ [mk_PortfolioDoc (Some uid) (Some [])]
      /\ fst r = (if uid <=? 0
                  then Throw (Builtin (ValueError "user_id должен быть положительным int"))
                  else Return (Portfolio.mk uid [])))
  /\ users_json (snd r) = users_json f
  /\ session_json (snd r) = session_json f.
Proof.
  cbv zeta. destruct (get_portfolio f uid) as [d|] eqn:G.
  - rewrite (load_portfolio_found _ _ _ G). cbn [fst snd].
    rewrite (load_portfolio_found _ _ _ G). repeat split; congruence.
  - rewrite (load_portfolio_absent _ _ G). cbn [fst snd].
    split; [|repeat split; congruence].
    rewrite <- (upsert_in_absent uid _ _ G).
    rewrite (load_portfolio_found uid _ _
               (get_after_upsert f (mk_PortfolioDoc (Some uid) (Some [])) uid eq_refl)).
    unfold Portfolio.from_dict, Portfolio.init. simpl. now destruct (uid <=? 0).
Qed.

Lemma save_portfolio_runs p f :
  save_portfolio p f
  = (Return tt,
     save_portfolios f
       (upsert_in (Portfolio._user_id p) (Portfolio.to_dict p) (list_portfolios f))).
Proof.
  unfold save_portfolio.
  now rewrite (upsert_runs f (Portfolio.to_dict p) (Portfolio._user_id p) eq_refl).
Qed.

(** X18.  Saving and loading.  After [save_portfolio] of a well-formed
    portfolio, [load_portfolio] of its user returns that portfolio and
    writes nothing, and the portfolio of every other user is as before. *)
Theorem save_then_load p f :
  portfolio_ok p ->
  let f' := snd (save_portfolio p f) in
  fst (save_portfolio p f) = Return tt
  /\ load_portfolio (Portfolio._user_id p) f' = (Return p, f')
  /\ (forall other, other <> Portfolio._user_id p ->
      get_portfolio f' other = get_portfolio f other).
Proof.
  intros Hok. cbv zeta. rewrite save_portfolio_runs. cbn [fst snd].
  split; [reflexivity|]. split.
  - rewrite (load_portfolio_found _ _ _
               (get_after_upsert f (Portfolio.to_dict p) _ eq_refl)).
    f_equal. now apply saved_portfolio_loads.
  - intros other Hne. now apply (get_other_after_upsert f (Portfolio.to_dict p)).
Qed.

End PortfolioFiles.

(* ----------------------------------------------------------------- *)
(** ** Trading *)

Section TradeFacts.
Import Accounts CoreUseCases.
Variable ttl : Z.

Lemma held_wallet_ok p key w :
  portfolio_ok p -> PyDict.get key (Portfolio._wallets p) = Some w ->
  wallet_ok (key, w).
Proof.
  intros [_ [_ Hok]] G. apply PyDictFacts.get_Some_In in G.
  now apply (proj1 (Forall_forall _ _) Hok).
Qed.

Lemma changed_ok p key w0 w :
  portfolio_ok p -> PyDict.get key (Portfolio._wallets p) = Some w0 ->
  wallet_ok (key, w) ->
  portfolio_ok (changed p key w).
Proof.
  intros [Hid [Hnd Hok]] G Hw. unfold changed. repeat split; simpl; auto.
  - now apply set_keeps_NoDup.
  - now apply set_keeps_Forall.
Qed.

Lemma held_changed p key w k :
  held (changed p key w) k
  = if String.eqb key k then Some (Wallet.balance w) else held p k.
Proof.
  unfold held, changed. simpl. destruct (String.eqb key k) eqn:E.
  - apply String.eqb_eq in E. subst. now rewrite PyDictFacts.get_set_same.
  - apply String.eqb_neq in E. rewrite PyDictFacts.get_set_other; auto.
Qed.

Lemma get_changed_same p key w :
  PyDict.get key (Portfolio._wallets (changed p key w)) = Some w.
Proof. apply PyDictFacts.get_set_same. Qed.

(** [get_wallet(c) or add_currency(c)] on a well-formed portfolio. *)
Lemma wallet_or_add_spec p c key w p' :
  portfolio_ok p -> wallet_or_add p c = Ok (key, w, p') ->
  portfolio_ok p'
  /\ Portfolio._user_id p' = Portfolio._user_id p
  /\ PyDict.get key (Portfolio._wallets p') = Some w
  /\ (key = Str.strip (Str.upper c) \/ key = Str.upper c)
  /\ (forall k, k <> key ->
      PyDict.get k (Portfolio._wallets p') = PyDict.get k (Portfolio._wallets p))
  /\ (PyDict.get key (Portfolio._wallets p) = Some w /\ p' = p
      \/ PyDict.get key (Portfolio._wallets p) = None /\ w = Wallet.mk key 0).
Proof.
  intros Hok. unfold wallet_or_add, Portfolio.get_wallet.
  destruct (PyDict.get (Str.strip (Str.upper c)) (Portfolio._wallets p)) as [w0|] eqn:G.
  - intros [= <- <- <-]. split; [exact Hok|]. repeat split; auto.
  - unfold bind.
    destruct (Utils.validate_currency_code c) as [[]|e] eqn:Hv.
    + rewrite (add_currency_runs p c Hv).
      destruct (PyDict.get (Str.upper c) (Portfolio._wallets p)) as [w0|] eqn:G'.
      * intros [= <- <- <-]. split; [exact Hok|]. repeat split; auto.
      * intros [= <- <- <-]. cbn [fst snd].
        split; [apply added_wallet_ok; auto; now rewrite validate_upper|].
        split; [reflexivity|]. split; [now apply get_app_new|].
        split; [auto|]. cbn [Portfolio._wallets].
        split; [intros k Hk; now rewrite get_app_absent|]. auto.
    + unfold Portfolio.add_currency, bind. rewrite Hv. discriminate.
Qed.

Lemma load_keeps uid f o f1 :
  load_portfolio uid f = (o, f1) ->
  users_json f1 = users_json f
  /\ session_json f1 = session_json f
  /\ (forall other, other <> uid -> get_portfolio f1 other = get_portfolio f other).
Proof.
  destruct (get_portfolio f uid) as [d|] eqn:G.
  - rewrite (load_portfolio_found _ _ _ G). intros [= _ <-]. auto.
  - rewrite (load_portfolio_absent _ _ G). intros [= _ <-].
    repeat split; auto. intros other Hne.
    rewrite <- (upsert_in_absent uid _ _ G).
    now apply (get_other_after_upsert f (mk_PortfolioDoc (Some uid) (Some []))).
Qed.

Lemma abort_outcome uid app uc f' e :
  f' = app_files app \/ f' = snd (load_portfolio uid (app_files app)) ->
  UseCases.uc_db uc = UseCases.uc_db (app_rates app) ->
  trade_outcome uid app (Throw e) (mk_App uc f').
Proof.
  intros Hf Hdb. unfold trade_outcome. cbn [app_files app_rates].
  split; [exact Hdb|].
  destruct Hf as [-> | ->]; [repeat split; auto|].
  destruct (load_portfolio uid (app_files app)) as [o f1] eqn:L.
  destruct (load_keeps _ _ _ _ L) as [Hu [Hs Ho]]. cbn [snd].
  repeat split; auto.
Qed.

Lemma commit_outcome uid app uc p f1 pfinal t :
  load_portfolio uid (app_files app) = (Return p, f1) ->
  UseCases.uc_db uc = UseCases.uc_db (app_rates app) ->
  portfolio_ok pfinal -> Portfolio._user_id pfinal = uid ->
  trade_outcome uid app (Return t)
    (mk_App uc
       (save_portfolios f1
          (upsert_in (Portfolio._user_id pfinal) (Portfolio.to_dict pfinal)
             (list_portfolios f1)))).
Proof.
  intros L Hdb Hok Hid. unfold trade_outcome. cbn [app_files app_rates].
  destruct (load_keeps _ _ _ _ L) as [Hu [Hs Ho]]. rewrite Hid.
  split; [exact Hdb|]. split; [exact Hu|]. split; [exact Hs|]. split.
  - intros other Hne.
    rewrite (get_other_after_upsert f1 (Portfolio.to_dict pfinal) uid other); auto.
    simpl. now rewrite Hid.
  - exists pfinal. split; [exact Hok|]. split; [exact Hid|].
    rewrite (load_portfolio_found uid _ (Portfolio.to_dict pfinal)).
    + now rewrite saved_portfolio_loads.
    + apply get_after_upsert. simpl. now rewrite Hid.
Qed.

Lemma lookup_db now from_code to_code uc :
  UseCases.uc_db (snd (UseCases._get_pair_rate ttl now from_code to_code uc))
  = UseCases.uc_db uc.
Proof. apply lookup_fuel_db. Qed.

Ltac io_abort H L :=
  injection H as <- <-; apply abort_outcome;
  [ first [ left; reflexivity | right; now rewrite L ] | auto ].

Lemma buy_outcome now uid c amount base app o app' :
  buy ttl now uid c amount base app = (o, app') -> trade_outcome uid app o app'.
Proof.
  unfold buy. intros H.
  io_call H (Utils.validate_currency_code c) ipattern:([[]|e]) Hv;
    [|io_abort H Hv].
  io_call H (UtilsMore.ensure_float_positive amount "amount") ipattern:([a|e]) Ha;
    [|io_abort H Hv].
  io_call H (Currencies.get_currency c) ipattern:([cur|e]) Hc; [|io_abort H Hv].
  unfold next at 1 in H. unfold on_files at 1 in H.
  destruct (load_portfolio uid (app_files app)) as [[p|e] f1] eqn:L;
    cbn [app_files app_rates] in H; [|io_abort H L].
  destruct (load_portfolio_ok _ _ _ _ L) as [Hok Hid].
  io_call H (wallet_or_add p "USD") ipattern:([[[ku usd] p1]|e]) Hu;
    [|io_abort H L].
  cbn [fst snd] in H.
  destruct (wallet_or_add_spec _ _ _ _ _ Hok Hu)
    as [Hok1 [Hid1 [Gu [Hku [_ _]]]]].
  assert (ku = "USD") as -> by (destruct Hku as [-> | ->]; reflexivity).
  pose proof (held_wallet_ok _ _ _ Hok1 Gu) as Husd.
  destruct (String.eqb (Str.upper c) "USD") eqn:Ec.
  - io_call H (Wallet.deposit usd amount) ipattern:([usd'|e]) Hd; [|io_abort H L].
    unfold next at 1 in H. unfold on_files at 1 in H.
    rewrite save_portfolio_runs in H. cbn [app_files app_rates] in H.
    unfold ret in H. injection H as <- <-.
    apply commit_outcome with (p := p) (pfinal := changed p1 "USD" usd'); auto.
    + apply (changed_ok _ _ usd); auto. now apply (deposit_keeps_ok _ usd amount).
    + simpl. congruence.
  - unfold next at 1 in H. unfold on_rates at 1 in H.
    cbn [app_files app_rates] in H.
    pose proof (lookup_db now (Str.upper c) "USD" (app_rates app)) as Hdb.
    destruct (UseCases._get_pair_rate ttl now (Str.upper c) "USD" (app_rates app))
      as [[ru|e] uc] eqn:R; cbn [lift app_files app_rates snd] in H, Hdb;
      [|io_abort H L].
    io_call H (Wallet.withdraw usd (amount * fst ru)) ipattern:([usd'|e]) Hw;
      [|io_abort H L].
    pose proof (withdraw_keeps_ok _ _ _ _ Husd Hw) as Husd'.
    pose proof (changed_ok _ _ _ _ Hok1 Gu Husd') as Hok2.
    io_call H (wallet_or_add (changed p1 "USD" usd') (Str.upper c))
      ipattern:([[[key w] p2]|e]) Hx; [|io_abort H L].
    cbn [fst snd] in H.
    destruct (wallet_or_add_spec _ _ _ _ _ Hok2 Hx)
      as [Hok3 [Hid3 [Gw _]]].
    pose proof (held_wallet_ok _ _ _ Hok3 Gw) as Hwok.
    io_call H (Wallet.deposit w amount) ipattern:([w'|e]) Hd; [|io_abort H L].
    unfold next at 1 in H. unfold on_files at 1 in H.
    rewrite save_portfolio_runs in H. cbn [app_files app_rates] in H.
    unfold ret in H. injection H as <- <-.
    apply commit_outcome with (p := p) (pfinal := changed p2 key w'); auto.
    + apply (changed_ok _ _ w); auto. now apply (deposit_keeps_ok _ w amount).
    + simpl. simpl in Hid3. congruence.
Qed.

Lemma sell_outcome now uid c amount base app o app' :
  sell ttl now uid c amount base app = (o, app') -> trade_outcome uid app o app'.
Proof.
  unfold sell. intros H.
  io_call H (Utils.validate_currency_code c) ipattern:([[]|e]) Hv;
    [|io_abort H Hv].
  io_call H (UtilsMore.ensure_float_positive amount "amount") ipattern:([a|e]) Ha;
    [|io_abort H Hv].
  io_call H (Currencies.get_currency c) ipattern:([cur|e]) Hc; [|io_abort H Hv].
  unfold next at 1 in H. unfold on_files at 1 in H.
  destruct (load_portfolio uid (app_files app)) as [[p|e] f1] eqn:L;
    cbn [app_files app_rates] in H; [|io_abort H L].
  destruct (load_portfolio_ok _ _ _ _ L) as [Hok Hid].
  destruct (Portfolio.get_wallet p (Str.upper c)) as [w|] eqn:Gw;
    [|unfold throw in H; io_abort H L].
  unfold Portfolio.get_wallet in Gw.
  set (key := Str.strip (Str.upper (Str.upper c))) in *.
  io_call H (wallet_or_add p "USD") ipattern:([[[ku usd] p1]|e]) Hu;
    [|io_abort H L].
  cbn [fst snd] in H.
  destruct (wallet_or_add_spec _ _ _ _ _ Hok Hu)
    as [Hok1 [Hid1 [Gu [Hku [Hrest Hcase]]]]].
  assert (ku = "USD") as -> by (destruct Hku as [-> | ->]; reflexivity).
  pose proof (held_wallet_ok _ _ _ Hok1 Gu) as Husd.
  assert (G1 : PyDict.get key (Portfolio._wallets p1) = Some w).
  { destruct (String.eqb key "USD") eqn:Ek.
    - apply String.eqb_eq in Ek. rewrite Ek in *.
      destruct Hcase as [[_ ->] | [Hn _]]; congruence.
    - apply String.eqb_neq in Ek. now rewrite Hrest. }
  pose proof (held_wallet_ok _ _ _ Hok1 G1) as Hwok.
  destruct (String.eqb (Str.upper c) "USD") eqn:Ec.
  - io_call H (Wallet.withdraw usd amount) ipattern:([usd'|e]) Hw; [|io_abort H L].
    unfold next at 1 in H. unfold on_files at 1 in H.
    rewrite save_portfolio_runs in H. cbn [app_files app_rates] in H.
    unfold ret in H. injection H as <- <-.
    apply commit_outcome with (p := p) (pfinal := changed p1 "USD" usd'); auto.
    + apply (changed_ok _ _ usd); auto. now apply (withdraw_keeps_ok _ usd amount).
    + simpl. congruence.
  - unfold next at 1 in H. unfold on_rates at 1 in H.
    cbn [app_files app_rates] in H.
    pose proof (lookup_db now (Str.upper c) "USD" (app_rates app)) as Hdb.
    destruct (UseCases._get_pair_rate ttl now (Str.upper c) "USD" (app_rates app))
      as [[ru|e] uc] eqn:R; cbn [lift app_files app_rates snd] in H, Hdb;
      [|io_abort H L].
    io_call H (Wallet.withdraw w amount) ipattern:([w'|e]) Hw; [|io_abort H L].
    pose proof (withdraw_keeps_ok _ _ _ _ Hwok Hw) as Hwok'.
    pose proof (changed_ok _ _ _ _ Hok1 G1 Hwok') as Hok2.
    set (usd1 := if String.eqb key "USD" then w' else usd) in *.
    assert (G2 : PyDict.get "USD" (Portfolio._wallets (changed p1 key w'))
                 = Some usd1).
    { subst usd1. unfold changed. cbn [Portfolio._wallets].
      destruct (String.eqb key "USD") eqn:Ek.
      - apply String.eqb_eq in Ek. rewrite Ek. apply PyDictFacts.get_set_same.
      - apply String.eqb_neq in Ek. rewrite PyDictFacts.get_set_other; auto. }
    pose proof (held_wallet_ok _ _ _ Hok2 G2) as Husd1.
    io_call H (Wallet.deposit usd1 (amount * fst ru)) ipattern:([usd'|e]) Hd;
      [|io_abort H L].
    unfold next at 1 in H. unfold on_files at 1 in H.
    rewrite save_portfolio_runs in H. cbn [app_files app_rates] in H.
    unfold ret in H. injection H as <- <-.
    apply commit_outcome
      with (p := p) (pfinal := changed (changed p1 key w') "USD" usd'); auto.
    + apply (changed_ok _ _ usd1); auto.
      now apply (deposit_keeps_ok _ usd1 (amount * fst ru)).
    + simpl. congruence.
Qed.

(** X19.  What a trade does to the files.  [buy] and [sell] never touch
    the rate files, the users, the session or the portfolio of another
    user.  A trade that raises leaves the account files as they were, or as
    [load_portfolio] left them (the empty portfolio of a user who had none);
    after a trade that returns, the stored portfolio of the user is well
    formed, no balance in it is negative, and loading it gives it back. *)
Theorem trade_files now uid c amount base app :
  trade_outcome uid app (fst (buy ttl now uid c amount base app))
    (snd (buy ttl now uid c amount base app))
  /\ trade_outcome uid app (fst (sell ttl now uid c amount base app))
       (snd (sell ttl now uid c amount base app)).
Proof.
  split.
  - apply (buy_outcome now uid c amount base).
    now destruct (buy ttl now uid c amount base app).
  - apply (sell_outcome now uid c amount base).
    now destruct (sell ttl now uid c amount base app).
Qed.

Lemma held_get p p' k :
  PyDict.get k (Portfolio._wallets p') = PyDict.get k (Portfolio._wallets p) ->
  held p' k = held p k.
Proof. unfold held. now intros ->. Qed.

(** The wallet [get_wallet(c) or add_currency(c)] gives has the balance the
    portfolio held under its key, zero when it held none. *)
Lemma wallet_or_add_balance p c key w p' :
  portfolio_ok p -> wallet_or_add p c = Ok (key, w, p') ->
  Wallet.balance w = or_zero (held p key).
Proof.
  intros Hok H.
  destruct (wallet_or_add_spec _ _ _ _ _ Hok H) as [_ [_ [_ [_ [_ Hcase]]]]].
  unfold held. destruct Hcase as [[-> _] | [-> ->]]; reflexivity.
Qed.

(** After the save that ends a trade, [load_portfolio] returns the saved
    portfolio. *)
Lemma load_after_save uid f1 pfinal :
  portfolio_ok pfinal -> Portfolio._user_id pfinal = uid ->
  let f2 := save_portfolios f1
              (upsert_in (Portfolio._user_id pfinal) (Portfolio.to_dict pfinal)
                 (list_portfolios f1)) in
  load_portfolio uid f2 = (Return pfinal, f2).
Proof.
  intros Hok Hid f2. subst f2.
  rewrite (load_portfolio_found uid _ (Portfolio.to_dict pfinal)).
  - now rewrite saved_portfolio_loads.
  - rewrite Hid. apply get_after_upsert. simpl. now rewrite Hid.
Qed.

(** X20.  What a purchase does.  When [buy] of a code other than USD
    (written without surrounding white space) returns, the rate it reports
    is the one [_get_pair_rate] resolves for the code against USD, the cost
    is the amount times that rate, and in the stored portfolio of the user
    the USD balance went down by the cost, the balance of the code went up
    by the amount (from zero for a wallet that was not there), and every
    other wallet is as it was. *)
Theorem buy_effects now uid c amount base app t app' :
  buy ttl now uid c amount base app = (Return t, app') ->
  Str.strip (Str.upper c) = Str.upper c ->
  Str.upper c <> "USD" ->
  exists p f1 p' upd,
    load_portfolio uid (app_files app) = (Return p, f1)
    /\ load_portfolio uid (app_files app') = (Return p', app_files app')
    /\ fst (UseCases._get_pair_rate ttl now (Str.upper c) "USD" (app_rates app))
       = Ok (t_rate t, upd)
    /\ t_cost_usd t = Some (amount * t_rate t)%float
    /\ held p' "USD" = Some (or_zero (held p "USD") - amount * t_rate t)%float
    /\ held p' (Str.upper c) = Some (or_zero (held p (Str.upper c)) + amount)%float
    /\ (forall k, k <> "USD" -> k <> Str.upper c -> held p' k = held p k).
Proof.
  unfold buy. intros H Hstrip Hne.
  io_call H (Utils.validate_currency_code c) ipattern:([[]|e]) Hv; [|io_stop H].
  io_call H (UtilsMore.ensure_float_positive amount "amount") ipattern:([a|e]) Ha;
    [|io_stop H].
  io_call H (Currencies.get_currency c) ipattern:([cur|e]) Hc; [|io_stop H].
  unfold next at 1 in H. unfold on_files at 1 in H.
  destruct (load_portfolio uid (app_files app)) as [[p|e] f1] eqn:L;
    cbn [app_files app_rates] in H; [|io_stop H].
  destruct (load_portfolio_ok _ _ _ _ L) as [Hok Hid].
  io_call H (wallet_or_add p "USD") ipattern:([[[ku usd] p1]|e]) Hu; [|io_stop H].
  cbn [fst snd] in H.
  destruct (wallet_or_add_spec _ _ _ _ _ Hok Hu)
    as [Hok1 [Hid1 [Gu [Hku [Hrest1 _]]]]].
  assert (ku = "USD") as -> by (destruct Hku as [-> | ->]; reflexivity).
  pose proof (wallet_or_add_balance _ _ _ _ _ Hok Hu) as Hbal_usd.
  pose proof (held_wallet_ok _ _ _ Hok1 Gu) as Husd.
  destruct (String.eqb (Str.upper c) "USD") eqn:Ec;
    [apply String.eqb_eq in Ec; congruence|].
  unfold next at 1 in H. unfold on_rates at 1 in H.
  cbn [app_files app_rates] in H.
  destruct (UseCases._get_pair_rate ttl now (Str.upper c) "USD" (app_rates app))
    as [[[rate upd]|e] uc] eqn:R; cbn [lift app_files app_rates fst snd] in H;
    [|io_stop H].
  io_call H (Wallet.withdraw usd (amount * rate)) ipattern:([usd'|e]) Hw;
    [|io_stop H].
  pose proof (withdraw_keeps_ok _ _ _ _ Husd Hw) as Husd'.
  pose proof (changed_ok _ _ _ _ Hok1 Gu Husd') as Hok2.
  io_call H (wallet_or_add (changed p1 "USD" usd') (Str.upper c))
    ipattern:([[[key w] p2]|e]) Hx; [|io_stop H].
  cbn [fst snd] in H.
  destruct (wallet_or_add_spec _ _ _ _ _ Hok2 Hx)
    as [Hok3 [Hid3 [Gw [Hkey [Hrest3 _]]]]].
  assert (key = Str.upper c) as ->.
  { destruct Hkey as [-> | ->]; rewrite upper_twice; auto. }
  pose proof (wallet_or_add_balance _ _ _ _ _ Hok2 Hx) as Hbal_w.
  pose proof (held_wallet_ok _ _ _ Hok3 Gw) as Hwok.
  io_call H (Wallet.deposit w amount) ipattern:([w'|e]) Hd; [|io_stop H].
  unfold next at 1 in H. unfold on_files at 1 in H.
  rewrite save_portfolio_runs in H. cbn [app_files app_rates] in H.
  unfold ret in H. injection H as <- <-. cbn [app_files t_rate t_cost_usd].
  set (pfinal := changed p2 (Str.upper c) w').
  assert (Hokf : portfolio_ok pfinal).
  { apply (changed_ok _ _ w); auto. now apply (deposit_keeps_ok _ w amount). }
  assert (Hidf : Portfolio._user_id pfinal = uid).
  { simpl. simpl in Hid3. congruence. }
  apply withdraw_inv in Hw. destruct Hw as [Husd_eq _].
  apply deposit_inv in Hd. destruct Hd as [Hw_eq _].
  exists p, f1, pfinal, upd.
  split; [reflexivity|]. split; [exact (load_after_save uid f1 pfinal Hokf Hidf)|].
  split; [reflexivity|]. split; [reflexivity|].
  assert (Hne' : Str.upper c <> "USD") by exact Hne.
  split; [|split].
  - subst pfinal. rewrite held_changed.
    destruct (String.eqb (Str.upper c) "USD") eqn:E; [discriminate|].
    rewrite (held_get _ _ _ (Hrest3 "USD" (not_eq_sym Hne'))).
    rewrite held_changed. simpl. rewrite Husd_eq. simpl. now rewrite Hbal_usd.
  - subst pfinal. rewrite held_changed, String.eqb_refl.
    rewrite Hw_eq. simpl. rewrite Hbal_w. rewrite held_changed.
    destruct (String.eqb "USD" (Str.upper c)) eqn:E.
    + apply String.eqb_eq in E. congruence.
    + now rewrite (held_get _ _ _ (Hrest1 _ Hne')).
  - intros k Hk1 Hk2. subst pfinal. rewrite held_changed.
    destruct (String.eqb (Str.upper c) k) eqn:E.
    + apply String.eqb_eq in E. congruence.
    + rewrite (held_get _ _ _ (Hrest3 k Hk2)). rewrite held_changed.
      destruct (String.eqb "USD" k) eqn:E'.
      * apply String.eqb_eq in E'. congruence.
      * now rewrite (held_get _ _ _ (Hrest1 k Hk1)).
Qed.

(** X21.  What a sale does.  When [sell] of a code other than USD (written
    without surrounding white space) returns, the user held a wallet of the
    code with at least the amount, the proceeds are the amount times the
    rate [_get_pair_rate] resolves for the code against USD, and in the
    stored portfolio the balance of the code went down by the amount, the
    USD balance went up by the proceeds (from zero for a USD wallet that
    was not there), and every other wallet is as it was. *)
Theorem sell_effects now uid c amount base app t app' :
  sell ttl now uid c amount base app = (Return t, app') ->
  Str.strip (Str.upper c) = Str.upper c ->
  Str.upper c <> "USD" ->
  exists p f1 p' upd bal,
    load_portfolio uid (app_files app) = (Return p, f1)
    /\ load_portfolio uid (app_files app') = (Return p', app_files app')
    /\ fst (UseCases._get_pair_rate ttl now (Str.upper c) "USD" (app_rates app))
       = Ok (t_rate t, upd)
    /\ t_proceeds_usd t = Some (amount * t_rate t)%float
    /\ held p (Str.upper c) = Some bal
    /\ (bal <? amount)%float = false
    /\ held p' (Str.upper c) = Some (bal - amount)%float
    /\ held p' "USD" = Some (or_zero (held p "USD") + amount * t_rate t)%float
    /\ (forall k, k <> "USD" -> k <> Str.upper c -> held p' k = held p k).
Proof.
  unfold sell. intros H Hstrip Hne.
  io_call H (Utils.validate_currency_code c) ipattern:([[]|e]) Hv; [|io_stop H].
  io_call H (UtilsMore.ensure_float_positive amount "amount") ipattern:([a|e]) Ha;
    [|io_stop H].
  io_call H (Currencies.get_currency c) ipattern:([cur|e]) Hc; [|io_stop H].
  unfold next at 1 in H. unfold on_files at 1 in H.
  destruct (load_portfolio uid (app_files app)) as [[p|e] f1] eqn:L;
    cbn [app_files app_rates] in H; [|io_stop H].
  destruct (load_portfolio_ok _ _ _ _ L) as [Hok Hid].
  destruct (Portfolio.get_wallet p (Str.upper c)) as [w|] eqn:Gw; [|io_stop H].
  unfold Portfolio.get_wallet in Gw.
  rewrite upper_twice, Hstrip in Gw, H.
  io_call H (wallet_or_add p "USD") ipattern:([[[ku usd] p1]|e]) Hu; [|io_stop H].
  cbn [fst snd] in H.
  destruct (wallet_or_add_spec _ _ _ _ _ Hok Hu)
    as [Hok1 [Hid1 [Gu [Hku [Hrest1 _]]]]].
  assert (ku = "USD") as -> by (destruct Hku as [-> | ->]; reflexivity).
  pose proof (wallet_or_add_balance _ _ _ _ _ Hok Hu) as Hbal_usd.
  assert (G1 : PyDict.get (Str.upper c) (Portfolio._wallets p1) = Some w)
    by now rewrite Hrest1.
  pose proof (held_wallet_ok _ _ _ Hok1 G1) as Hwok.
  destruct (String.eqb (Str.upper c) "USD") eqn:Ec;
    [apply String.eqb_eq in Ec; congruence|].
  unfold next at 1 in H. unfold on_rates at 1 in H.
  cbn [app_files app_rates] in H.
  destruct (UseCases._get_pair_rate ttl now (Str.upper c) "USD" (app_rates app))
    as [[[rate upd]|e] uc] eqn:R; cbn [lift app_files app_rates fst snd] in H;
    [|io_stop H].
  io_call H (Wallet.withdraw w amount) ipattern:([w'|e]) Hw; [|io_stop H].
  pose proof (withdraw_keeps_ok _ _ _ _ Hwok Hw) as Hwok'.
  pose proof (changed_ok _ _ _ _ Hok1 G1 Hwok') as Hok2.
  assert (G2 : PyDict.get "USD" (Portfolio._wallets (changed p1 (Str.upper c) w'))
               = Some usd).
  { unfold changed. cbn [Portfolio._wallets].
    rewrite PyDictFacts.get_set_other; auto. }
  pose proof (held_wallet_ok _ _ _ Hok2 G2) as Husd.
  io_call H (Wallet.deposit usd (amount * rate)) ipattern:([usd'|e]) Hd;
    [|io_stop H].
  unfold next at 1 in H. unfold on_files at 1 in H.
  rewrite save_portfolio_runs in H. cbn [app_files app_rates] in H.
  unfold ret in H. injection H as <- <-. cbn [app_files t_rate t_proceeds_usd].
  set (pfinal := changed (changed p1 (Str.upper c) w') "USD" usd').
  assert (Hokf : portfolio_ok pfinal).
  { apply (changed_ok _ _ usd); auto.
    now apply (deposit_keeps_ok _ usd (amount * rate)). }
  assert (Hidf : Portfolio._user_id pfinal = uid).
  { simpl. congruence. }
  apply withdraw_inv in Hw. destruct Hw as [Hw_eq [_ [Hfunds _]]].
  apply deposit_inv in Hd. destruct Hd as [Husd_eq _].
  exists p, f1, pfinal, upd, (Wallet.balance w).
  split; [reflexivity|]. split; [exact (load_after_save uid f1 pfinal Hokf Hidf)|].
  split; [reflexivity|]. split; [reflexivity|].
  split; [unfold held; now rewrite Gw|]. split; [exact Hfunds|].
  split; [|split].
  - subst pfinal. rewrite held_changed.
    destruct (String.eqb "USD" (Str.upper c)) eqn:E.
    + apply String.eqb_eq in E. congruence.
    + rewrite held_changed, String.eqb_refl. now rewrite Hw_eq.
  - subst pfinal. rewrite held_changed. simpl.
    rewrite Husd_eq. simpl. now rewrite Hbal_usd.
  - intros k Hk1 Hk2. subst pfinal. rewrite held_changed.
    destruct (String.eqb "USD" k) eqn:E.
    + apply String.eqb_eq in E. congruence.
    + rewrite held_changed.
      destruct (String.eqb (Str.upper c) k) eqn:E'.
      * apply String.eqb_eq in E'. congruence.
      * now rewrite (held_get _ _ _ (Hrest1 k Hk1)).
Qed.

(** The USD wallet a trade starts from. *)
Lemma usd_wallet p :
  portfolio_ok p ->
  exists usd p1,
    wallet_or_add p "USD" = Ok ("USD", usd, p1)
    /\ Wallet.currency_code usd = "USD"
    /\ Wallet.balance usd = or_zero (held p "USD").
Proof.
  intros Hok. unfold wallet_or_add, Portfolio.get_wallet, held.
  change (Str.strip (Str.upper "USD")) with "USD".
  destruct (PyDict.get "USD" (Portfolio._wallets p)) as [w|] eqn:G.
  - exists w, p. repeat split; auto.
    now destruct (held_wallet_ok _ _ _ Hok G) as [Hc _].
  - rewrite (add_currency_runs p "USD" eq_refl).
    change (Str.upper "USD") with "USD". rewrite G. simpl.
    eexists. eexists. repeat split.
Qed.

Lemma positive_runs amount field :
  (amount <=? 0)%float = false ->
  UtilsMore.ensure_float_positive amount field = Ok amount.
Proof. intros H. unfold UtilsMore.ensure_float_positive. now rewrite H. Qed.

(** X22.  A purchase the USD balance does not cover.  For a supported code
    other than USD and a positive amount, when the rate of the code against
    USD resolves and the cost, the amount times the rate, is positive and
    above the USD balance of the user (zero without a USD wallet), [buy]
    raises [InsufficientFundsError] with that balance, the cost and the
    code USD, and stores nothing beyond what [load_portfolio] did. *)
Theorem buy_insufficient_funds now uid c amount base app p f1 rate upd uc :
  supported c -> (amount <=? 0)%float = false -> Str.upper c <> "USD" ->
  load_portfolio uid (app_files app) = (Return p, f1) ->
  UseCases._get_pair_rate ttl now (Str.upper c) "USD" (app_rates app)
  = (Ok (rate, upd), uc) ->
  (amount * rate <=? 0)%float = false ->
  (or_zero (held p "USD") <? amount * rate)%float = true ->
  buy ttl now uid c amount base app
  = (Throw (InsufficientFundsError (or_zero (held p "USD")) (amount * rate) "USD"),
     mk_App uc f1).
Proof.
  intros [Hv [cur Hc]] Ha Hne L R Hcost Hfunds. unfold buy.
  go_call Hv. go_call (positive_runs amount "amount" Ha). go_call Hc.
  unfold next at 1. unfold on_files at 1. rewrite L. cbn [app_files app_rates].
  destruct (load_portfolio_ok _ _ _ _ L) as [Hok Hid].
  destruct (usd_wallet p Hok) as [usd [p1 [Hu [Hcode Hbal]]]].
  go_call Hu. cbn [fst snd].
  destruct (String.eqb (Str.upper c) "USD") eqn:Ec;
    [apply String.eqb_eq in Ec; congruence|].
  unfold next at 1. unfold on_rates at 1. cbn [app_files app_rates].
  rewrite R. cbn [lift fst snd].
  unfold next at 1. unfold call at 1.
  unfold Wallet.withdraw, UtilsMore.ensure_float_positive.
  rewrite Hcost. cbn [lift and_then]. rewrite Hbal, Hfunds, Hcode. reflexivity.
Qed.

(** X23.  Sales that are refused.  For a supported code and a positive
    amount: without a wallet of the code [sell] raises [ValueError]; with
    one whose balance is below the amount, for a code other than USD whose
    rate resolves, it raises [InsufficientFundsError] with the balance, the
    amount and the code of the wallet.  Neither stores anything beyond what
    [load_portfolio] did. *)
Theorem sell_refused now uid c amount base app p f1 :
  supported c -> (amount <=? 0)%float = false ->
  load_portfolio uid (app_files app) = (Return p, f1) ->
  (Portfolio.get_wallet p (Str.upper c) = None ->
   sell ttl now uid c amount base app
   = (Throw (Builtin (ValueError (cat ["У вас нет кошелька '"; Str.upper c;
        "'. Добавьте валюту: она создаётся автоматически при первой покупке."]))),
      mk_App (app_rates app) f1))
  /\ (forall w ru uc,
      Portfolio.get_wallet p (Str.upper c) = Some w ->
      Str.upper c <> "USD" ->
      UseCases._get_pair_rate ttl now (Str.upper c) "USD" (app_rates app)
      = (Ok ru, uc) ->
      (Wallet.balance w <? amount)%float = true ->
      sell ttl now uid c amount base app
      = (Throw (InsufficientFundsError (Wallet.balance w) amount
                  (Wallet.currency_code w)),
         mk_App uc f1)).
Proof.
  intros [Hv [cur Hc]] Ha L.
  destruct (load_portfolio_ok _ _ _ _ L) as [Hok Hid].
  split.
  - intros Gw. unfold sell.
    go_call Hv. go_call (positive_runs amount "amount" Ha). go_call Hc.
    unfold next at 1. unfold on_files at 1. rewrite L. cbn [app_files app_rates].
    rewrite Gw. reflexivity.
  - intros w ru uc Gw Hne R Hfunds. unfold sell.
    go_call Hv. go_call (positive_runs amount "amount" Ha). go_call Hc.
    unfold next at 1. unfold on_files at 1. rewrite L. cbn [app_files app_rates].
    rewrite Gw.
    destruct (usd_wallet p Hok) as [usd [p1 [Hu [Hcode Hbal]]]].
    go_call Hu. cbn [fst snd].
    destruct (String.eqb (Str.upper c) "USD") eqn:Ec;
      [apply String.eqb_eq in Ec; congruence|].
    unfold next at 1. unfold on_rates at 1. cbn [app_files app_rates].
    rewrite R. cbn [lift fst snd].
    unfold next at 1. unfold call at 1.
    unfold Wallet.withdraw. rewrite (positive_runs amount "amount" Ha).
    cbn [lift and_then]. rewrite Hfunds. reflexivity.
Qed.

(** X24.  Buying USD is a deposit.  When [buy] of the code USD returns, no
    rate was looked up (the rate state is untouched), the reported rate is
    one, there is no cost, and in the stored portfolio the USD balance went
    up by the amount while every other wallet is as it was. *)
Theorem buy_usd_is_deposit now uid c amount base app t app' :
  buy ttl now uid c amount base app = (Return t, app') ->
  Str.upper c = "USD" ->
  app_rates app' = app_rates app
  /\ t_rate t = 1%float /\ t_cost_usd t = None
  /\ exists p f1 p',
       load_portfolio uid (app_files app) = (Return p, f1)
       /\ load_portfolio uid (app_files app') = (Return p', app_files app')
       /\ held p' "USD" = Some (or_zero (held p "USD") + amount)%float
       /\ (forall k, k <> "USD" -> held p' k = held p k).
Proof.
  unfold buy. intros H Hc_usd.
  io_call H (Utils.validate_currency_code c) ipattern:([[]|e]) Hv; [|io_stop H].
  io_call H (UtilsMore.ensure_float_positive amount "amount") ipattern:([a|e]) Ha;
    [|io_stop H].
  io_call H (Currencies.get_currency c) ipattern:([cur|e]) Hc; [|io_stop H].
  unfold next at 1 in H. unfold on_files at 1 in H.
  destruct (load_portfolio uid (app_files app)) as [[p|e] f1] eqn:L;
    cbn [app_files app_rates] in H; [|io_stop H].
  destruct (load_portfolio_ok _ _ _ _ L) as [Hok Hid].
  io_call H (wallet_or_add p "USD") ipattern:([[[ku usd] p1]|e]) Hu; [|io_stop H].
  cbn [fst snd] in H.
  destruct (wallet_or_add_spec _ _ _ _ _ Hok Hu)
    as [Hok1 [Hid1 [Gu [Hku [Hrest1 _]]]]].
  assert (ku = "USD") as -> by (destruct Hku as [-> | ->]; reflexivity).
  pose proof (wallet_or_add_balance _ _ _ _ _ Hok Hu) as Hbal_usd.
  pose proof (held_wallet_ok _ _ _ Hok1 Gu) as Husd.
  rewrite Hc_usd in H. cbn [String.eqb Ascii.eqb Bool.eqb] in H.
  io_call H (Wallet.deposit usd amount) ipattern:([usd'|e]) Hd; [|io_stop H].
  unfold next at 1 in H. unfold on_files at 1 in H.
  rewrite save_portfolio_runs in H. cbn [app_files app_rates] in H.
  unfold ret in H. injection H as <- <-.
  cbn [app_files app_rates t_rate t_cost_usd].
  set (pfinal := changed p1 "USD" usd').
  assert (Hokf : portfolio_ok pfinal).
  { apply (changed_ok _ _ usd); auto. now apply (deposit_keeps_ok _ usd amount). }
  assert (Hidf : Portfolio._user_id pfinal = uid) by (simpl; congruence).
  apply deposit_inv in Hd. destruct Hd as [Husd_eq _].
  repeat split. exists p, f1, pfinal.
  split; [reflexivity|]. split; [exact (load_after_save uid f1 pfinal Hokf Hidf)|].
  split.
  - subst pfinal. rewrite held_changed. simpl. rewrite Husd_eq. simpl.
    now rewrite Hbal_usd.
  - intros k Hk. subst pfinal. rewrite held_changed.
    destruct (String.eqb "USD" k) eqn:E.
    + apply String.eqb_eq in E. congruence.
    + now rewrite (held_get _ _ _ (Hrest1 k Hk)).
Qed.

(** Arithmetic and comparisons with a NaN. *)
Lemma mul_nan_l r : (nan * r)%float = nan.
Proof. apply Prim2SF_inj. rewrite mul_spec. reflexivity. Qed.

Lemma sub_nan_r x : (x - nan)%float = nan.
Proof.
  apply Prim2SF_inj. rewrite sub_spec.
  change (Prim2SF nan) with S754_nan. now destruct (Prim2SF x).
Qed.

Lemma add_nan_r x : (x + nan)%float = nan.
Proof.
  apply Prim2SF_inj. rewrite add_spec.
  change (Prim2SF nan) with S754_nan. now destruct (Prim2SF x).
Qed.

Lemma ltb_nan_r x : (x <? nan)%float = false.
Proof.
  rewrite ltb_spec. change (Prim2SF nan) with S754_nan.
  unfold SFltb. now destruct (Prim2SF x).
Qed.

Lemma ltb_nan_l x : (nan <? x)%float = false.
Proof. rewrite ltb_spec. reflexivity. Qed.

(** X25.  A NaN amount is not refused.  [ensure_float_positive] only
    rejects [v <= 0], which is false for a NaN.  For a supported code other
    than USD whose rate resolves, [buy] of a NaN amount returns, reports a
    NaN cost, and stores a NaN as the USD balance of the user; and no
    withdrawal from a wallet whose balance is a NaN ever raises
    [InsufficientFundsError]. *)
Theorem buy_nan_amount now uid c base app p f1 ru uc :
  supported c -> Str.upper c <> "USD" ->
  load_portfolio uid (app_files app) = (Return p, f1) ->
  UseCases._get_pair_rate ttl now (Str.upper c) "USD" (app_rates app)
  = (Ok ru, uc) ->
  (exists t f' p',
     buy ttl now uid c nan base app = (Return t, mk_App uc f')
     /\ t_cost_usd t = Some nan
     /\ load_portfolio uid f' = (Return p', f')
     /\ held p' "USD" = Some nan)
  /\ (forall w a available required code,
        Wallet.balance w = nan ->
        Wallet.withdraw w a <> Throw (InsufficientFundsError available required code)).
Proof.
  intros [Hv [cur Hc]] Hne L R. split.
  - destruct (load_portfolio_ok _ _ _ _ L) as [Hok Hid].
    destruct (usd_wallet p Hok) as [usd [p1 [Hu [Hcode Hbal]]]].
    destruct (wallet_or_add_spec _ _ _ _ _ Hok Hu)
      as [Hok1 [Hid1 [Gu _]]].
    pose proof (held_wallet_ok _ _ _ Hok1 Gu) as Husd.
    set (usd' := Wallet.mk (Wallet.currency_code usd) nan).
    assert (Hw : Wallet.withdraw usd (nan * fst ru) = Return usd').
    { unfold Wallet.withdraw, UtilsMore.ensure_float_positive, Wallet.set_balance.
      rewrite mul_nan_l. cbn [lift and_then].
      change (nan <=? 0)%float with false. cbn [lift and_then].
      rewrite ltb_nan_r, sub_nan_r. reflexivity. }
    pose proof (withdraw_keeps_ok _ _ _ _ Husd Hw) as Husd'.
    pose proof (changed_ok _ _ _ _ Hok1 Gu Husd') as Hok2.
    assert (Hvu : Utils.validate_currency_code (Str.upper c) = Ok tt)
      by now rewrite validate_upper.
    assert (Hx : exists key w p2,
               wallet_or_add (changed p1 "USD" usd') (Str.upper c) = Ok (key, w, p2)).
    { unfold wallet_or_add.
      destruct (Portfolio.get_wallet _ (Str.upper c)); [repeat eexists|].
      rewrite (add_currency_runs _ _ Hvu).
      destruct (PyDict.get (Str.upper (Str.upper c)) _); simpl; repeat eexists. }
    destruct Hx as [key [w [p2 Hx]]].
    destruct (wallet_or_add_spec _ _ _ _ _ Hok2 Hx)
      as [Hok3 [Hid3 [Gw [Hkey [Hrest3 _]]]]].
    pose proof (held_wallet_ok _ _ _ Hok3 Gw) as Hwok.
    set (w' := Wallet.mk (Wallet.currency_code w) nan).
    assert (Hd : Wallet.deposit w nan = Ok w').
    { unfold Wallet.deposit, UtilsMore.ensure_float_positive, Wallet.set_balance, bind.
      change (nan <=? 0)%float with false. cbv iota.
      rewrite add_nan_r. reflexivity. }
    set (pfinal := changed p2 key w').
    assert (Hokf : portfolio_ok pfinal).
    { apply (changed_ok _ _ w); auto. now apply (deposit_keeps_ok _ w nan). }
    assert (Hidf : Portfolio._user_id pfinal = uid).
    { simpl. simpl in Hid3. congruence. }
    eexists. eexists. exists pfinal. split; [|split; [|split]].
    + unfold buy. go_call Hv. go_call (positive_runs nan "amount" eq_refl).
      go_call Hc.
      unfold next at 1. unfold on_files at 1. rewrite L. cbn [app_files app_rates].
      go_call Hu. cbn [fst snd].
      destruct (String.eqb (Str.upper c) "USD") eqn:Ec;
        [apply String.eqb_eq in Ec; congruence|].
      unfold next at 1. unfold on_rates at 1. cbn [app_files app_rates].
      rewrite R. cbn [lift fst snd].
      unfold next at 1. unfold call at 1. rewrite Hw.
      go_call Hx. cbn [fst snd]. go_call Hd.
      unfold next at 1. unfold on_files at 1.
      rewrite save_portfolio_runs. cbn [app_files app_rates].
      unfold ret. reflexivity.
    + cbn [t_cost_usd]. now rewrite mul_nan_l.
    + exact (load_after_save uid f1 pfinal Hokf Hidf).
    + subst pfinal. rewrite held_changed.
      destruct (String.eqb key "USD") eqn:Ek; [reflexivity|].
      apply String.eqb_neq in Ek.
      rewrite (held_get _ _ _ (Hrest3 "USD" (not_eq_sym Ek))).
      rewrite held_changed. reflexivity.
  - intros w a available required code Hnan.
    unfold Wallet.withdraw, Wallet.set_balance.
    destruct (UtilsMore.ensure_float_positive a "amount") as [v|e] eqn:E;
      cbn [lift and_then]; [|discriminate].
    rewrite Hnan, ltb_nan_l. destruct (nan - a <? 0)%float; discriminate.
Qed.

(* ----------------------------------------------------------------- *)
(** ** Showing a portfolio *)

Lemma insert_item_perm {V : Type} (kv : string * V) l :
  Permutation (insert_item kv l) (kv :: l).
Proof.
  induction l as [|x r IH]; simpl; [reflexivity|].
  destruct (String.leb (fst kv) (fst x)); [reflexivity|].
  rewrite IH. apply perm_swap.
Qed.

Lemma sorted_items_perm {V : Type} (d : PyDict.t V) :
  Permutation (sorted_items d) d.
Proof.
  induction d as [|x r IH]; simpl; [reflexivity|].
  rewrite insert_item_perm. now constructor.
Qed.

Lemma insert_item_sorted {V : Type} (kv : string * V) l :
  Sorted (fun a b => code_le (fst a) (fst b)) l ->
  Sorted (fun a b => code_le (fst a) (fst b)) (insert_item kv l).
Proof.
  induction l as [|x r IH]; simpl; intros Hs.
  - repeat constructor.
  - destruct (String.leb (fst kv) (fst x)) eqn:E.
    + constructor; auto.
    + inversion Hs as [|? ? Hr Hhd]; subst.
      assert (Hx : code_le (fst x) (fst kv)).
      { unfold code_le. destruct (String.leb_total (fst kv) (fst x)); congruence. }
      constructor; auto.
      destruct r as [|y r']; simpl.
      * repeat constructor. exact Hx.
      * destruct (String.leb (fst kv) (fst y)); constructor; auto.
        now inversion Hhd.
Qed.

Lemma sorted_items_sorted {V : Type} (d : PyDict.t V) :
  Sorted (fun a b => code_le (fst a) (fst b)) (sorted_items d).
Proof.
  induction d as [|x r IH]; simpl; [constructor|]. now apply insert_item_sorted.
Qed.

Lemma sorted_codes {V : Type} (l : list (string * V)) :
  Sorted (fun a b => code_le (fst a) (fst b)) l -> Sorted code_le (map fst l).
Proof.
  induction 1 as [|x l Hl IH Hhd]; simpl; constructor; auto.
  destruct Hhd; simpl; constructor; auto.
Qed.

Lemma convert_db now amount from_code to_code uc :
  UseCases.uc_db (snd (UseCases._convert_amount ttl now amount from_code to_code uc))
  = UseCases.uc_db uc.
Proof.
  unfold UseCases._convert_amount.
  destruct (String.eqb (Str.upper from_code) (Str.upper to_code)); [reflexivity|].
  pose proof (lookup_db now from_code to_code uc) as H.
  destruct (UseCases._get_pair_rate ttl now from_code to_code uc) as [[[r upd]|e] uc'];
    exact H.
Qed.

Lemma show_rows_spec now base items : forall rows total app rows' total' app',
  show_rows ttl now base items rows total app = (Return (rows', total'), app') ->
  app_files app' = app_files app
  /\ UseCases.uc_db (app_rates app') = UseCases.uc_db (app_rates app)
  /\ exists added,
       rows' = rows ++ added
       /\ map row_code added = map fst items
       /\ map row_balance added = map (fun kw => Wallet.balance (snd kw)) items
       /\ total' = fold_left (fun t r => (t + row_value r)%float) added total.
Proof.
  induction items as [|[code w] rest IH]; intros rows total app rows' total' app';
    cbn [show_rows].
  - unfold ret. intros [= <- <- <-]. repeat split. exists [].
    rewrite app_nil_r. repeat split.
  - intros H. unfold next at 1 in H. unfold on_rates at 1 in H.
    pose proof (convert_db (now code) (Wallet.balance w) code base (app_rates app))
      as Hdb.
    destruct (UseCases._convert_amount ttl (now code) (Wallet.balance w) code base
                (app_rates app)) as [[value|e] uc];
      cbn [lift snd] in H, Hdb; [|discriminate H].
    apply IH in H. cbn [app_files app_rates] in H.
    destruct H as [Hf [Hr [added [-> [Hc [Hb ->]]]]]].
    split; [exact Hf|]. split; [congruence|].
    exists (mk_Row code (Wallet.balance w) value :: added).
    rewrite <- app_assoc. simpl. rewrite Hc, Hb. repeat split.
Qed.

(** X26.  The rows of [show_portfolio].  When it returns, the account
    files are as [load_portfolio] left them and the rate files are
    untouched; the result is flagged empty exactly when the portfolio holds
    no wallet; there is one row per wallet, with the wallet's code and
    balance, the rows are in the order of the codes, and the total is the
    sum of the row values taken in that order, starting from zero. *)
Theorem show_portfolio_rows now uid base app sh app' :
  show_portfolio ttl now uid base app = (Return sh, app') ->
  exists p,
    load_portfolio uid (app_files app) = (Return p, app_files app')
    /\ UseCases.uc_db (app_rates app') = UseCases.uc_db (app_rates app)
    /\ sp_base sh = base
    /\ (sp_empty sh = true <-> Portfolio._wallets p = [])
    /\ Permutation
         (map (fun r => (row_code r, row_balance r)) (sp_rows sh))
         (map (fun kw => (fst kw, Wallet.balance (snd kw))) (Portfolio._wallets p))
    /\ Sorted code_le (map row_code (sp_rows sh))
    /\ sp_total sh
       = fold_left (fun t r => (t + row_value r)%float) (sp_rows sh) 0%float.
Proof.
  unfold show_portfolio. intros H.
  io_call H (Utils.validate_currency_code base) ipattern:([[]|e]) Hv; [|io_stop H].
  io_call H (Currencies.get_currency base) ipattern:([cur|e]) Hc; [|io_stop H].
  unfold next at 1 in H. unfold on_files at 1 in H.
  destruct (load_portfolio uid (app_files app)) as [[p|e] f1] eqn:L;
    cbn [app_files app_rates] in H; [|io_stop H].
  exists p. unfold Portfolio.wallets in H.
  destruct (Portfolio._wallets p) as [|kw r] eqn:W.
  - unfold ret in H. injection H as <- <-. cbn.
    repeat split; auto; constructor.
  - unfold next at 1 in H.
    destruct (show_rows ttl now base (sorted_items (kw :: r)) [] 0
                {| app_rates := app_rates app; app_files := f1 |})
      as [[[rows total]|e] app1] eqn:S; [|io_stop H].
    unfold ret in H. injection H as <- <-. cbn [fst snd sp_base sp_empty sp_rows sp_total].
    apply show_rows_spec in S. cbn [app_files app_rates] in S.
    destruct S as [Hf [Hr [added [-> [Hcodes [Hbals ->]]]]]]. cbn [List.app].
    split; [now rewrite Hf|]. split; [exact Hr|]. split; [reflexivity|].
    split; [split; discriminate|].
    assert (Hrows : map (fun r0 => (row_code r0, row_balance r0)) added
                    = map (fun kw0 => (fst kw0, Wallet.balance (snd kw0)))
                        (sorted_items (kw :: r))).
    { clear - Hcodes Hbals. revert Hcodes Hbals.
      generalize (sorted_items (kw :: r)). induction added as [|x a IH];
        intros [|y l]; simpl; try discriminate; auto.
      intros [= Hc Hcs] [= Hb Hbs]. f_equal; auto. congruence. }
    split; [|split; [|reflexivity]].
    + rewrite Hrows. apply Permutation_map. apply sorted_items_perm.
    + rewrite Hcodes.
      apply sorted_codes. apply sorted_items_sorted.
Qed.

End TradeFacts.

(* ----------------------------------------------------------------- *)
(** ** Accounts: registration, login and the starting balance *)

Section AuthFacts.
Import Accounts CoreUseCases.
Context {RT : Runtime}.
Variable initial : float.

Lemma found_has_id f uid d k :
  get_portfolio f uid = Some d -> pd_user_id d = Some k -> k = uid.
Proof.
  intros G Hk. apply find_holds in G. rewrite Hk in G. cbn [id_or_minus_one] in G.
  now apply Z.eqb_eq in G.
Qed.

(** The document [_ensure_initial_usd] works on carries the user id, unless
    the id is [-1] and a stored document without an id was taken for it. *)
Lemma found_or_id f uid :
  uid <> -1 ->
  pd_user_id (found_or (get_portfolio f uid) (mk_PortfolioDoc (Some uid) (Some [])))
  = Some uid.
Proof.
  intros Hne. destruct (get_portfolio f uid) as [d|] eqn:G; simpl; auto.
  destruct (pd_user_id d) as [k|] eqn:Hk.
  - rewrite Hk. f_equal. now apply (found_has_id f uid d).
  - exfalso. apply find_holds in G. rewrite Hk in G. cbn [id_or_minus_one] in G.
    apply Z.eqb_eq in G. congruence.
Qed.

Lemma ensure_runs uid f :
  uid <> -1 ->
  exists f',
    _ensure_initial_usd initial uid f = (Return tt, f')
    /\ users_json f' = users_json f
    /\ session_json f' = session_json f
    /\ (forall other, other <> uid -> get_portfolio f' other = get_portfolio f other).
Proof.
  intros Hne. unfold _ensure_initial_usd, next, reading.
  pose proof (found_or_id f uid Hne) as Hid.
  set (p := found_or (get_portfolio f uid) (mk_PortfolioDoc (Some uid) (Some []))) in *.
  destruct (andb _ _).
  - unfold upsert, upsert_portfolio. cbn [pd_user_id]. rewrite Hid.
    eexists. split; [reflexivity|].
    repeat split. intros other Ho.
    now apply (get_other_after_upsert f (mk_PortfolioDoc (Some uid) _) uid other eq_refl).
  - exists f. unfold ret. auto.
Qed.

(** X27.  The starting balance is granted once.  Running
    [_ensure_initial_usd] again changes nothing and gives the same result.
    When the stored portfolio of the user has a USD wallet, whatever its
    balance, or when the configured balance is not positive, nothing is
    written.  Otherwise the stored portfolio gains a USD wallet with the
    configured balance behind the wallets it had. *)
Theorem ensure_initial_usd_once uid f :
  let r := _ensure_initial_usd initial uid f in
  _ensure_initial_usd initial uid (snd r) = r
  /\ ((0 <? initial)%float = false -> r = (Return tt, f))
  /\ (forall d ws,
        get_portfolio f uid = Some d -> pd_wallets d = Some ws ->
        PyDict.mem "USD" ws = true -> r = (Return tt, f))
  /\ (forall d k ws,
        get_portfolio f uid = Some d -> pd_user_id d = Some k ->
        pd_wallets d = Some ws -> PyDict.mem "USD" ws = false ->
        (0 <? initial)%float = true ->
        fst r = Return tt
        /\ get_portfolio (snd r) uid
           = Some (mk_PortfolioDoc (Some k) (Some (ws ++ [("USD", Some initial)])))).
Proof.
  cbv zeta. split; [|split; [|split]].
  - unfold _ensure_initial_usd at 2 3. unfold next, reading.
    set (p := found_or (get_portfolio f uid) (mk_PortfolioDoc (Some uid) (Some []))).
    set (ws := match pd_wallets p with Some w => w | None => [] end).
    destruct (andb (negb (PyDict.mem "USD" ws)) (0 <? initial)%float) eqn:E.
    + unfold upsert, upsert_portfolio. cbn [pd_user_id].
      destruct (pd_user_id p) as [k|] eqn:Hk.
      * cbn [snd].
        assert (Hku : k = uid).
        { subst p. destruct (get_portfolio f uid) as [d|] eqn:G; simpl in Hk.
          - destruct (pd_user_id d) as [k'|] eqn:Hd.
            + rewrite Hd in Hk. injection Hk as <-. now apply (found_has_id f uid d).
            + destruct (pd_wallets d);
                [rewrite Hd in Hk; discriminate | simpl in Hk; congruence].
          - congruence. }
        subst k.
        set (p' := mk_PortfolioDoc (Some uid) (Some (PyDict.set "USD" (Some initial) ws))).
        unfold _ensure_initial_usd, next, reading.
        rewrite (get_after_upsert f p' uid eq_refl). subst p'.
        cbn [found_or pd_user_id pd_wallets].
        unfold PyDict.mem. rewrite PyDictFacts.get_set_same. reflexivity.
      * cbn [snd]. unfold _ensure_initial_usd, next, reading.
        fold p. fold ws. rewrite E. unfold upsert, upsert_portfolio.
        cbn [pd_user_id]. now rewrite Hk.
    + unfold ret. cbn [snd]. unfold _ensure_initial_usd, next, reading.
      fold p. fold ws. now rewrite E.
  - intros Hi. unfold _ensure_initial_usd, next, reading. rewrite Hi.
    now rewrite andb_false_r.
  - intros d ws G Hw Hm. unfold _ensure_initial_usd, next, reading. rewrite G.
    unfold found_or. rewrite Hw.
    destruct (pd_user_id d); rewrite Hw, Hm; reflexivity.
  - intros d k ws G Hk Hw Hm Hi. unfold _ensure_initial_usd, next, reading.
    rewrite G. unfold found_or. rewrite Hk, Hw, Hm, Hi. cbn [negb andb].
    pose proof (found_has_id f uid d k G Hk) as ->.
    unfold upsert, upsert_portfolio. cbn [pd_user_id]. rewrite Hk. cbn [fst snd].
    split; [reflexivity|].
    rewrite (get_after_upsert f
               (mk_PortfolioDoc (Some uid) (Some (PyDict.set "USD" (Some initial) ws)))
               uid eq_refl).
    unfold PyDict.mem in Hm.
    destruct (PyDict.get "USD" ws) eqn:Gu; [discriminate|].
    now rewrite (set_absent_app _ _ _ Gu).
Qed.

Lemma user_init_inv uid uname hashed salt dt u :
  User.init uid uname hashed salt dt = Ok u ->
  0 < uid
  /\ UtilsMore.validate_non_empty uname "username" = Ok tt
  /\ UtilsMore.validate_non_empty hashed "hashed_password" = Ok tt
  /\ UtilsMore.validate_non_empty salt "salt" = Ok tt
  /\ u = User.mk uid uname hashed salt dt.
Proof.
  unfold User.init, bind. destruct (uid <=? 0) eqn:E; [discriminate|].
  apply Z.leb_gt in E.
  destruct (UtilsMore.validate_non_empty uname "username") as [[]|]; [|discriminate].
  destruct (UtilsMore.validate_non_empty hashed "hashed_password") as [[]|];
    [|discriminate].
  destruct (UtilsMore.validate_non_empty salt "salt") as [[]|]; [|discriminate].
  intros [= <-]. auto.
Qed.

Lemma user_init_runs uid uname hashed salt dt :
  0 < uid ->
  UtilsMore.validate_non_empty uname "username" = Ok tt ->
  UtilsMore.validate_non_empty hashed "hashed_password" = Ok tt ->
  UtilsMore.validate_non_empty salt "salt" = Ok tt ->
  User.init uid uname hashed salt dt = Ok (User.mk uid uname hashed salt dt).
Proof.
  intros Hid H1 H2 H3. unfold User.init, bind.
  assert ((uid <=? 0) = false) as -> by (apply Z.leb_gt; lia).
  now rewrite H1, H2, H3.
Qed.

Lemma verify_true u password :
  User.verify_password u password = Ok true ->
  SHA256.hexdigest (String.append password (User._salt u)) = User._hashed_password u.
Proof.
  unfold User.verify_password, User._hash_password, bind.
  destruct (UtilsMore.validate_non_empty password "password") as [[]|[]];
    try discriminate.
  destruct (Nat.ltb (String.length password) 4); [discriminate|].
  intros [= H]. now apply String.eqb_eq.
Qed.

Lemma verify_runs u password :
  exists b, User.verify_password u password = Ok b.
Proof.
  unfold User.verify_password, User._hash_password, bind.
  unfold UtilsMore.validate_non_empty.
  destruct (String.eqb (Str.strip password) EmptyString); [eauto|].
  destruct (Nat.ltb (String.length password) 4); eauto.
Qed.

Lemma login_inv username password f msg f' :
  login initial username password f = (Return msg, f') ->
  msg = cat ["Вы вошли как '"; username; "'"]
  /\ exists d uid,
       find_user_by_username f username = Some d
       /\ ud_user_id d = Some uid
       /\ ud_username d = Some (Str.strip username)
       /\ 0 < uid
       /\ SHA256.hexdigest (String.append password (ud_salt d)) = ud_hashed_password d
       /\ _ensure_initial_usd initial uid
            (set_session f (mk_SessionDoc uid (Str.strip username)))
          = (Return tt, f').
Proof.
  unfold login. intros H.
  io_call H (UtilsMore.validate_non_empty username "username") ipattern:([[]|e]) Hu;
    [|io_stop H].
  io_call H (UtilsMore.validate_non_empty password "password") ipattern:([[]|e]) Hp;
    [|io_stop H].
  unfold next at 1 in H. unfold reading at 1 in H.
  destruct (find_user_by_username f username) as [d|] eqn:F; [|io_stop H].
  assert (Hname : ud_username d = Some (Str.strip username)).
  { unfold find_user_by_username in F. apply find_holds in F.
    destruct (ud_username d) as [n|]; simpl in F; [|discriminate].
    apply String.eqb_eq in F. now subst. }
  unfold next at 1 in H. unfold call at 1 in H.
  destruct (User.from_dict d) as [user|e] eqn:Hfd; [|io_stop H].
  unfold User.from_dict in Hfd. rewrite Hname in Hfd.
  destruct (ud_user_id d) as [uid|] eqn:Hid; [|discriminate].
  destruct (Utils.parse_dt (ud_registration_date d)) as [dt|]; simpl in Hfd;
    [|discriminate].
  destruct (User.init uid (Str.strip username) (ud_hashed_password d) (ud_salt d) dt)
    as [u0|] eqn:Hinit; simpl in Hfd; [|discriminate].
  injection Hfd as <-.
  apply user_init_inv in Hinit. destruct Hinit as [Hpos [_ [_ [_ ->]]]].
  io_call H (User.verify_password
               (User.mk uid (Str.strip username) (ud_hashed_password d) (ud_salt d) dt)
               password) ipattern:([[|]|e]) Hver; try io_stop H.
  cbn [negb] in H. apply verify_true in Hver. cbn [User._salt User._hashed_password] in Hver.
  unfold next at 1 in H. unfold writing at 1 in H.
  cbn [User._user_id User._username] in H.
  unfold next at 1 in H.
  destruct (_ensure_initial_usd initial uid
              (set_session f (mk_SessionDoc uid (Str.strip username))))
    as [[[]|e] f2] eqn:He; [|io_stop H].
  unfold ret in H. injection H as <- <-.
  split; [reflexivity|]. exists d, uid. repeat split; auto.
Qed.

Lemma login_throw username password f e f' :
  login initial username password f = (Throw e, f') -> f' = f.
Proof.
  unfold login. intros H.
  io_call H (UtilsMore.validate_non_empty username "username") ipattern:([[]|e1]) Hu;
    [|now injection H as _ <-].
  io_call H (UtilsMore.validate_non_empty password "password") ipattern:([[]|e1]) Hp;
    [|now injection H as _ <-].
  unfold next at 1 in H. unfold reading at 1 in H.
  destruct (find_user_by_username f username) as [d|] eqn:F;
    [|unfold throw in H; now injection H as _ <-].
  unfold next at 1 in H. unfold call at 1 in H.
  destruct (User.from_dict d) as [user|e1] eqn:Hfd; [|now injection H as _ <-].
  assert (Hpos : 0 < User._user_id user).
  { unfold User.from_dict in Hfd.
    destruct (ud_user_id d) as [uid|]; [|discriminate].
    destruct (ud_username d) as [n|]; [|discriminate].
    destruct (Utils.parse_dt (ud_registration_date d)) as [dt|]; simpl in Hfd;
      [|discriminate].
    destruct (User.init uid n (ud_hashed_password d) (ud_salt d) dt) as [u0|] eqn:Hi;
      simpl in Hfd; [|discriminate].
    injection Hfd as <-. apply user_init_inv in Hi.
    destruct Hi as [Hpos [_ [_ [_ ->]]]]. exact Hpos. }
  destruct (verify_runs user password) as [b Hb].
  io_call H (User.verify_password user password) ipattern:([b'|e1]) Hver;
    [|discriminate Hb].
  destruct b'; cbn [negb] in H; [|unfold throw in H; now injection H as _ <-].
  unfold next at 1 in H. unfold writing at 1 in H.
  unfold next at 1 in H.
  destruct (ensure_runs (User._user_id user)
              (set_session f (mk_SessionDoc (User._user_id user) (User._username user))))
    as [f2 [He _]]; [lia|].
  rewrite He in H. unfold ret in H. discriminate H.
Qed.

(** X28.  What [login] does.  A login that raises leaves every file as it
    was: no session is opened.  A login that returns found a stored user
    under the stripped name, whose id is positive and whose stored hash is
    the SHA-256 of the password followed by the stored salt; the session
    then names that user, the users file is unchanged, and the only other
    write is the one of [_ensure_initial_usd]. *)
Theorem login_outcome username password f :
  match login initial username password f with
  | (Throw _, f') => f' = f
  | (Return msg, f') =>
      msg = cat ["Вы вошли как '"; username; "'"]
      /\ exists d uid,
           find_user_by_username f username = Some d
           /\ ud_user_id d = Some uid
           /\ ud_username d = Some (Str.strip username)
           /\ 0 < uid
           /\ SHA256.hexdigest (String.append password (ud_salt d))
              = ud_hashed_password d
           /\ current_user f' = Some (mk_SessionDoc uid (Str.strip username))
           /\ users_json f' = users_json f
           /\ f' = snd (_ensure_initial_usd initial uid
                          (set_session f (mk_SessionDoc uid (Str.strip username))))
  end.
Proof.
  destruct (login initial username password f) as [[msg|e] f'] eqn:H.
  - apply login_inv in H. destruct H as [-> [d [uid [F [Hid [Hn [Hpos [Hh He]]]]]]]].
    split; [reflexivity|]. exists d, uid.
    destruct (ensure_runs uid (set_session f (mk_SessionDoc uid (Str.strip username))))
      as [f2 [He2 [Hu [Hs _]]]]; [lia|].
    rewrite He in He2. injection He2 as <-.
    repeat split; auto.
    + unfold current_user, get_session. rewrite Hs. simpl.
      assert ((uid =? 0) = false) as -> by (apply Z.eqb_neq; lia). reflexivity.
    + now rewrite He.
  - now apply login_throw in H.
Qed.

Lemma register_inv username password salt utc_now f msg f1 :
  register username password salt utc_now f = (Return msg, f1) ->
  exists uid,
    UtilsMore.validate_non_empty username "username" = Ok tt
    /\ UtilsMore.validate_non_empty password "password" = Ok tt
    /\ Nat.ltb (String.length password) 4 = false
    /\ find_user_by_username f username = None
    /\ next_user_id f = Return uid
    /\ 0 < uid
    /\ UtilsMore.validate_non_empty
         (SHA256.hexdigest (String.append password salt)) "hashed_password" = Ok tt
    /\ UtilsMore.validate_non_empty salt "salt" = Ok tt
    /\ f1 = save_portfolios
              (append_user f (new_user_doc uid username password salt utc_now))
              (upsert_in uid (mk_PortfolioDoc (Some uid) (Some []))
                 (list_portfolios f)).
Proof.
  unfold register. intros H.
  io_call H (UtilsMore.validate_non_empty username "username") ipattern:([[]|e]) Hu;
    [|io_stop H].
  io_call H (UtilsMore.validate_non_empty password "password") ipattern:([[]|e]) Hp;
    [|io_stop H].
  destruct (Nat.ltb (String.length password) 4) eqn:Hlen; [io_stop H|].
  unfold next at 1 in H. unfold reading at 1 in H.
  destruct (find_user_by_username f username) as [d|] eqn:F; [io_stop H|].
  unfold next at 1 in H. unfold running at 1 in H.
  destruct (next_user_id f) as [uid|e] eqn:Hn; [|io_stop H].
  io_call H (User.init uid username (SHA256.hexdigest (String.append password salt))
               salt
               (mk_datetime (dt_aware utc_now)
                  (dt_micros utc_now - dt_micros utc_now mod 1000000)))
    ipattern:([user|e]) Hi; [|io_stop H].
  apply user_init_inv in Hi. destruct Hi as [Hpos [_ [Hh [Hs ->]]]].
  unfold next at 1 in H. unfold writing at 1 in H.
  unfold next at 1 in H.
  rewrite (upsert_runs _ (mk_PortfolioDoc (Some uid) (Some [])) uid eq_refl) in H.
  unfold ret in H. injection H as _ <-.
  exists uid. repeat split; auto.
Qed.

Lemma find_app_none {A : Type} (q : A -> bool) l x :
  find q l = None -> find q (l ++ [x]) = if q x then Some x else None.
Proof.
  induction l as [|y r IH]; simpl; [reflexivity|].
  destruct (q y); [discriminate | exact IH].
Qed.

(** X29.  Registration, then login.  After a [register] that returned, for
    a name without surrounding white space and a registration date that
    reads back from its stored text, [login] with the same name and
    password returns: the session names the new user, whose id is the one
    [next_user_id] gave, and the users file is as [register] left it. *)
Theorem register_then_login username password salt utc_now f msg f1 :
  register username password salt utc_now f = (Return msg, f1) ->
  Str.strip username = username ->
  is_ok (Utils.parse_dt (Utils.isoformat_dt (whole_seconds utc_now))) = true ->
  exists uid f2,
    next_user_id f = Return uid
    /\ login initial username password f1
       = (Return (cat ["Вы вошли как '"; username; "'"]), f2)
    /\ current_user f2 = Some (mk_SessionDoc uid username)
    /\ users_json f2 = users_json f1.
Proof.
  intros Hreg Hstrip Hdate.
  destruct (register_inv _ _ _ _ _ _ _ Hreg)
    as [uid [Hu [Hp [Hlen [F [Hn [Hpos [Hh [Hs ->]]]]]]]]].
  set (doc := new_user_doc uid username password salt utc_now).
  set (f1 := save_portfolios (append_user f doc) _).
  assert (F1 : find_user_by_username f1 username = Some doc).
  { unfold find_user_by_username in *. subst f1.
    unfold save_portfolios, append_user, save_users, list_users at 1. simpl.
    rewrite (find_app_none _ _ _ F). subst doc. unfold new_user_doc. simpl.
    now rewrite Hstrip, String.eqb_refl. }
  destruct (Utils.parse_dt (Utils.isoformat_dt (whole_seconds utc_now)))
    as [dt|] eqn:Hparse; [|discriminate].
  set (user := User.mk uid username
                 (SHA256.hexdigest (String.append password salt)) salt dt).
  assert (Hfd : User.from_dict doc = Return user).
  { subst doc. unfold new_user_doc, User.from_dict, User.to_dict. simpl.
    rewrite Hparse. simpl. now rewrite user_init_runs. }
  assert (Hver : User.verify_password user password = Ok true).
  { unfold User.verify_password, User._hash_password, bind. rewrite Hp, Hlen.
    subst user. cbn [User._salt User._hashed_password].
    now rewrite String.eqb_refl. }
  destruct (ensure_runs uid (set_session f1 (mk_SessionDoc uid username)))
    as [f2 [He [Hus [Hss _]]]]; [lia|].
  exists uid, f2. split; [exact Hn|]. split; [|split].
  - unfold login. go_call Hu. go_call Hp.
    unfold next at 1. unfold reading at 1. rewrite F1.
    unfold next at 1. unfold call at 1. rewrite Hfd.
    go_call Hver. cbn [negb].
    unfold next at 1. unfold writing at 1.
    unfold next at 1. subst user. cbn [User._user_id User._username].
    rewrite He. reflexivity.
  - unfold current_user, get_session. rewrite Hss. simpl.
    assert ((uid =? 0) = false) as -> by (apply Z.eqb_neq; lia). reflexivity.
  - now rewrite Hus.
Qed.

(** X30.  A name with surrounding white space.  [register] stores the name
    as given, [find_user_by_username] looks for the stripped name.  After a
    [register] that returned for a name that changes under [strip], the
    name is still not found: [login] with it raises [ValueError] for every
    password and opens no session, and the check that refuses a taken name
    lets the same name through again. *)
Theorem register_padded_name username password salt utc_now f msg f1 :
  register username password salt utc_now f = (Return msg, f1) ->
  Str.strip username <> username ->
  find_user_by_username f1 username = None
  /\ (exists uid, In (new_user_doc uid username password salt utc_now) (list_users f1))
  /\ (forall password', exists m,
        login initial username password' f1 = (Throw (Builtin (ValueError m)), f1)).
Proof.
  intros Hreg Hpad.
  destruct (register_inv _ _ _ _ _ _ _ Hreg)
    as [uid [Hu [Hp [Hlen [F [Hn [Hpos [Hh [Hs ->]]]]]]]]].
  set (doc := new_user_doc uid username password salt utc_now).
  set (f1 := save_portfolios (append_user f doc) _).
  assert (F1 : find_user_by_username f1 username = None).
  { unfold find_user_by_username in *. subst f1.
    unfold save_portfolios, append_user, save_users, list_users at 1. simpl.
    rewrite (find_app_none _ _ _ F). subst doc. unfold new_user_doc. simpl.
    destruct (String.eqb username (Str.strip username)) eqn:E; [|reflexivity].
    apply String.eqb_eq in E. congruence. }
  split; [exact F1|]. split.
  - exists uid. subst f1.
    unfold save_portfolios, append_user, save_users, list_users at 1. simpl.
    apply in_or_app. right. now left.
  - intros password'. unfold login. go_call Hu.
    unfold next at 1. unfold call at 1.
    destruct (UtilsMore.validate_non_empty password' "password") as [[]|e] eqn:Hp';
      cbn [lift].
    + unfold next at 1. unfold reading at 1. rewrite F1. unfold throw. eauto.
    + unfold UtilsMore.validate_non_empty in Hp'.
      destruct (String.eqb (Str.strip password') EmptyString); [|discriminate].
      injection Hp' as <-. eauto.
Qed.

End AuthFacts.
(* ================================================================= *)
(** * Closed instances *)


Lemma supported_EUR : supported "EUR".
Proof. split; [reflexivity | eexists; reflexivity]. Qed.

Lemma supported_GBP : supported "GBP".
Proof. split; [reflexivity | eexists; reflexivity]. Qed.

Lemma payload_keys_NoDup : NoDup (PyDict.keys Sample.payload).
Proof.
  repeat constructor; simpl; intuition discriminate.
Qed.

(** C1, the claim as stated fails.  The stored timestamp has no UTC offset
    and the incoming one has it; both parse, the incoming one reads ten
    years older, and comparing them raises, so the incoming RatePoint
    replaces the stored one.  Starting from an empty snapshot, the two
    RatePoints end differently in the two orders: the last one applied
    stays. *)
Lemma merge_rule_unordered_timestamps :
  PyDict.get "EUR_USD" (pairs (Database.read_rates Sample.db_naive))
  = Some Sample.stored_naive
  /\ Utils.parse_dt (RT := iso_runtime) (updated_at Sample.incoming_aware)
     = Ok (mk_datetime true 1577836800000000)
  /\ Utils.parse_dt (RT := iso_runtime) (updated_at Sample.stored_naive)
     = Ok (mk_datetime false 1893456000000000)
  /\ PyDict.get "EUR_USD"
       (pairs (Database.read_rates
                 (Storage.write_snapshot (RT := iso_runtime) Sample.db_naive
                    [("EUR_USD", Sample.incoming_aware)] "2024-01-01T00:00:00Z")))
     = Some Sample.incoming_aware
  /\ PyDict.get "EUR_USD"
       (pairs (Database.read_rates
                 (Storage.write_snapshot (RT := iso_runtime)
                    (Storage.write_snapshot (RT := iso_runtime) Sample.db_empty
                       [("EUR_USD", Sample.stored_naive)] "t1")
                    [("EUR_USD", Sample.incoming_aware)] "t2")))
     = Some Sample.incoming_aware
  /\ PyDict.get "EUR_USD"
       (pairs (Database.read_rates
                 (Storage.write_snapshot (RT := iso_runtime)
                    (Storage.write_snapshot (RT := iso_runtime) Sample.db_empty
                       [("EUR_USD", Sample.incoming_aware)] "t2")
                    [("EUR_USD", Sample.stored_naive)] "t1")))
     = Some Sample.stored_naive.
Proof. repeat split; vm_compute; reflexivity. Qed.

(** The merge rule at the sample snapshot: the newer [EUR_USD] replaces the
    stored one, and two payloads one day apart end in the later RatePoint
    in either order. *)
Lemma write_snapshot_merge_rule_witness :
  PyDict.get "EUR_USD"
    (pairs (Database.read_rates
              (Storage.write_snapshot (RT := iso_runtime) Sample.db Sample.payload
                 "2024-01-02T00:00:05Z")))
  = Some (mk_RatePoint 1.125 "2024-01-02T00:00:00Z" "ExchangeRate-API")
  /\ PyDict.get "EUR_USD"
       (pairs (Database.read_rates
                 (Storage.write_snapshot (RT := iso_runtime)
                    (Storage.write_snapshot (RT := iso_runtime) Sample.db
                       [("EUR_USD", Sample.older)] "t1")
                    [("EUR_USD", Sample.newer)] "t2")))
     = PyDict.get "EUR_USD"
         (pairs (Database.read_rates
                   (Storage.write_snapshot (RT := iso_runtime)
                      (Storage.write_snapshot (RT := iso_runtime) Sample.db
                         [("EUR_USD", Sample.newer)] "t2")
                      [("EUR_USD", Sample.older)] "t1"))).
Proof.
  split.
  - exact (proj1 (write_snapshot_merge_rule (RT := iso_runtime))
             Sample.db Sample.payload "2024-01-02T00:00:05Z" "EUR_USD"
             (mk_RatePoint 1.125 "2024-01-02T00:00:00Z" "ExchangeRate-API")
             payload_keys_NoDup (or_introl eq_refl)).
  - refine (proj1 (proj2 (write_snapshot_merge_rule (RT := iso_runtime))
             Sample.db [("EUR_USD", Sample.older)] [("EUR_USD", Sample.newer)]
             "t1" "t2" "EUR_USD" Sample.older Sample.newer
             (mk_datetime true 1704153600000000) (mk_datetime true 1704240000000000)
             _ _ (or_introl eq_refl) (or_introl eq_refl) _ _ eq_refl _)).
    + repeat constructor; simpl; tauto.
    + repeat constructor; simpl; tauto.
    + vm_compute; reflexivity.
    + vm_compute; reflexivity.
    + simpl; lia.
Defined.

(** Idempotence at the sample snapshot and payload. *)
Lemma write_snapshot_idempotent_witness :
  Storage.write_snapshot (RT := iso_runtime)
    (Storage.write_snapshot (RT := iso_runtime) Sample.db Sample.payload
       "2024-01-02T00:00:05Z")
    Sample.payload "2024-01-02T00:00:05Z"
  = Storage.write_snapshot (RT := iso_runtime) Sample.db Sample.payload
      "2024-01-02T00:00:05Z".
Proof.
  apply (write_snapshot_idempotent (RT := iso_runtime)). exact payload_keys_NoDup.
Defined.

(** The frame at the sample snapshot: [BTC_USD] is not in the payload and
    keeps its RatePoint; [EUR_USD] is still a key. *)
Lemma write_snapshot_frame_witness :
  PyDict.get "BTC_USD"
    (pairs (Database.read_rates
              (Storage.write_snapshot (RT := iso_runtime) Sample.db Sample.payload
                 "2024-01-02T00:00:05Z")))
  = Some (mk_RatePoint 42000 "2024-01-01T00:00:00Z" "CoinGecko")
  /\ In "EUR_USD"
       (PyDict.keys
          (pairs (Database.read_rates
                    (Storage.write_snapshot (RT := iso_runtime) Sample.db Sample.payload
                       "2024-01-02T00:00:05Z")))).
Proof.
  destruct (write_snapshot_frame (RT := iso_runtime) Sample.db Sample.payload
              "2024-01-02T00:00:05Z") as [F [K _]].
  split.
  - rewrite F; [reflexivity|]. simpl. intuition discriminate.
  - apply K. simpl. auto.
Defined.

(** C4, the failing input.  [append_history] compares every entry with the
    ids the history held before the call only, so two entries of one call
    that share a new id are both appended: the history then holds two rows
    with one id. *)
Theorem append_history_repeated_id :
  Database.read_history
    (Database.append_history Sample.db [Sample.row; Sample.row])
  = [Sample.row; Sample.row]
  /\ Database.read_history
       (Database.append_history
          (Database.append_history Sample.db [Sample.row]) [Sample.row])
     = [Sample.row].
Proof. split; reflexivity. Qed.

(** Total failure with the two clients of the deployment, both failing. *)
Lemma run_update_total_failure_witness :
  Updater.run_update (RT := iso_runtime) Sample.cfg
    [Sample.rate_limited; Sample.no_key] "2024-01-02T00:00:05Z" Sample.db
  = (Raise (RuntimeError "No rates fetched from any source"), Sample.db).
Proof.
  apply (run_update_total_failure (RT := iso_runtime)).
  intros c [<- | [<- | []]]; reflexivity.
Defined.

(** C3, the claim as stated fails.  The exchange-rate client succeeds
    with an empty map (the provider reports only a zero) and the other
    client is rate limited: there is no report, [run_update] raises and
    writes nothing. *)
Lemma run_update_empty_success :
  Updater.fetch_result
    (exchange_rate_client (RT := iso_runtime) Sample.cfg Sample.only_zero_exchange
       empty_meta)
  = Ok []
  /\ client_error
       (exchange_rate_client (RT := iso_runtime) Sample.cfg Sample.only_zero_exchange
          empty_meta)
     = None
  /\ client_error Sample.rate_limited
     = Some (ApiRequestError "CoinGecko: 429 Too Many Requests (лимит запросов)")
  /\ Updater.run_update (RT := iso_runtime) Sample.cfg
       [Sample.rate_limited;
        exchange_rate_client (RT := iso_runtime) Sample.cfg Sample.only_zero_exchange
          empty_meta]
       "2024-01-02T00:00:05Z" Sample.db
     = (Raise (RuntimeError "No rates fetched from any source"), Sample.db).
Proof. repeat split; vm_compute; reflexivity. Qed.

(** Partial failure: one client fetches two pairs, the other is rate
    limited.  The report has [ok = false] and [total = 2], marks the failed
    client with its error, and both pairs are in the snapshot. *)
Lemma run_update_partial_failure_witness :
  exists report db',
    Updater.run_update (RT := iso_runtime) Sample.cfg
      [Sample.fiat_ok; Sample.rate_limited] "2024-01-02T00:00:05Z" Sample.db
    = (Ok report, db')
    /\ Updater.total report = 2
    /\ Updater.ok report = false
    /\ PyDict.get "CoinGeckoClient" (Updater.sources report)
       = Some (Updater.SourceFailed "CoinGecko: 429 Too Many Requests (лимит запросов)")
    /\ In "EUR_USD" (PyDict.keys (pairs (Database.read_rates db')))
    /\ In "GBP_USD" (PyDict.keys (pairs (Database.read_rates db'))).
Proof.
  destruct (run_update_partial_failure (RT := iso_runtime) Sample.cfg
              "2024-01-02T00:00:05Z" [Sample.fiat_ok; Sample.rate_limited] Sample.db)
    as [report [E [T [O [_ [S [K _]]]]]]].
  - reflexivity.
  - exists report. eexists. split; [exact E|]. split; [exact T|]. split.
    + destruct (Updater.ok report); [|reflexivity].
      specialize (proj1 O eq_refl Sample.rate_limited (or_intror (or_introl eq_refl))).
      discriminate.
    + split.
      * apply (S ltac:(repeat constructor; simpl; intuition discriminate)
                 Sample.rate_limited). simpl. auto.
      * split.
        -- apply (K Sample.fiat_ok _ "EUR_USD" (or_introl eq_refl) eq_refl eq_refl).
           simpl. auto.
        -- apply (K Sample.fiat_ok _ "GBP_USD" (or_introl eq_refl) eq_refl eq_refl).
           simpl. auto.
Defined.

(** C8, the claim as stated fails.  The provider reports [EUR = 0]: the
    fetch succeeds, returns the other configured currency and leaves
    [EUR_USD] out. *)
Lemma fetch_rates_skips_zero :
  PyDict.get "EUR" (ApiClients.p_rates Sample.zero_payload)
  = Some (ApiClients.RawNumber 0)
  /\ ApiClients.fetch_rates (RT := iso_runtime) Sample.cfg Sample.zero_exchange
     = Ok ([("GBP_USD", 2%float)],
           mk_FetchMeta (Some "ExchangeRate-API") (Some "2020-03-27T00:00:01Z")
             (Some 120) (Some 200) None).
Proof. split; vm_compute; reflexivity. Qed.

(** The one entry the fetch above returns is the inverse of a value that is
    not zero; and one turn of the loop on a provider value of infinity
    stores [0.0]. *)
Lemma fetch_rates_zero_value_witness :
  inverted_nonzero Sample.cfg (ApiClients.p_rates Sample.zero_payload)
    "GBP_USD" 2%float
  /\ ApiClients.fiat_step Sample.cfg [("EUR", ApiClients.RawNumber infinity)] [] "EUR"
     = Ok [("EUR_USD", 0%float)].
Proof.
  destruct (fetch_rates_zero_value (RT := iso_runtime) Sample.cfg Sample.zero_exchange)
    as [_ [_ [I F]]].
  split.
  - apply (I _ Sample.zero_payload [("GBP_USD", 2%float)]
             (mk_FetchMeta (Some "ExchangeRate-API") (Some "2020-03-27T00:00:01Z")
                (Some 120) (Some 200) None)
             eq_refl eq_refl).
    + vm_compute; reflexivity.
    + reflexivity.
  - apply (F [("EUR", ApiClients.RawNumber infinity)] [] "EUR"); reflexivity.
Defined.

(** The whole fetch on an answer with [EUR = Infinity] (as [json.loads]
    reads the literal [Infinity] or [1e999]): [EUR_USD] is returned with the
    rate [0.0]. *)
Lemma fetch_rates_inverts_infinity :
  ApiClients.fetch_rates (RT := iso_runtime) Sample.cfg Sample.infinite_exchange
  = Ok ([("EUR_USD", 0%float); ("GBP_USD", 2%float)],
        mk_FetchMeta (Some "ExchangeRate-API") (Some "2020-03-27T00:00:01Z")
          (Some 120) (Some 200) None).
Proof. vm_compute; reflexivity. Qed.

(** Bridge lookup with [EUR_USD = 2.0] and [GBP_USD = 4.0]. *)
Lemma get_rate_bridge_witness :
  UseCases.get_rate (RT := iso_runtime) 300 1000 1001 Sample.utc_now
    Sample.refresh_down "EUR" "GBP"
    (Sample.uc_of [("EUR_USD", Sample.point 2); ("GBP_USD", Sample.point 4)])
  = (Ok (UseCases.mk_RateInfo "EUR" "GBP" 0.5 "2024-01-01T00:00:00Z" false),
     Sample.uc_read 1000 [("EUR_USD", Sample.point 2); ("GBP_USD", Sample.point 4)]).
Proof.
  apply (proj2 (proj2 (get_rate_bridge (RT := iso_runtime) 300 1000 1001
                         Sample.utc_now Sample.refresh_down "EUR" "GBP"
                         (Sample.uc_of [("EUR_USD", Sample.point 2);
                                        ("GBP_USD", Sample.point 4)])
                         (mk_Snapshot [("EUR_USD", Sample.point 2);
                                       ("GBP_USD", Sample.point 4)] None)
                         (Sample.uc_read 1000 [("EUR_USD", Sample.point 2);
                                               ("GBP_USD", Sample.point 4)])
                         supported_EUR supported_GBP eq_refl eq_refl eq_refl
                         ltac:(discriminate) ltac:(discriminate)))
           (Sample.point 2) (Sample.point 4) eq_refl eq_refl eq_refl eq_refl).
Defined.

(** Inverse lookup with only [EUR_USD = 4.0] stored, and with only
    [EUR_USD = 0.0] stored. *)
Lemma get_rate_inverse_witness :
  UseCases.get_rate (RT := iso_runtime) 300 1000 1001 Sample.utc_now
    Sample.refresh_down "USD" "EUR" (Sample.uc_of [("EUR_USD", Sample.point 4)])
  = (Ok (UseCases.mk_RateInfo "USD" "EUR" 0.25 "2024-01-01T00:00:00Z" false),
     Sample.uc_read 1000 [("EUR_USD", Sample.point 4)])
  /\ UseCases._get_pair_rate 300 1000 "USD" "EUR"
       (Sample.uc_of [("EUR_USD", Sample.point 0)])
     = (Raise (ApiRequestError "Нулевой курс в кеше"),
        Sample.uc_read 1000 [("EUR_USD", Sample.point 0)]).
Proof.
  split.
  - apply (proj1 (get_rate_inverse (RT := iso_runtime) 300 1000 1001
                    Sample.utc_now Sample.refresh_down "EUR" "USD"
                    (Sample.uc_of [("EUR_USD", Sample.point 4)])
                    (mk_Snapshot [("EUR_USD", Sample.point 4)] None)
                    (Sample.uc_read 1000 [("EUR_USD", Sample.point 4)])
                    (Sample.point 4) supported_EUR supported_USD
                    eq_refl eq_refl eq_refl) eq_refl).
  - apply (proj2 (get_rate_inverse (RT := iso_runtime) 300 1000 1001
                    Sample.utc_now Sample.refresh_down "EUR" "USD"
                    (Sample.uc_of [("EUR_USD", Sample.point 0)])
                    (mk_Snapshot [("EUR_USD", Sample.point 0)] None)
                    (Sample.uc_read 1000 [("EUR_USD", Sample.point 0)])
                    (Sample.point 0) supported_EUR supported_USD
                    eq_refl eq_refl eq_refl) eq_refl).
Defined.

(** C10, the claim as stated fails.  [EUR_EUR] is absent and [EUR_USD] is
    stored: [get_rate("EUR", "EUR")] takes the bridge step and returns the
    rate [1.0], with no refresh. *)
Lemma get_rate_same_code_bridged :
  PyDict.get (Utils.pair_key "EUR" "EUR") [("EUR_USD", Sample.point 0.5)] = None
  /\ UseCases.get_rate (RT := iso_runtime) 300 1000 1001 Sample.utc_now
       Sample.refresh_down "EUR" "EUR" (Sample.uc_of [("EUR_USD", Sample.point 0.5)])
     = (Ok (UseCases.mk_RateInfo "EUR" "EUR" 1 "2024-01-01T00:00:00Z" false),
        Sample.uc_read 1000 [("EUR_USD", Sample.point 0.5)]).
Proof. split; vm_compute; reflexivity. Qed.

(** [get_rate("USD", "USD")] on a snapshot without [USD_USD], when the
    refresh fails: the error of the refresh comes back. *)
Lemma get_rate_same_code_witness :
  UseCases.get_rate (RT := iso_runtime) 300 1000 1001 Sample.utc_now
    Sample.refresh_down "USD" "USD" (Sample.uc_of [("EUR_USD", Sample.point 0.5)])
  = (Raise (ApiRequestError "No rates fetched from any source"),
     Sample.uc_read 1000 [("EUR_USD", Sample.point 0.5)]).
Proof.
  apply (proj1 (proj2 (proj1 (get_rate_same_code (RT := iso_runtime) 300 1000 1001
                                Sample.utc_now Sample.refresh_down
                                (Sample.uc_of [("EUR_USD", Sample.point 0.5)])
                                (mk_Snapshot [("EUR_USD", Sample.point 0.5)] None)
                                (Sample.uc_read 1000 [("EUR_USD", Sample.point 0.5)])
                                eq_refl)
                         eq_refl))).
  reflexivity.
Defined.

(** History dedup on a history of two rows and a batch of two: the batch
    brings the id of the second row again, with another rate, and one new
    id.  The stored row stays as it was and the new one is appended. *)
Lemma append_history_distinct_ids_witness :
  let entries := [Sample.eth_row_again; Sample.sol_row] in
  let after := Database.read_history
                 (Database.append_history Sample.db_two_rows entries) in
  In (h_id Sample.eth_row_again) (map h_id (Database.read_history Sample.db_two_rows))
  /\ NoDup (map h_id after)
  /\ In (h_id Sample.sol_row) (map h_id after)
  /\ List.length after = 3%nat
  /\ after = [Sample.row; Sample.eth_row; Sample.sol_row].
Proof.
  assert (D : forall a b : option string, a <> b -> NoDup [a; b]).
  { intros a b N. constructor; [intros [E | []]; now apply N|].
    constructor; [intros []|constructor]. }
  destruct (append_history_distinct_ids Sample.db_two_rows
              [Sample.eth_row_again; Sample.sol_row]) as [N [I L]].
  - apply D. discriminate.
  - apply D. discriminate.
  - cbv zeta. split; [right; left; reflexivity|].
    split; [exact N|]. split; [apply I; right; right; left; reflexivity|].
    split; [exact L | reflexivity].
Defined.

(** The unknown code [XXX], asked against [USD] and against the malformed
    code [!!]. *)
Lemma get_rate_unknown_currency_witness :
  UseCases.get_rate (RT := iso_runtime) 300 1000 1001 Sample.utc_now
    Sample.refresh_down "XXX" "USD" (Sample.uc_of [("EUR_USD", Sample.point 4)])
  = (Raise (CurrencyNotFoundError "XXX"), Sample.uc_of [("EUR_USD", Sample.point 4)])
  /\ UseCases.get_rate (RT := iso_runtime) 300 1000 1001 Sample.utc_now
       Sample.refresh_down "XXX" "!!" (Sample.uc_of [("EUR_USD", Sample.point 4)])
     = (Raise (ValueError "code — верхний регистр, 2–5 символов, без пробелов"),
        Sample.uc_of [("EUR_USD", Sample.point 4)]).
Proof.
  split.
  - apply (get_rate_unknown_currency (RT := iso_runtime) 300 1000 1001 Sample.utc_now
             Sample.refresh_down "XXX" "USD" _ eq_refl eq_refl).
  - apply (get_rate_unknown_currency (RT := iso_runtime) 300 1000 1001 Sample.utc_now
             Sample.refresh_down "XXX" "!!" _ eq_refl eq_refl).
Defined.


(** The cache five minutes and five minutes and one second after it was
    filled, with a TTL of 300 seconds. *)
Lemma cached_rates_ttl_witness :
  UseCases._cached_rates 300 1300
    (UseCases.mk_UC (Some (1000, mk_Snapshot [] None)) Sample.db)
  = (mk_Snapshot [] None,
     UseCases.mk_UC (Some (1000, mk_Snapshot [] None)) Sample.db)
  /\ UseCases._cached_rates 300 1301
       (UseCases.mk_UC (Some (1000, mk_Snapshot [] None)) Sample.db)
     = (Database.read_rates Sample.db,
        UseCases.mk_UC (Some (1301, Database.read_rates Sample.db)) Sample.db).
Proof.
  split.
  - apply (proj1 (cached_rates_ttl 300 1000 (mk_Snapshot [] None) Sample.db 1300)).
    simpl; lia.
  - apply (proj2 (cached_rates_ttl 300 1000 (mk_Snapshot [] None) Sample.db 1301)).
    simpl; lia.
Defined.

(** Two clients return [EUR_USD]; the later one stays in [combined]. *)
Lemma run_clients_later_client_wins_witness :
  PyDict.get "EUR_USD"
    (Updater.combined
       (Updater.run_clients (RT := iso_runtime) Sample.cfg "2024-01-02T00:00:05Z"
          [Updater.mk_Client "CoinGeckoClient" (Ok [("EUR_USD", 3%float)]) empty_meta;
           Sample.fiat_ok; Sample.rate_limited]))
  = Some (mk_RatePoint 1.125 "2024-01-02T00:00:00Z" "ExchangeRate-API").
Proof.
  apply (run_clients_later_client_wins (RT := iso_runtime) Sample.cfg
           "2024-01-02T00:00:05Z"
           [Updater.mk_Client "CoinGeckoClient" (Ok [("EUR_USD", 3%float)]) empty_meta]
           Sample.fiat_ok [Sample.rate_limited]
           [("EUR_USD", 1.125%float); ("GBP_USD", 1.25%float)] "EUR_USD" 1.125%float
           eq_refl eq_refl).
  - repeat constructor; simpl; intuition discriminate.
  - simpl. auto.
  - repeat constructor.
Defined.

Lemma client_step_history_witness :
  exists added,
    Updater.history_entries
      (Updater.client_step (RT := iso_runtime) Sample.cfg "2024-01-02T00:00:10Z"
         Updater.init_state Sample.fiat_ok)
    = Updater.history_entries Updater.init_state ++ added
    /\ Forall2 (recorded "ExchangeRate-API" "2024-01-02T00:00:00Z")
         [("EUR_USD", 1.125%float); ("GBP_USD", 1.25%float)] added.
Proof.
  exact (client_step_history (RT := iso_runtime) Sample.cfg "2024-01-02T00:00:10Z"
           Updater.init_state Sample.fiat_ok
           [("EUR_USD", 1.125%float); ("GBP_USD", 1.25%float)] eq_refl eq_refl).
Defined.

(** Both clients return in both runs.  The second run is one second later:
    the CoinGecko request falls in the same second as the first, the
    ExchangeRate-API answer carries the provider's timestamp again, and the
    latencies and the [ETag] differ. *)
Lemma run_update_again_witness :
  let db1 := snd (Updater.run_update (RT := iso_runtime) Sample.cfg
                    SampleRuns.first_run "2024-01-02T00:00:09Z" Sample.db) in
  let db2 := snd (Updater.run_update (RT := iso_runtime) Sample.cfg
                    SampleRuns.same_second "2024-01-02T00:00:10Z" db1) in
  List.length (Database.read_history db1) = 3%nat
  /\ pairs (Database.read_rates db2) = pairs (Database.read_rates db1)
  /\ Database.read_history db2 = Database.read_history db1.
Proof.
  cbv zeta. split; [reflexivity|].
  apply (run_update_again (RT := iso_runtime) Sample.cfg
           SampleRuns.first_run SampleRuns.same_second
           "2024-01-02T00:00:09Z" "2024-01-02T00:00:10Z" Sample.db).
  - repeat constructor; unfold timestamped; simpl; intros; discriminate.
  - repeat constructor.
Defined.

(** Outside the premise: the same rates six hours later.  The CoinGecko
    client stamps its pair with the time of the new request, so the pair is
    stored under the new timestamp and the history gains a row; the
    ExchangeRate-API pairs, still under the provider's timestamp, add
    nothing. *)
Lemma coingecko_later_request_appends :
  let db1 := snd (Updater.run_update (RT := iso_runtime) Sample.cfg
                    SampleRuns.first_run "2024-01-02T00:00:09Z" Sample.db) in
  let db2 := snd (Updater.run_update (RT := iso_runtime) Sample.cfg
                    SampleRuns.six_hours_later "2024-01-02T05:59:59Z" db1) in
  map h_id (Database.read_history db1)
  = [Some "BTC_USD_2024-01-02T00:00:10Z"; Some "EUR_USD_2024-01-02T00:00:00Z";
     Some "GBP_USD_2024-01-02T00:00:00Z"]
  /\ map h_id (Database.read_history db2)
     = [Some "BTC_USD_2024-01-02T00:00:10Z"; Some "EUR_USD_2024-01-02T00:00:00Z";
        Some "GBP_USD_2024-01-02T00:00:00Z"; Some "BTC_USD_2024-01-02T06:00:00Z"]
  /\ option_map updated_at (PyDict.get "BTC_USD" (pairs (Database.read_rates db1)))
     = Some "2024-01-02T00:00:10Z"
  /\ option_map updated_at (PyDict.get "BTC_USD" (pairs (Database.read_rates db2)))
     = Some "2024-01-02T06:00:00Z".
Proof. cbv zeta. repeat split; vm_compute; reflexivity. Qed.

(** [hexdigest] on the test vectors of the standard, [format_4f] on values
    with ties, signs and special values. *)
Lemma hexdigest_vectors :
  SHA256.hexdigest EmptyString
  = "e3b0c44298fc1c149afbf4c8996fb92427ae41e4649b934ca495991b7852b855"
  /\ SHA256.hexdigest "abc"
     = "ba7816bf8f01cfea414140de5dae2223b00361a396177a9cb410ff61f20015ad"
  /\ SHA256.hexdigest "abcdbcdecdefdefgefghfghighijhijkijkljklmklmnlmnomnopnopq"
     = "248d6a61d20638b8e5c026930c3e6039a33ce45964ff2167f6ecedd419db06c1".
Proof. vm_compute. repeat split. Qed.

Lemma format_4f_values :
  map Format.format_4f
    [100; 0.5; -1.5; 0.03125; 0.09375; 0x1p-20; -0; nan; infinity]%float
  = ["100.0000"; "0.5000"; "-1.5000"; "0.0312"; "0.0938"; "0.0000"; "-0.0000";
     "nan"; "inf"].
Proof. vm_compute. reflexivity. Qed.

Lemma upsert_portfolio_get_witness :
  exists f',
    Accounts.upsert_portfolio SampleAccounts.files
      (Accounts.mk_PortfolioDoc (Some 2) (Some [])) = Return f'
    /\ Accounts.get_portfolio f' 2 = Some (Accounts.mk_PortfolioDoc (Some 2) (Some []))
    /\ (forall other, other <> 2 ->
        Accounts.get_portfolio f' other
        = Accounts.get_portfolio SampleAccounts.files other)
    /\ (Accounts.get_portfolio SampleAccounts.files 2 = None ->
        Accounts.list_portfolios f'
        = Accounts.list_portfolios SampleAccounts.files
          ++ [Accounts.mk_PortfolioDoc (Some 2) (Some [])])
    /\ (Accounts.get_portfolio SampleAccounts.files 2 <> None ->
        List.length (Accounts.list_portfolios f')
        = List.length (Accounts.list_portfolios SampleAccounts.files))
    /\ Accounts.users_json f' = Accounts.users_json SampleAccounts.files
    /\ Accounts.session_json f' = Accounts.session_json SampleAccounts.files.
Proof.
  exact (upsert_portfolio_get SampleAccounts.files
           (Accounts.mk_PortfolioDoc (Some 2) (Some [])) 2 eq_refl).
Defined.

Lemma sample_portfolio_ok : portfolio_ok SampleAccounts.portfolio.
Proof.
  repeat split; simpl; try lia.
  - repeat constructor; simpl; intuition discriminate.
  - repeat constructor.
Qed.

Lemma add_currency_padded_code_witness :
  Portfolio.get_wallet (Portfolio.mk 1 [(" BTC", Wallet.mk " BTC" 0)]) " btc"
  = Portfolio.get_wallet (Portfolio.mk 1 []) " btc".
Proof.
  apply (add_currency_padded_code (Portfolio.mk 1 []) " btc" (Wallet.mk " BTC" 0)
           (Portfolio.mk 1 [(" BTC", Wallet.mk " BTC" 0)])).
  - reflexivity.
  - discriminate.
Defined.

Lemma save_then_load_witness :
  let f' := snd (CoreUseCases.save_portfolio SampleAccounts.portfolio
                   SampleAccounts.no_files) in
  fst (CoreUseCases.save_portfolio SampleAccounts.portfolio SampleAccounts.no_files)
  = Return tt
  /\ CoreUseCases.load_portfolio 1 f' = (Return SampleAccounts.portfolio, f')
  /\ (forall other, other <> 1 ->
      Accounts.get_portfolio f' other
      = Accounts.get_portfolio SampleAccounts.no_files other).
Proof.
  exact (save_then_load SampleAccounts.portfolio SampleAccounts.no_files
           sample_portfolio_ok).
Defined.

Lemma buy_effects_witness :
  let app' := snd (CoreUseCases.buy 300 0 1 "btc" 2 "USD" SampleAccounts.app) in
  exists p f1 p' upd,
    CoreUseCases.load_portfolio 1 SampleAccounts.files = (Return p, f1)
    /\ CoreUseCases.load_portfolio 1 (CoreUseCases.app_files app')
       = (Return p', CoreUseCases.app_files app')
    /\ fst (UseCases._get_pair_rate 300 0 "BTC" "USD" SampleAccounts.rates)
       = Ok (CoreUseCases.t_rate SampleAccounts.bought, upd)
    /\ CoreUseCases.t_cost_usd SampleAccounts.bought
       = Some (2 * CoreUseCases.t_rate SampleAccounts.bought)%float
    /\ held p' "USD"
       = Some (or_zero (held p "USD")
               - 2 * CoreUseCases.t_rate SampleAccounts.bought)%float
    /\ held p' "BTC" = Some (or_zero (held p "BTC") + 2)%float
    /\ (forall k, k <> "USD" -> k <> "BTC" -> held p' k = held p k).
Proof.
  apply (buy_effects 300 0 1 "btc" 2 "USD" SampleAccounts.app SampleAccounts.bought
           (snd (CoreUseCases.buy 300 0 1 "btc" 2 "USD" SampleAccounts.app))).
  - vm_compute. reflexivity.
  - reflexivity.
  - discriminate.
Defined.

Lemma sell_effects_witness :
  let app' := snd (CoreUseCases.sell 300 0 1 "btc" 0.5 "USD" SampleAccounts.app) in
  exists p f1 p' upd bal,
    CoreUseCases.load_portfolio 1 SampleAccounts.files = (Return p, f1)
    /\ CoreUseCases.load_portfolio 1 (CoreUseCases.app_files app')
       = (Return p', CoreUseCases.app_files app')
    /\ fst (UseCases._get_pair_rate 300 0 "BTC" "USD" SampleAccounts.rates)
       = Ok (CoreUseCases.t_rate SampleAccounts.sold, upd)
    /\ CoreUseCases.t_proceeds_usd SampleAccounts.sold
       = Some (0.5 * CoreUseCases.t_rate SampleAccounts.sold)%float
    /\ held p "BTC" = Some bal
    /\ (bal <? 0.5)%float = false
    /\ held p' "BTC" = Some (bal - 0.5)%float
    /\ held p' "USD"
       = Some (or_zero (held p "USD")
               + 0.5 * CoreUseCases.t_rate SampleAccounts.sold)%float
    /\ (forall k, k <> "USD" -> k <> "BTC" -> held p' k = held p k).
Proof.
  apply (sell_effects 300 0 1 "btc" 0.5 "USD" SampleAccounts.app SampleAccounts.sold
           (snd (CoreUseCases.sell 300 0 1 "btc" 0.5 "USD" SampleAccounts.app))).
  - vm_compute. reflexivity.
  - reflexivity.
  - discriminate.
Defined.

Lemma supported_BTC : supported "btc".
Proof. split; [reflexivity | eexists; reflexivity]. Qed.

Lemma buy_insufficient_funds_witness :
  CoreUseCases.buy 300 0 1 "btc" 3 "USD" SampleAccounts.app
  = (Throw (InsufficientFundsError (or_zero (held SampleAccounts.portfolio "USD"))
              (3 * 40) "USD"),
     CoreUseCases.mk_App SampleAccounts.rates_read SampleAccounts.files).
Proof.
  apply (buy_insufficient_funds 300 0 1 "btc" 3 "USD" SampleAccounts.app
           SampleAccounts.portfolio SampleAccounts.files 40
           "2024-01-01T00:00:00Z" SampleAccounts.rates_read supported_BTC).
  - reflexivity.
  - discriminate.
  - reflexivity.
  - reflexivity.
  - reflexivity.
  - reflexivity.
Defined.

Lemma sell_refused_witness :
  CoreUseCases.sell 300 0 1 "eth" 1 "USD" SampleAccounts.app
  = (Throw (Builtin (ValueError (CoreUseCases.cat ["У вас нет кошелька '"; "ETH";
       "'. Добавьте валюту: она создаётся автоматически при первой покупке."]))),
     CoreUseCases.mk_App SampleAccounts.rates SampleAccounts.files).
Proof.
  apply (sell_refused 300 0 1 "eth" 1 "USD" SampleAccounts.app
           SampleAccounts.portfolio SampleAccounts.files).
  - split; [reflexivity | eexists; reflexivity].
  - reflexivity.
  - reflexivity.
  - reflexivity.
Defined.

Lemma buy_usd_is_deposit_witness :
  let app' := snd (CoreUseCases.buy 300 0 1 "usd" 5 "USD" SampleAccounts.app) in
  CoreUseCases.app_rates app' = SampleAccounts.rates
  /\ CoreUseCases.t_rate SampleAccounts.topped_up = 1%float
  /\ CoreUseCases.t_cost_usd SampleAccounts.topped_up = None
  /\ exists p f1 p',
       CoreUseCases.load_portfolio 1 SampleAccounts.files = (Return p, f1)
       /\ CoreUseCases.load_portfolio 1 (CoreUseCases.app_files app')
          = (Return p', CoreUseCases.app_files app')
       /\ held p' "USD" = Some (or_zero (held p "USD") + 5)%float
       /\ (forall k, k <> "USD" -> held p' k = held p k).
Proof.
  apply (buy_usd_is_deposit 300 0 1 "usd" 5 "USD" SampleAccounts.app
           SampleAccounts.topped_up
           (snd (CoreUseCases.buy 300 0 1 "usd" 5 "USD" SampleAccounts.app))).
  - vm_compute. reflexivity.
  - reflexivity.
Defined.

Lemma buy_nan_amount_witness :
  (exists t f' p',
     CoreUseCases.buy 300 0 1 "btc" nan "USD" SampleAccounts.app
     = (Return t, CoreUseCases.mk_App SampleAccounts.rates_read f')
     /\ CoreUseCases.t_cost_usd t = Some nan
     /\ CoreUseCases.load_portfolio 1 f' = (Return p', f')
     /\ held p' "USD" = Some nan)
  /\ (forall w a available required code,
        Wallet.balance w = nan ->
        Wallet.withdraw w a <> Throw (InsufficientFundsError available required code)).
Proof.
  apply (buy_nan_amount 300 0 1 "btc" "USD" SampleAccounts.app
           SampleAccounts.portfolio SampleAccounts.files
           (40%float, "2024-01-01T00:00:00Z") SampleAccounts.rates_read
           supported_BTC).
  - discriminate.
  - reflexivity.
  - reflexivity.
Defined.

Lemma show_portfolio_rows_witness :
  let app' := snd (CoreUseCases.show_portfolio 300 (fun _ => 0) 1 "USD"
                     SampleAccounts.app) in
  exists p,
    CoreUseCases.load_portfolio 1 SampleAccounts.files
    = (Return p, CoreUseCases.app_files app')
    /\ UseCases.uc_db (CoreUseCases.app_rates app')
       = UseCases.uc_db SampleAccounts.rates
    /\ CoreUseCases.sp_base SampleAccounts.shown = "USD"
    /\ (CoreUseCases.sp_empty SampleAccounts.shown = true
        <-> Portfolio._wallets p = [])
    /\ Permutation
         (map (fun r => (CoreUseCases.row_code r, CoreUseCases.row_balance r))
              (CoreUseCases.sp_rows SampleAccounts.shown))
         (map (fun kw => (fst kw, Wallet.balance (snd kw))) (Portfolio._wallets p))
    /\ Sorted code_le
         (map CoreUseCases.row_code (CoreUseCases.sp_rows SampleAccounts.shown))
    /\ CoreUseCases.sp_total SampleAccounts.shown
       = fold_left (fun t r => (t + CoreUseCases.row_value r)%float)
           (CoreUseCases.sp_rows SampleAccounts.shown) 0%float.
Proof.
  apply (show_portfolio_rows 300 (fun _ => 0) 1 "USD" SampleAccounts.app
           SampleAccounts.shown
           (snd (CoreUseCases.show_portfolio 300 (fun _ => 0) 1 "USD"
                   SampleAccounts.app))).
  vm_compute. reflexivity.
Defined.

Lemma register_then_login_witness :
  let f1 := snd (CoreUseCases.register (RT := iso_runtime) "alice" "secret"
                   "c2FsdHNhbHQ" SampleAccounts.clock SampleAccounts.no_files) in
  exists uid f2,
    Accounts.next_user_id SampleAccounts.no_files = Return uid
    /\ CoreUseCases.login (RT := iso_runtime) 100 "alice" "secret" f1
       = (Return (CoreUseCases.cat ["Вы вошли как '"; "alice"; "'"]), f2)
    /\ CoreUseCases.current_user f2 = Some (Accounts.mk_SessionDoc uid "alice")
    /\ Accounts.users_json f2 = Accounts.users_json f1.
Proof.
  apply (register_then_login (RT := iso_runtime) 100 "alice" "secret" "c2FsdHNhbHQ"
           SampleAccounts.clock SampleAccounts.no_files
           "Пользователь 'alice' зарегистрирован (id=1). Войдите: login --username alice --password ****").
  - vm_compute. reflexivity.
  - reflexivity.
  - vm_compute. reflexivity.
Defined.

Lemma register_padded_name_witness :
  let f1 := snd (CoreUseCases.register (RT := iso_runtime) "bob " "secret"
                   "c2FsdHNhbHQ" SampleAccounts.clock SampleAccounts.no_files) in
  Accounts.find_user_by_username f1 "bob " = None
  /\ (exists uid,
        In (new_user_doc (RT := iso_runtime) uid "bob " "secret" "c2FsdHNhbHQ"
              SampleAccounts.clock)
           (Accounts.list_users f1))
  /\ (forall password', exists m,
        CoreUseCases.login (RT := iso_runtime) 100 "bob " password' f1
        = (Throw (Builtin (ValueError m)), f1)).
Proof.
  apply (register_padded_name (RT := iso_runtime) 100 "bob " "secret" "c2FsdHNhbHQ"
           SampleAccounts.clock SampleAccounts.no_files
           "Пользователь 'bob ' зарегистрирован (id=1). Войдите: login --username bob  --password ****").
  - vm_compute. reflexivity.
  - discriminate.
Defined.
